(** * Product-management portal backend: CSV ingestion and bulk save

    A shallow embedding of four request handlers of the portal,

      - [lambda_process_s3_file/lambda_process_s3.py], the queue consumer
        that validates an uploaded CSV against the attribute definitions
        and records the outcome in a job document and a result artifact;
      - [lambda_approve_save_products/lambda_approve_create_products.py],
        the bulk save of approved rows;
      - [lambda_initiate_processing/lambda_initiate_s3_processing.py],
        which starts a job by sending its message to the queue;
      - [lambda_get_job_status_with_presigned_url/lambda_get_job_status.py],
        the status poll;

    together with the Python primitives they rely on ([str.strip],
    [str.split], [repr], [float], [int], truthiness).

    Conventions.  A Python [str] is a [string] whose characters are code
    points below 256; integers are [Z]; a Python [float] is a binary64
    value of [spec_float]; dictionaries keyed by strings are [gmap]s or
    records of optional fields; the document store, the blob store and
    the clock are explicit state, and the answers of the external
    services during one delivery are an explicit input. *)

From Stdlib Require Import ZArith NArith String Ascii List Bool Lia.
From Stdlib Require Import DecimalString Floats.SpecFloat.
From stdpp Require Import gmap strings list.

Set Warnings "-register-all".

Local Open Scope string_scope.
Local Open Scope Z_scope.

(* ===================================================================== *)
(** ** Python string primitives *)
(* ===================================================================== *)

Module PyStr.

Definition code (c : ascii) : N := N_of_ascii c.

(** [str.isspace] on one character, for code points below 256. *)
Definition is_space (c : ascii) : bool :=
  let n := code c in
  (((9 <=? n) && (n <=? 13)) || ((28 <=? n) && (n <=? 32))
   || (n =? 133) || (n =? 160))%N.

Fixpoint lstrip_by (p : ascii -> bool) (s : string) : string :=
  match s with
  | EmptyString => EmptyString
  | String c r => if p c then lstrip_by p r else s
  end.

Fixpoint rstrip_by (p : ascii -> bool) (s : string) : string :=
  match s with
  | EmptyString => EmptyString
  | String c r =>
      match rstrip_by p r with
      | EmptyString => if p c then EmptyString else String c EmptyString
      | r' => String c r'
      end
  end.

(** [s.strip()] *)
Definition strip (s : string) : string :=
  rstrip_by is_space (lstrip_by is_space s).

(** [s.rstrip('/')] *)
Definition rstrip_char (ch : ascii) (s : string) : string :=
  rstrip_by (fun c => if ascii_dec c ch then true else false) s.

Definition is_empty (s : string) : bool :=
  match s with EmptyString => true | _ => false end.

(** [s.split(sep)] for a one-character separator: always at least one
    piece, empty pieces kept. *)
Fixpoint split_on (sep : ascii) (s : string) : list string :=
  match s with
  | EmptyString => [EmptyString]
  | String c r =>
      if ascii_dec c sep then EmptyString :: split_on sep r
      else match split_on sep r with
           | p :: ps => String c p :: ps
           | [] => [String c EmptyString]
           end
  end.

(** [len(s)] *)
Definition len (s : string) : Z := Z.of_nat (String.length s).

(** [str(n)] for an integer. *)
Definition str_of_Z (z : Z) : string := NilZero.string_of_int (Z.to_int z).

(** [x in l] for a list of strings and a string. *)
Definition mem (x : string) (l : list string) : bool :=
  existsb (String.eqb x) l.

(** *** [repr] of a string and of a list of strings *)

Fixpoint contains_char (ch : ascii) (s : string) : bool :=
  match s with
  | EmptyString => false
  | String c r => (if ascii_dec c ch then true else false) || contains_char ch r
  end.

Definition hex_digit (n : N) : ascii :=
  if (n <? 10)%N then ascii_of_N (48 + n) else ascii_of_N (87 + n).

Definition hex_escape (c : ascii) : string :=
  String "\" (String "x"
    (String (hex_digit (code c / 16)) (String (hex_digit (code c mod 16)) EmptyString))).

(** Printable code points below 256, as [repr] sees them. *)
Definition is_printable (c : ascii) : bool :=
  let n := code c in
  (((32 <=? n) && (n <? 127)) || ((161 <=? n) && negb (n =? 173)))%N.

Definition repr_char (quote : ascii) (c : ascii) : string :=
  if ascii_dec c quote then String "\" (String c EmptyString)
  else if ascii_dec c "\" then "\\"
  else if (code c =? 9)%N then "\t"
  else if (code c =? 10)%N then "\n"
  else if (code c =? 13)%N then "\r"
  else if is_printable c then String c EmptyString
  else hex_escape c.

Fixpoint repr_body (quote : ascii) (s : string) : string :=
  match s with
  | EmptyString => EmptyString
  | String c r => repr_char quote c ++ repr_body quote r
  end.

(** The double quote, code point 34. *)
Definition double_quote : ascii := ascii_of_N 34.

Definition repr_str (s : string) : string :=
  let quote : ascii :=
    if contains_char "'" s && negb (contains_char double_quote s) then double_quote
    else "'"%char in
  String quote (repr_body quote s) ++ String quote EmptyString.

Fixpoint join (sep : string) (l : list string) : string :=
  match l with
  | [] => EmptyString
  | [x] => x
  | x :: r => x ++ sep ++ join sep r
  end.

Definition repr_list (l : list string) : string :=
  "[" ++ join ", " (map repr_str l) ++ "]".

(** [needle in hay] as a proposition. *)
Definition mentions (hay needle : string) : Prop :=
  exists pre post, hay = pre ++ needle ++ post.

End PyStr.

(* ===================================================================== *)
(** ** Python numbers: [float(str)], [is_integer], [int(float)], [int(str)] *)
(* ===================================================================== *)

Module PyNum.
Import PyStr.

Definition prec : Z := 53.
Definition emax : Z := 1024.

Definition is_digit (c : ascii) : bool :=
  ((48 <=? code c) && (code c <=? 57))%N.

Definition digit_val (c : ascii) : Z := Z.of_N (code c) - 48.

(** [num / den] rounded to the nearest binary64, ties to even: the
    quotient is taken with at least 64 significant bits and the
    remainder decides the rounding direction. *)
Definition round_ratio (neg : bool) (num den : positive) : spec_float :=
  let k := Z.max 0 (64 + Z.log2 (Zpos den) - Z.log2 (Zpos num)) in
  let n := Zpos num * 2 ^ k in
  let q := n / Zpos den in
  let r := n mod Zpos den in
  let loc := if r =? 0 then loc_Exact else loc_Inexact (2 * r ?= Zpos den) in
  binary_round_aux prec emax neg q (- k) loc.

(** The binary64 nearest to [(-1)^neg * m * 10^e10]. *)
Definition decimal_to_float (neg : bool) (m e10 : Z) : spec_float :=
  match m with
  | Zpos p =>
      if 0 <=? e10 then round_ratio neg (p * Z.to_pos (10 ^ e10)) 1
      else round_ratio neg p (Z.to_pos (10 ^ (- e10)))
  | _ => S754_zero neg
  end.

(** Underscores are removed when each one stands between two digits;
    any other underscore makes the literal invalid. *)
Fixpoint drop_underscores (prev : option ascii) (s : string) : option string :=
  match s with
  | EmptyString =>
      match prev with
      | Some "_"%char => None
      | _ => Some EmptyString
      end
  | String c r =>
      if ascii_dec c "_" then
        match prev with
        | Some p => if is_digit p then drop_underscores (Some c) r else None
        | None => None
        end
      else
        match prev with
        | Some "_"%char =>
            if is_digit c then String c <$> drop_underscores (Some c) r else None
        | _ => String c <$> drop_underscores (Some c) r
        end
  end.

(** Reads a run of digits: the accumulated value, the number of digits
    read and the rest of the string. *)
Fixpoint take_digits (s : string) (acc : Z) (cnt : nat) : Z * nat * string :=
  match s with
  | String c r =>
      if is_digit c then take_digits r (10 * acc + digit_val c) (S cnt)
      else (acc, cnt, s)
  | EmptyString => (acc, cnt, s)
  end.

Definition take_sign (s : string) : bool * string :=
  match s with
  | String "-" r => (true, r)
  | String "+" r => (false, r)
  | _ => (false, s)
  end.

Definition lower (c : ascii) : ascii :=
  if ((65 <=? code c) && (code c <=? 90))%N then ascii_of_N (code c + 32) else c.

Fixpoint lower_str (s : string) : string :=
  match s with
  | EmptyString => EmptyString
  | String c r => String (lower c) (lower_str r)
  end.

(** The exponent part: empty, or [e]/[E], an optional sign and at least
    one digit, up to the end of the string. *)
Definition parse_exponent (s : string) : option Z :=
  match s with
  | EmptyString => Some 0
  | String c r =>
      if ascii_dec (lower c) "e" then
        let '(neg, r1) := take_sign r in
        match take_digits r1 0 0 with
        | (_, O, _) => None
        | (v, _, EmptyString) => Some (if neg then - v else v)
        | _ => None
        end
      else None
  end.

Definition parse_decimal (neg : bool) (s : string) : option spec_float :=
  let '(ip, ni, s1) := take_digits s 0 0 in
  let '(m, nf, s2) :=
    match s1 with
    | String "." r => take_digits r ip 0
    | _ => (ip, O, s1)
    end in
  match (ni + nf)%nat with
  | O => None
  | _ =>
      match parse_exponent s2 with
      | Some e => Some (decimal_to_float neg m (e - Z.of_nat nf))
      | None => None
      end
  end.

Definition parse_inf_nan (neg : bool) (s : string) : option spec_float :=
  let l := lower_str s in
  if String.eqb l "inf" || String.eqb l "infinity" then Some (S754_infinity neg)
  else if String.eqb l "nan" then Some S754_nan
  else None.

(** [float(s)] for a string: [None] stands for [ValueError]. *)
Definition float_of_str (s : string) : option spec_float :=
  match drop_underscores None (strip s) with
  | None => None
  | Some t =>
      let '(neg, r) := take_sign t in
      match parse_decimal neg r with
      | Some f => Some f
      | None => parse_inf_nan neg r
      end
  end.

(** [x.is_integer()] *)
Definition is_integer (f : spec_float) : bool :=
  match f with
  | S754_zero _ => true
  | S754_finite _ m e => (0 <=? e) || (Zpos m mod 2 ^ (- e) =? 0)
  | _ => false
  end.

(** [int(x)], used on integral values only. *)
Definition int_of_float (f : spec_float) : Z :=
  match f with
  | S754_finite s m e =>
      let a := if 0 <=? e then Zpos m * 2 ^ e else Zpos m / 2 ^ (- e) in
      if s then - a else a
  | _ => 0
  end.

(** The exact value of a finite binary64 as a fraction [(n, d)]. *)
Definition float_value (f : spec_float) : option (Z * Z) :=
  match f with
  | S754_zero _ => Some (0, 1)
  | S754_finite s m e =>
      let n := if s then Zneg m else Zpos m in
      Some (if 0 <=? e then (n * 2 ^ e, 1) else (n, 2 ^ (- e)))
  | _ => None
  end.

(** The float [f] is finite and its value is exactly [n / d]. *)
Definition represents (f : spec_float) (n d : Z) : Prop :=
  match float_value f with
  | Some (a, b) => a * d = n * b
  | None => False
  end.

(** [bool(x)] for a float: zero is false, NaN and infinities are true. *)
Definition float_truthy (f : spec_float) : bool :=
  match f with S754_zero _ => false | _ => true end.

(** [s.isdigit()]: non-empty and every character a digit; below 256
    the digits are [0-9] and the superscripts two, three and one. *)
Definition is_digit_char (c : ascii) : bool :=
  is_digit c || (code c =? 178)%N || (code c =? 179)%N || (code c =? 185)%N.

Fixpoint all_chars (p : ascii -> bool) (s : string) : bool :=
  match s with
  | EmptyString => true
  | String c r => p c && all_chars p r
  end.

Definition isdigit (s : string) : bool :=
  negb (is_empty s) && all_chars is_digit_char s.

(** [sys.get_int_max_str_digits()], the default limit on the length of
    a decimal literal that [int] converts. *)
Definition int_max_str_digits : nat := 4300.

(** [int(s)] on a string for which [isdigit] holds; [inl] is the text of
    the [ValueError]: the superscript digits are no decimal digits, and a
    literal longer than the limit is refused. *)
Definition int_of_digits (s : string) : string + Z :=
  if all_chars is_digit s then
    if (String.length s <=? int_max_str_digits)%nat
    then inr (fst (fst (take_digits s 0 0)))
    else inl ("Exceeds the limit (4300 digits) for integer string conversion: value has "
                ++ str_of_Z (Z.of_nat (String.length s))
                ++ " digits; use sys.set_int_max_str_digits() to increase the limit")
  else inl ("invalid literal for int() with base 10: " ++ repr_str s).

End PyNum.

(* ===================================================================== *)
(** ** The validator: [validate_value] of [lambda_process_s3.py] *)
(* ===================================================================== *)

Module Validator.
Import PyStr PyNum.

(** The values a cell is cleaned to: [None], a string, an integer, a
    float or a list of strings. *)
Inductive pyval :=
| PNone
| PStr (s : string)
| PInt (z : Z)
| PFloat (f : spec_float)
| PList (l : list string).

(** An attribute definition as stored by the definition API.  The keys
    ['type'] and ['name'] may be absent; an absent ['isRequired'] reads
    as [False] and an absent ['options'] as the empty list. *)
Record attr_def := {
  type : option string;
  name : option string;
  isRequired : bool;
  options : list string
}.

(** [value_str is None or str(value_str).strip() == ""] *)
Definition is_blank (value_str : option string) : bool :=
  match value_str with
  | None => true
  | Some s => is_empty (strip s)
  end.

(** [[v.strip() for v in cleaned_value.split(';') if v.strip()]] *)
Definition selected_entries (cleaned_value : string) : list string :=
  map strip (filter (fun v => negb (is_empty (strip v))) (split_on ";" cleaned_value)).

(** [f"Row {row_number+1}, Column '{attr_name}': "], the common start
    of every message. *)
Definition where_ (row_number : nat) (attr_name : string) : string :=
  "Row " ++ str_of_Z (Z.of_nat row_number + 1) ++ ", Column '" ++ attr_name ++ "': ".

Definition type_is (attr_type : option string) (t : string) : bool :=
  match attr_type with
  | Some s => String.eqb s t
  | None => false
  end.

(** [[sv for sv in selected_values if sv not in options]] *)
Definition invalid_entries (d : attr_def) (entries : list string) : list string :=
  filter (fun sv => negb (mem sv (options d))) entries.

Section WithConfig.
(** [int(os.environ.get('SHORT_TEXT_MAX_LENGTH', 50))], read once when
    the module is loaded. *)
Variable SHORT_TEXT_MAX_LENGTH : Z.

Definition validate_value (value_str : option string) (header_name : string)
    (d : attr_def) (row_number : nat) : bool * pyval * option string :=
  let attr_type := type d in
  let attr_name := default header_name (name d) in
  let is_required := isRequired d in
  let at_ := where_ row_number attr_name in
  if is_blank value_str then
    if is_required
    then (false, PNone, Some (at_ ++ "Value is required but is empty."))
    else (true, PNone, None)
  else
    let cleaned_value := strip (default EmptyString value_str) in
    if type_is attr_type "short_text" then
      if SHORT_TEXT_MAX_LENGTH <? len cleaned_value
      then (false, PStr cleaned_value,
            Some (at_ ++ "Value exceeds max length of "
                      ++ str_of_Z SHORT_TEXT_MAX_LENGTH ++ "."))
      else (true, PStr cleaned_value, None)
    else if type_is attr_type "long_text" || type_is attr_type "rich_text" then
      (true, PStr cleaned_value, None)
    else if type_is attr_type "number" then
      match float_of_str cleaned_value with
      | Some num_value =>
          (true,
           if is_integer num_value then PInt (int_of_float num_value)
           else PFloat num_value,
           None)
      | None =>
          (false, PStr cleaned_value,
           Some (at_ ++ "Value '" ++ cleaned_value ++ "' is not a valid number."))
      end
    else if type_is attr_type "single_select" then
      let opts := options d in
      match opts with
      | [] => (false, PStr cleaned_value, Some (at_ ++ "No options defined."))
      | _ =>
          if negb (mem cleaned_value opts)
          then (false, PStr cleaned_value,
                Some (at_ ++ "Value '" ++ cleaned_value
                          ++ "' not in allowed options: " ++ repr_list opts ++ "."))
          else (true, PStr cleaned_value, None)
      end
    else if type_is attr_type "multiple_select" then
      let opts := options d in
      match opts with
      | [] => (false, PStr cleaned_value, Some (at_ ++ "No options defined."))
      | _ =>
          let selected_values := selected_entries cleaned_value in
          if bool_decide (selected_values = []) && is_required
          then (false, PStr cleaned_value, Some (at_ ++ "Value is required."))
          else
            let invalid_selections := invalid_entries d selected_values in
            match invalid_selections with
            | _ :: _ =>
                (false, PList selected_values,
                 Some (at_ ++ "Values " ++ repr_list invalid_selections
                           ++ " are not in allowed options: " ++ repr_list opts ++ "."))
            | [] => (true, PList selected_values, None)
            end
      end
    else if type_is attr_type "measure" then (true, PStr cleaned_value, None)
    else (true, PStr cleaned_value, None).

End WithConfig.

(** The seven documented attribute types. *)
Definition documented_types : list string :=
  ["short_text"; "long_text"; "rich_text"; "number";
   "single_select"; "multiple_select"; "measure"].

Definition documented (attr_type : option string) : bool :=
  match attr_type with
  | Some t => mem t documented_types
  | None => false
  end.

End Validator.

(* ===================================================================== *)
(** ** The queue consumer: [lambda_process_s3.py] *)
(* ===================================================================== *)

Module Ingest.
Import PyStr PyNum Validator.

(** *** Documents, stores and the clock *)

(** A field of a job document: a string, a timestamp, or a dictionary of
    error details (whose values are strings or [None]). *)
Inductive fval :=
| VStr (s : string)
| VTime (t : nat)
| VDict (d : list (string * option string)).

(** The result artifact, [result_data_to_save]. *)
Record result_data := {
  r_jobId : string;
  r_s3Key : string;
  r_processingTimestamp : nat;
  r_message : string;
  r_fileName : string;
  r_headers : list string;
  r_products : list (gmap string pyval);
  r_originalHeaders : list string;
  r_ignoredHeaders : list string;
  r_validationErrors : list string
}.

(** The jobs collection (job identifier to document), the objects of
    the results bucket (key to artifact) and the clock. *)
Record world := {
  jobs : gmap string (gmap string fval);
  results : gmap string result_data;
  clock : nat
}.

(** [datetime.now(timezone.utc)]: every reading advances the clock. *)
Definition now (w : world) : nat * world :=
  (clock w, {| jobs := jobs w; results := results w; clock := S (clock w) |}).

Definition with_jobs (w : world) (j : gmap string (gmap string fval)) : world :=
  {| jobs := j; results := results w; clock := clock w |}.

Definition with_results (w : world) (r : gmap string result_data) : world :=
  {| jobs := jobs w; results := r; clock := clock w |}.

(** [collection.update_one({'_id': id}, {'$set': set, '$setOnInsert': ins}, upsert=True)] *)
Definition update_one_upsert (id : string) (set ins : gmap string fval)
    (j : gmap string (gmap string fval)) : gmap string (gmap string fval) :=
  match j !! id with
  | Some doc => <[id := set ∪ doc]> j
  | None => <[id := set ∪ ins]> j
  end.

(** [collection.update_one({'_id': id}, {'$set': set})]: no document, no change. *)
Definition update_one (id : string) (set : gmap string fval)
    (j : gmap string (gmap string fval)) : gmap string (gmap string fval) :=
  match j !! id with
  | Some doc => <[id := set ∪ doc]> j
  | None => j
  end.

Definition job_field (w : world) (id field : string) : option fval :=
  jobs w !! id ≫= (.!! field).

Definition job_status (w : world) (id : string) : option fval :=
  job_field w id "status".

(** *** What the outside world answers during one delivery *)

(** One item read from [csv.DictReader]: a row, as the dictionary from
    header to cell ([None] for a cell the line does not have), or
    [csv.Error]. *)
Inductive csv_item :=
| Row (cells : gmap string string)
| RowError (text : string).

(** [reader.fieldnames]: [csv.Error], or the header names (none for an
    empty file). *)
Inductive csv_head :=
| HeadError (text : string)
| Head (names : list string).

(** [csv.DictReader(io.StringIO(file_content))], as tokenised by the
    [csv] module. *)
Record csv_reader := { fieldnames : csv_head; items : list csv_item }.

(** [s3_client.get_object(...)['Body'].read().decode('utf-8')] *)
Inductive get_result :=
| GetOk (reader : csv_reader)
| GetClientError (error_code : string) (text : string)
| GetOtherError (text : string).

(** What the stores and services answer while one record is processed. *)
Record env := {
  db_connects : option string;          (* [Some text]: get_db_client raises *)
  log_initial_ok : bool;                (* the upsert of the initial status is stored *)
  status_update_ok : bool;              (* the later status updates are stored *)
  attribute_docs : list attr_def;       (* what [collection.find({})] yields *)
  s3_get : get_result;
  s3_put : option string                (* [Some text]: put_object raises *)
}.

(** The body of one SQS record, after [json.loads]. *)
Record payload := {
  jobId : option string;
  s3Bucket : option string;
  s3Key : option string;
  originalFileName : option string;
  submittedAt : option string
}.

(** A record of the batch: without a body (it is skipped), with a body
    on which [json.loads] or [payload.get] raises (the job is not yet
    known, so nothing is recorded), or with a payload. *)
Inductive sqs_body :=
| NoBody
| BadBody (text : string)
| Body (p : payload).

(** How the processing of a record ends: the loop goes on with the next
    record, or an exception leaves the handler. *)
Inductive outcome :=
| Next
| Raised (text : string).

(** [not x] for an optional string: [None] and [""] are falsy. *)
Definition falsy (x : option string) : bool :=
  match x with
  | Some s => is_empty s
  | None => true
  end.

(** [os.path.basename] *)
Fixpoint basename (s : string) : string :=
  match s with
  | EmptyString => EmptyString
  | String c r => if contains_char "/" r then basename r
                  else if ascii_dec c "/" then r else s
  end.

(** [needle in hay] *)
Fixpoint contains (needle hay : string) : bool :=
  String.prefix needle hay ||
  match hay with
  | EmptyString => false
  | String _ r => contains needle r
  end.

(** *** Job status tracker *)

(** The [$set] part of the initial upsert. *)
Definition job_document_fields (s3_bucket s3_key original_file_name : string)
    (current_time_iso : nat) : gmap string fval :=
  {[ "s3Bucket" := VStr s3_bucket; "s3Key" := VStr s3_key;
     "originalFileName" := VStr original_file_name;
     "status" := VStr "PROCESSING";
     "processingStartedAt" := VTime current_time_iso;
     "updatedAt" := VTime current_time_iso ]}.

(** [log_initial_job_status]; [ok] tells whether the store accepts the
    upsert, the function returns [False] when it raises. *)
Definition log_initial_job_status (ok : bool) (job_id s3_bucket s3_key
    original_file_name : string) (submitted_at_iso : fval) (w : world) : bool * world :=
  let '(current_time_iso, w) := now w in
  if ok then
    (true,
     with_jobs w
       (update_one_upsert job_id
          (job_document_fields s3_bucket s3_key original_file_name current_time_iso)
          {[ "_id" := VStr job_id; "submittedAt" := submitted_at_iso ]}
          (jobs w)))
  else (false, w).

(** The [$set] part of a status update: the result key and the error
    details are added when they are truthy. *)
Definition update_fields (status : string) (result_s3_key : option string)
    (error_details : option (list (string * option string))) (t : nat) : gmap string fval :=
  let update_fields : gmap string fval :=
    {[ "status" := VStr status; "updatedAt" := VTime t ]} in
  let update_fields :=
    if falsy result_s3_key then update_fields
    else <["resultS3Key" := VStr (default EmptyString result_s3_key)]> update_fields in
  match error_details with
  | Some ((_ :: _) as d) => <["errorDetails" := VDict d]> update_fields
  | _ => update_fields
  end.

(** [update_job_status]; an exception of the store is logged and
    swallowed ([ok = false]). *)
Definition update_job_status (ok : bool) (job_id status : string)
    (result_s3_key : option string) (error_details : option (list (string * option string)))
    (w : world) : world :=
  let '(t, w) := now w in
  if ok
  then with_jobs w (update_one job_id (update_fields status result_s3_key error_details t)
                               (jobs w))
  else w.

(** [get_defined_attributes_map]: definitions without a name are
    skipped, a later definition replaces an earlier one of the same
    name. *)
Definition get_defined_attributes_map (docs : list attr_def) : gmap string attr_def :=
  fold_left (fun m d => match name d with
                        | Some n => <[n := d]> m
                        | None => m
                        end) docs ∅.

(** *** Row processor *)

(** The outcome of the parsing block: [csv.Error], or the lists the
    result artifact is built from, the outcome message and the status
    the block decided. *)
Record csv_summary := {
  processing_outcome_message : string;
  final_job_status : string;
  headers_for_result : list string;
  products_for_result : list (gmap string pyval);
  actual_headers_from_csv : list string;
  ignored_headers_from_csv : list string;
  validation_errors_list : list string;
  total_rows_read : nat
}.

Inductive csv_result :=
| CsvFailed (text : string)
| CsvDone (s : csv_summary).

(** The split of the CSV headers.  A recognised header is kept with the
    definition that [defined_attributes_map[header_name]] returns for
    it in the row loop; the map is not changed in between. *)
Definition partition_headers (defs : gmap string attr_def) (headers : list string)
    : list (string * attr_def) * list string :=
  fold_left (fun '(known, ignored) header =>
               match defs !! header with
               | Some d => ((known ++ [(header, d)])%list, ignored)
               | None => (known, (ignored ++ [header])%list)
               end) headers ([], []).

(** [v is None or str(v).strip() == ""] for a value of the row under
    construction: the text of an integer, a float or a list is never
    blank. *)
Definition value_missing (v : option pyval) : bool :=
  match v with
  | None | Some PNone => true
  | Some (PStr s) => is_empty (strip s)
  | Some _ => false
  end.

Section Rows.
Variable SHORT_TEXT_MAX_LENGTH : Z.
Variable known : list (string * attr_def).

(** The first loop over the recognised headers of one row. *)
Definition validate_cells (row_data_dict : gmap string string) (i : nat)
    : bool * list string * gmap string pyval :=
  fold_left
    (fun '(is_current_row_valid, row_specific_errors, current_row_product_data)
         '(header_name, attribute_definition) =>
       let cell_value_str := row_data_dict !! header_name in
       let '(is_cell_valid, cleaned_value, error_msg) :=
         validate_value SHORT_TEXT_MAX_LENGTH cell_value_str header_name
                        attribute_definition i in
       (is_current_row_valid && is_cell_valid,
        (if falsy error_msg then row_specific_errors
         else (row_specific_errors ++ [default EmptyString error_msg])%list),
        <[header_name := cleaned_value]> current_row_product_data))
    known (true, [], ∅).

(** The second loop: required columns whose value is missing. *)
Definition check_required (current_row_product_data : gmap string pyval) (i : nat)
    (start : bool * list string) : bool * list string :=
  fold_left
    (fun '(is_current_row_valid, row_specific_errors) '(header_name, attribute_definition) =>
       if isRequired attribute_definition
          && value_missing (current_row_product_data !! header_name)
       then
         let err_msg := "Row " ++ str_of_Z (Z.of_nat i + 1) ++ ", Column '" ++ header_name
                          ++ "': Value is required but is missing or empty." in
         (false,
          if existsb (fun specific_err =>
                        contains ("Column '" ++ header_name ++ "'") specific_err
                        && contains "Value is required" specific_err)
                     (filter (fun e => negb (is_empty e)) row_specific_errors)
          then row_specific_errors
          else (row_specific_errors ++ [err_msg])%list)
       else (is_current_row_valid, row_specific_errors))
    known start.

(** One row: the running totals are the rows read, the products and
    the validation errors. *)
Definition process_row (row_data_dict : gmap string string) (i : nat)
    (acc : nat * list (gmap string pyval) * list string)
    : nat * list (gmap string pyval) * list string :=
  let '(total, products, errors) := acc in
  let '(valid1, errs1, data) := validate_cells row_data_dict i in
  let '(valid, errs) := check_required data i (valid1, errs1) in
  if valid then (S total, (products ++ [data])%list, errors)
  else (S total, products, (errors ++ errs)%list).

(** [for i, row_data_dict in enumerate(reader)]; [inl] is [csv.Error]. *)
Fixpoint process_rows (rows : list csv_item) (i : nat)
    (acc : nat * list (gmap string pyval) * list string)
    : string + (nat * list (gmap string pyval) * list string) :=
  match rows with
  | [] => inr acc
  | RowError text :: _ => inl text
  | Row cells :: rest => process_rows rest (S i) (process_row cells i acc)
  end.
End Rows.

(** The status the handler decides once all rows are read. *)
Definition decide_status (errors ignored : list string) (total products : nat) : string :=
  if bool_decide (errors = []) && bool_decide (ignored = [])
     && (0 <? total)%nat && (products =? total)%nat
  then "COMPLETED" else "COMPLETED_WITH_ISSUES".

(** The parsing block of the handler (the [try] around the reader). *)
Definition process_csv (SHORT_TEXT_MAX_LENGTH : Z) (defs : gmap string attr_def)
    (job_id : string) (reader : csv_reader) : csv_result :=
  let failed text :=
    CsvFailed ("Failed to parse CSV file structure for job " ++ job_id ++ ": " ++ text) in
  let done msg status known actual ignored products errors total :=
    CsvDone {| processing_outcome_message := msg; final_job_status := status;
               headers_for_result := known; products_for_result := products;
               actual_headers_from_csv := actual; ignored_headers_from_csv := ignored;
               validation_errors_list := errors; total_rows_read := total |} in
  match fieldnames reader with
  | HeadError text => failed text
  | Head [] =>
      done "CSV file is empty or has no headers." "COMPLETED_WITH_ISSUES" [] [] [] [] [] O
  | Head actual =>
      let '(known, ignored) := partition_headers defs actual in
      match known with
      | [] => done "No columns in the CSV match defined attributes."
                   "COMPLETED_WITH_ISSUES" [] actual ignored [] [] O
      | _ =>
          match process_rows SHORT_TEXT_MAX_LENGTH known (items reader) O (O, [], []) with
          | inl text => failed text
          | inr (total, products, errors) =>
              done ("Processed " ++ str_of_Z (Z.of_nat total) ++ " rows. Found "
                      ++ str_of_Z (Z.of_nat (length products)) ++ " valid products and "
                      ++ str_of_Z (Z.of_nat (length errors)) ++ " validation issues.")
                   (decide_status errors ignored total (length products))
                   (map fst known) actual ignored products errors total
          end
      end
  end.

(** *** The handler *)

(** The module-level configuration, read from the environment when the
    module is loaded. *)
Record config := {
  SHORT_TEXT_MAX_LENGTH : Z;
  PROCESSED_RESULTS_BUCKET : option string;
  PROCESSED_RESULTS_PREFIX : string
}.

(** [f"{PROCESSED_RESULTS_PREFIX.rstrip('/')}/{job_id}-result.json"] *)
Definition result_s3_key_path (cfg : config) (job_id : string) : string :=
  rstrip_char "/" (PROCESSED_RESULTS_PREFIX cfg) ++ "/" ++ job_id ++ "-result.json".

(** The outer [except Exception] of a record once [db_client] and
    [job_id] are set: mark the job FAILED and raise again. *)
Definition unhandled (e : env) (job_id text : string) (w : world) : outcome * world :=
  (Raised text,
   update_job_status (status_update_ok e) job_id "FAILED" None
     (Some [("error", Some "Unhandled exception during processing.");
            ("exception", Some text)]) w).

Definition fail_job (e : env) (job_id err_msg : string) (w : world) : world :=
  update_job_status (status_update_ok e) job_id "FAILED" None
    (Some [("error", Some err_msg)]) w.

(** The steps of a delivery after the initial status is logged. *)
Definition process_logged (cfg : config) (e : env) (job_id s3_key original_file_name : string)
    (w : world) : outcome * world :=
  if falsy (PROCESSED_RESULTS_BUCKET cfg) then
    (Next, fail_job e job_id "PROCESSED_RESULTS_BUCKET environment variable not set." w)
  else
    let defined_attributes_map := get_defined_attributes_map (attribute_docs e) in
    if bool_decide (defined_attributes_map = ∅) then
      (Next, fail_job e job_id "Could not retrieve attribute definitions for validation." w)
    else
      match s3_get e with
      | GetClientError error_code text =>
          let error_detail_for_db :=
            [("error", Some (if String.eqb error_code "NoSuchKey"
                             then "File not found in S3." else "S3 download error"));
             ("s3_error_code", Some error_code)] in
          unhandled e job_id text
            (update_job_status (status_update_ok e) job_id "FAILED" None
                               (Some error_detail_for_db) w)
      | GetOtherError text => unhandled e job_id text w
      | GetOk reader =>
          match process_csv (SHORT_TEXT_MAX_LENGTH cfg) defined_attributes_map job_id reader with
          | CsvFailed err_msg => (Next, fail_job e job_id err_msg w)
          | CsvDone s =>
              let '(t, w) := now w in
              let result_data_to_save :=
                {| r_jobId := job_id; r_s3Key := s3_key; r_processingTimestamp := t;
                   r_message := processing_outcome_message s;
                   r_fileName := original_file_name;
                   r_headers := headers_for_result s;
                   r_products := products_for_result s;
                   r_originalHeaders := actual_headers_from_csv s;
                   r_ignoredHeaders := ignored_headers_from_csv s;
                   r_validationErrors := validation_errors_list s |} in
              let key := result_s3_key_path cfg job_id in
              match s3_put e with
              | None =>
                  (Next,
                   update_job_status (status_update_ok e) job_id (final_job_status s)
                     (Some key) None
                     (with_results w (<[key := result_data_to_save]> (results w))))
              | Some text =>
                  unhandled e job_id text
                    (update_job_status (status_update_ok e) job_id "FAILED" None
                       (Some [("error", Some "Failed to save results to S3.");
                              ("s3Error", Some text)]) w)
              end
          end
      end.

(** One record of the batch. *)
Definition process_record (cfg : config) (e : env) (body : sqs_body) (w : world)
    : outcome * world :=
  match body with
  | NoBody => (Next, w)
  | BadBody text => (Raised text, w)
  | Body p =>
      let job_id := jobId p in
      let s3_bucket := s3Bucket p in
      let s3_key := s3Key p in
      let original_file_name :=
        default (basename (if falsy s3_key then "unknown_file"
                           else default EmptyString s3_key))
                (originalFileName p) in
      let '(t, w) := now w in
      let submitted_at_iso :=
        match submittedAt p with Some s => VStr s | None => VTime t end in
      match db_connects e with
      | Some text => (Raised text, w)
      | None =>
          if falsy job_id || falsy s3_bucket || falsy s3_key then
            (Next,
             if falsy job_id then w
             else fail_job e (default EmptyString job_id)
                    "Missing jobId, s3Bucket, or s3Key in SQS message payload." w)
          else
            let job_id := default EmptyString job_id in
            let s3_bucket := default EmptyString s3_bucket in
            let s3_key := default EmptyString s3_key in
            let '(logged, w) :=
              log_initial_job_status (log_initial_ok e) job_id s3_bucket s3_key
                                     original_file_name submitted_at_iso w in
            if logged then process_logged cfg e job_id s3_key original_file_name w
            else (Next, w)
      end
  end.

(** A delivery that reaches the download: the message names the job
    and the file, the store is reachable and accepts the initial
    status, the results bucket is configured and there is at least one
    attribute definition. *)
Definition ready (cfg : config) (e : env) (p : payload) : Prop :=
  falsy (jobId p) = false /\ falsy (s3Bucket p) = false /\ falsy (s3Key p) = false
  /\ db_connects e = None /\ log_initial_ok e = true
  /\ falsy (PROCESSED_RESULTS_BUCKET cfg) = false
  /\ get_defined_attributes_map (attribute_docs e) <> ∅.

Definition job_of (p : payload) : string := default EmptyString (jobId p).

(** [original_file_name] and [submitted_at_iso] of a delivery that
    reads the clock at [t]. *)
Definition file_name_of (p : payload) : string :=
  default (basename (if falsy (s3Key p) then "unknown_file"
                     else default EmptyString (s3Key p)))
          (originalFileName p).

Definition submitted_of (p : payload) (t : nat) : fval :=
  match submittedAt p with Some s => VStr s | None => VTime t end.

(** The world of a ready delivery once its initial status is logged. *)
Definition logged (p : payload) (w : world) : world :=
  {| jobs := update_one_upsert (job_of p)
               (job_document_fields (default EmptyString (s3Bucket p))
                  (default EmptyString (s3Key p)) (file_name_of p) (S (clock w)))
               {[ "_id" := VStr (job_of p); "submittedAt" := submitted_of p (clock w) ]}
               (jobs w);
     results := results w;
     clock := S (S (clock w)) |}.

(** The text of the exception a failed download raises. *)
Definition download_error (g : get_result) : option string :=
  match g with
  | GetOk _ => None
  | GetClientError _ text | GetOtherError text => Some text
  end.

(** The fields of a job document that hold the time of the last write. *)
Definition time_field (f : string) : bool :=
  String.eqb f "processingStartedAt" || String.eqb f "updatedAt".

(** An artifact without its processing time. *)
Definition strip_time (r : result_data) : result_data :=
  {| r_jobId := r_jobId r; r_s3Key := r_s3Key r; r_processingTimestamp := O;
     r_message := r_message r; r_fileName := r_fileName r; r_headers := r_headers r;
     r_products := r_products r; r_originalHeaders := r_originalHeaders r;
     r_ignoredHeaders := r_ignoredHeaders r;
     r_validationErrors := r_validationErrors r |}.

Definition terminal (status : option fval) : Prop :=
  status = Some (VStr "COMPLETED") \/ status = Some (VStr "COMPLETED_WITH_ISSUES")
  \/ status = Some (VStr "FAILED").

Inductive handler_result :=
| Returned
| Propagated (text : string).

(** [lambda_handler]: the records of the batch in order, each with the
    answers the outside world gives while it is processed; an exception
    leaving a record leaves the handler. *)
Fixpoint lambda_handler (cfg : config) (records : list (env * sqs_body)) (w : world)
    : handler_result * world :=
  match records with
  | [] => (Returned, w)
  | (e, body) :: rest =>
      match process_record cfg e body w with
      | (Next, w') => lambda_handler cfg rest w'
      | (Raised text, w') => (Propagated text, w')
      end
  end.

End Ingest.

(* ===================================================================== *)
(** ** The bulk save: [lambda_approve_create_products.py] *)
(* ===================================================================== *)

Module Approve.
Import PyStr PyNum.

(** A value of the request body after [json.loads], or a timestamp the
    handler adds.  Dictionaries keep their insertion order. *)
Inductive jval :=
| JNull
| JBool (b : bool)
| JInt (z : Z)
| JFloat (f : spec_float)
| JStr (s : string)
| JArr (l : list jval)
| JObj (o : list (string * jval))
| JDate (t : nat).

Definition dict := list (string * jval).

(** [bool(v)] *)
Definition truthy (v : jval) : bool :=
  match v with
  | JNull => false
  | JBool b => b
  | JInt z => negb (z =? 0)
  | JFloat f => float_truthy f
  | JStr s => negb (is_empty s)
  | JArr l => match l with [] => false | _ => true end
  | JObj o => match o with [] => false | _ => true end
  | JDate _ => true
  end.

(** [type(v).__name__] *)
Definition type_name (v : jval) : string :=
  match v with
  | JNull => "NoneType"
  | JBool _ => "bool"
  | JInt _ => "int"
  | JFloat _ => "float"
  | JStr _ => "str"
  | JArr _ => "list"
  | JObj _ => "dict"
  | JDate _ => "datetime.datetime"
  end.

(** [d.get(k)], with [None] for an absent key. *)
Fixpoint get (k : string) (d : dict) : option jval :=
  match d with
  | [] => None
  | (k', v) :: r => if String.eqb k k' then Some v else get k r
  end.

(** [d[k] = v]: an existing key keeps its place. *)
Fixpoint set (k : string) (v : jval) (d : dict) : dict :=
  match d with
  | [] => [(k, v)]
  | (k', v') :: r => if String.eqb k k' then (k, v) :: r else (k', v') :: set k v r
  end.

(** [d.pop(k)] on a key that is present: the rest of the dictionary. *)
Fixpoint remove (k : string) (d : dict) : dict :=
  match d with
  | [] => []
  | (k', v') :: r => if String.eqb k k' then r else (k', v') :: remove k r
  end.

(** [d.get(k)] is absent or falsy. *)
Definition absent_or_falsy (k : string) (d : dict) : bool :=
  match get k d with
  | Some v => negb (truthy v)
  | None => true
  end.

(** The text of the [NameError] that [uuid.uuid4()] raises in a module
    that does not import [uuid]. *)
Definition uuid_name_error : string := "name 'uuid' is not defined".

(** [d.get('Barcode') or d.get('ProductName') or str(uuid.uuid4())];
    [inl] is an exception with its text. *)
Definition derive_id (d : dict) : string + jval :=
  if absent_or_falsy "Barcode" d then
    if absent_or_falsy "ProductName" d then inl uuid_name_error
    else inr (default JNull (get "ProductName" d))
  else inr (default JNull (get "Barcode" d)).

Definition measure_attributes : list (string * (string * string)) :=
  [("ItemWeight", ("ItemWeightValue", "ItemWeightUnit"));
   ("Width", ("WidthValue", "WidthUnit"));
   ("Height", ("HeightValue", "HeightUnit"))].

(** The value and unit columns of a measure are folded into one nested
    value. *)
Definition consolidate (d : dict) : dict :=
  fold_left
    (fun d '(attr_name, (val_key, unit_key)) =>
       match get val_key d, get unit_key d with
       | Some value, Some unit_ =>
           set attr_name (JObj [("value", value); ("unit", unit_)])
               (remove unit_key (remove val_key d))
       | _, _ => d
       end)
    measure_attributes d.

(** The conversion of one value: a string of digits becomes an integer,
    another string a float where [float] accepts it. *)
Definition convert_value (v : jval) : string + jval :=
  match v with
  | JStr s =>
      if isdigit s then
        match int_of_digits s with
        | inr z => inr (JInt z)
        | inl text => inl text
        end
      else
        match float_of_str s with
        | Some f => inr (JFloat f)
        | None => inr v
        end
  | _ => inr v
  end.

(** [for key, value in new_product_doc.items(): ...] *)
Fixpoint convert_all (d : dict) : string + dict :=
  match d with
  | [] => inr []
  | (k, v) :: r =>
      match convert_value v with
      | inl text => inl text
      | inr v' =>
          match convert_all r with
          | inl text => inl text
          | inr r' => inr ((k, v') :: r')
          end
      end
  end.

(** The body of the loop for one dictionary of the request. *)
Definition prepare_product (current_timestamp : nat) (s3_key_source : jval)
    (product_data : dict) : string + dict :=
  match derive_id product_data with
  | inl text => inl text
  | inr id =>
      let doc := set "_id" id product_data in
      let doc := set "createdAt" (JDate current_timestamp) doc in
      let doc := set "updatedAt" (JDate current_timestamp) doc in
      let doc := set "importSource" s3_key_source doc in
      convert_all (consolidate doc)
  end.

(** [for product_data in products_to_save: ...]: entries that are no
    dictionaries are skipped, the first exception ends the loop. *)
Fixpoint prepare_all (current_timestamp : nat) (s3_key_source : jval)
    (products_to_save : list jval) : string + list dict :=
  match products_to_save with
  | [] => inr []
  | JObj product_data :: rest =>
      match prepare_product current_timestamp s3_key_source product_data with
      | inl text => inl text
      | inr doc =>
          match prepare_all current_timestamp s3_key_source rest with
          | inl text => inl text
          | inr docs => inr (doc :: docs)
          end
      end
  | _ :: rest => prepare_all current_timestamp s3_key_source rest
  end.

(** [pymongo.UpdateOne(filter_query, update_query, upsert=True)] *)
Record update_op := {
  filter_id : option jval;
  set_fields : dict;
  set_on_insert : dict
}.

Definition upsert_of (prod_doc : dict) : update_op :=
  {| filter_id := get "_id" prod_doc;
     set_fields := filter (fun kv => negb (String.eqb (fst kv) "createdAt")) prod_doc;
     set_on_insert := match get "createdAt" prod_doc with
                      | Some t => [("createdAt", t)]
                      | None => []
                      end |}.

(** What [collection.bulk_write] answers. *)
Inductive bulk_result :=
| BulkOk (upserted_count modified_count : Z)
| BulkOperationFailure (details : string)
| BulkOtherError (text : string).

(** What the outside world answers during one request. *)
Record env := {
  db_connects : option string;       (* [Some text]: get_db_client raises *)
  current_timestamp : nat;
  bulk_write : list update_op -> bulk_result
}.

(** [event.get('body', '{}')] after [json.loads]; [inl] when it raises. *)
Definition event := (string + jval)%type.

Record response := {
  statusCode : Z;
  error : option string;
  message : option string;
  productsSaved : option Z
}.

Definition fail (code : Z) (text : string) : response :=
  {| statusCode := code; error := Some text; message := None; productsSaved := None |}.

Definition ok (text : string) (saved : Z) : response :=
  {| statusCode := 200; error := None; message := Some text; productsSaved := Some saved |}.

Definition unexpected (text : string) : response :=
  fail 500 ("An unexpected server error occurred: " ++ text).

(** The handler: the response and the operations handed to
    [collection.bulk_write], [None] when it is never called. *)
Definition lambda_handler (e : env) (ev : event) : response * option (list update_op) :=
  match db_connects e with
  | Some text => (fail 500 ("Failed to connect to database: " ++ text), None)
  | None =>
      match ev with
      | inl text => (unexpected text, None)
      | inr (JObj body) =>
          let products_to_save := get "products" body in
          let s3_key_source := default (JStr "unknown_source_csv") (get "s3Key" body) in
          match products_to_save with
          | Some (JArr ((_ :: _) as l)) =>
              match prepare_all (current_timestamp e) s3_key_source l with
              | inl text => (unexpected text, None)
              | inr [] => (ok "No valid products to save." 0, None)
              | inr processed_products =>
                  let bulk_operations := map upsert_of processed_products in
                  match bulk_write e bulk_operations with
                  | BulkOk upserted_count modified_count =>
                      let saved_count := upserted_count + modified_count in
                      (ok ("Successfully saved/updated " ++ str_of_Z saved_count
                             ++ " products.") saved_count,
                       Some bulk_operations)
                  | BulkOperationFailure details =>
                      (fail 500 ("Database operation error: " ++ details),
                       Some bulk_operations)
                  | BulkOtherError text => (unexpected text, Some bulk_operations)
                  end
              end
          | _ => (fail 400 "Request body must contain a 'products' array.", None)
          end
      | inr body =>
          (unexpected ("'" ++ type_name body ++ "' object has no attribute 'get'"), None)
      end
  end.

(** [s3_key_source] of a request. *)
Definition source_of (ev : event) : jval :=
  match ev with
  | inr (JObj body) => default (JStr "unknown_source_csv") (get "s3Key" body)
  | _ => JStr "unknown_source_csv"
  end.

(** The [products] array of a request, when the body has one. *)
Definition products_of (ev : event) : option (list jval) :=
  match ev with
  | inr (JObj body) =>
      match get "products" body with
      | Some (JArr l) => Some l
      | _ => None
      end
  | _ => None
  end.

End Approve.

(* ===================================================================== *)
(** ** Concrete inputs *)
(* ===================================================================== *)

Module Examples.
Import PyStr PyNum Validator.

Definition name_def : attr_def :=
  {| type := Some "short_text"; name := Some "Name"; isRequired := false; options := [] |}.

Definition price_def : attr_def :=
  {| type := Some "number"; name := Some "Price"; isRequired := true; options := [] |}.

Definition tags_def : attr_def :=
  {| type := Some "multiple_select"; name := Some "Tags"; isRequired := true;
     options := ["A"; "B"; "C"] |}.

(** A definition whose type is none of the documented ones. *)
Definition shade_def : attr_def :=
  {| type := Some "colour"; name := Some "Shade"; isRequired := true; options := [] |}.

Definition cfg0 : Ingest.config :=
  {| Ingest.SHORT_TEXT_MAX_LENGTH := 50;
     Ingest.PROCESSED_RESULTS_BUCKET := Some "portal-results";
     Ingest.PROCESSED_RESULTS_PREFIX := "processed-files/" |}.

Definition msg0 : Ingest.payload :=
  {| Ingest.jobId := Some "job-1"; Ingest.s3Bucket := Some "portal-uploads";
     Ingest.s3Key := Some "uploads/a.csv"; Ingest.originalFileName := Some "a.csv";
     Ingest.submittedAt := Some "2024-05-01T10:00:00+00:00" |}.

Definition w0 : Ingest.world :=
  {| Ingest.jobs := ∅; Ingest.results := ∅; Ingest.clock := O |}.

(** [Name,Price] and the row [Gadget,19.99]. *)
Definition rd_gadget : Ingest.csv_reader :=
  {| Ingest.fieldnames := Ingest.Head ["Name"; "Price"];
     Ingest.items := [Ingest.Row {[ "Name" := "Gadget"; "Price" := "19.99" ]}] |}.

(** [Name,Price] and no row. *)
Definition rd_headers_only : Ingest.csv_reader :=
  {| Ingest.fieldnames := Ingest.Head ["Name"; "Price"]; Ingest.items := [] |}.

(** A file the [csv] module rejects. *)
Definition rd_broken : Ingest.csv_reader :=
  {| Ingest.fieldnames := Ingest.HeadError "line contains NUL"; Ingest.items := [] |}.

(** Every service answers; the download gives [g]. *)
Definition env_of (g : Ingest.get_result) : Ingest.env :=
  {| Ingest.db_connects := None; Ingest.log_initial_ok := true;
     Ingest.status_update_ok := true;
     Ingest.attribute_docs := [name_def; price_def];
     Ingest.s3_get := g; Ingest.s3_put := None |}.

(** The store accepts the initial status and fails afterwards. *)
Definition env_flaky : Ingest.env :=
  {| Ingest.db_connects := None; Ingest.log_initial_ok := true;
     Ingest.status_update_ok := false;
     Ingest.attribute_docs := [name_def; price_def];
     Ingest.s3_get := Ingest.GetOk rd_gadget; Ingest.s3_put := None |}.

Definition empty_summary : Ingest.csv_summary :=
  {| Ingest.processing_outcome_message := EmptyString;
     Ingest.final_job_status := EmptyString;
     Ingest.headers_for_result := []; Ingest.products_for_result := [];
     Ingest.actual_headers_from_csv := []; Ingest.ignored_headers_from_csv := [];
     Ingest.validation_errors_list := []; Ingest.total_rows_read := O |}.

Definition summary_of (r : Ingest.csv_result) : Ingest.csv_summary :=
  match r with
  | Ingest.CsvDone s => s
  | Ingest.CsvFailed _ => empty_summary
  end.

Definition gadget_summary : Ingest.csv_summary :=
  summary_of (Ingest.process_csv 50
                (Ingest.get_defined_attributes_map [name_def; price_def])
                "job-1" rd_gadget).

(** The world after [msg0] was delivered once for the Gadget file. *)
Definition w_done : Ingest.world :=
  snd (Ingest.process_record cfg0 (env_of (Ingest.GetOk rd_gadget)) (Ingest.Body msg0) w0).

(** The character SUPERSCRIPT TWO, code point 178. *)
Definition superscript_two : string := String (ascii_of_N 178) EmptyString.

(** A bulk save of two products: the first holds a value that
    [isdigit] accepts and [int] rejects, the second has no identifier. *)
Definition bad_request : Approve.event :=
  inr (Approve.JObj
         [("products",
           Approve.JArr
             [Approve.JObj [("Barcode", Approve.JStr "x");
                            ("Note", Approve.JStr superscript_two)];
              Approve.JObj []])]).

(** A bulk save whose only product has no identifier. *)
Definition anonymous_request : Approve.event :=
  inr (Approve.JObj
         [("products", Approve.JArr [Approve.JObj [("Colour", Approve.JStr "red")]])]).

Definition db_up : Approve.env :=
  {| Approve.db_connects := None; Approve.current_timestamp := O;
     Approve.bulk_write := fun _ => Approve.BulkOk 0 0 |}.

Definition db_down : Approve.env :=
  {| Approve.db_connects := Some "connection refused"; Approve.current_timestamp := O;
     Approve.bulk_write := fun _ => Approve.BulkOk 0 0 |}.

End Examples.

(* ===================================================================== *)
(** ** The status poll: [lambda_get_job_status.py] *)
(* ===================================================================== *)

Module Poll.
Import PyStr Ingest.

(** The module-level configuration. *)
Record config := {
  PROCESSED_RESULTS_BUCKET : option string;
  URL_EXPIRATION_SECONDS_GET_RESULT : Z
}.

(** An exception of [collection.find_one]. *)
Inductive find_failure :=
| OperationFailure (details : string)
| OtherFailure (text : string).

(** What the outside world answers during one request.  A job document
    holds the values the consumer stores: strings, the texts that
    [isoformat()] gave for an instant ([isoformat] gives the text a
    [VTime] stands for) and dictionaries of error details.
    [generate_presigned_url] gives the URL for a bucket, a key and an
    expiry, or raises [ClientError] ([None]); for a key that is a
    dictionary boto3 raises an exception that is no [ClientError], with
    the text [invalid_key]. *)
Record env := {
  db_connects : option string;       (* [Some text]: get_db_client raises *)
  find_one_fails : option find_failure;
  isoformat : nat -> string;
  generate_presigned_url : string -> string -> Z -> option string;
  invalid_key : list (string * option string) -> string
}.

(** [event.get('pathParameters', {})]: [null], or the path parameters
    with their optional ['jobId']. *)
Inductive path_parameters :=
| PathNull
| Path (jobId : option string).

(** The response: the status code and either an error text or the job
    document that [json.dumps] serialises. *)
Record response := {
  statusCode : Z;
  error : option string;
  document : option (gmap string fval)
}.

Definition fail (code : Z) (text : string) : response :=
  {| statusCode := code; error := Some text; document := None |}.

Definition unexpected (text : string) : response :=
  fail 500 ("An unexpected server error occurred: " ++ text).

(** The string a field is, if it is one. *)
Definition text_of (e : env) (v : fval) : option string :=
  match v with
  | VStr s => Some s
  | VTime t => Some (isoformat e t)
  | VDict _ => None
  end.

(** [bool(v)] for a field of a job document. *)
Definition truthy (e : env) (v : fval) : bool :=
  match v with
  | VDict [] => false
  | VDict _ => true
  | _ => negb (falsy (text_of e v))
  end.

(** [generate_presigned_get_url]: the URL, [None], or ([inl]) the
    exception that leaves it. *)
Definition generate_presigned_get_url (e : env) (bucket_name : option string)
    (object_key : fval) (expiration_seconds : Z) : string + option string :=
  if falsy bucket_name || negb (truthy e object_key) then inr None
  else
    match object_key with
    | VDict d => inl (invalid_key e d)
    | _ => inr (generate_presigned_url e (default EmptyString bucket_name)
                  (default EmptyString (text_of e object_key)) expiration_seconds)
    end.

(** [status in ['COMPLETED', 'COMPLETED_WITH_ISSUES']] *)
Definition completed (e : env) (status : option fval) : bool :=
  match status ≫= text_of e with
  | Some s => String.eqb s "COMPLETED" || String.eqb s "COMPLETED_WITH_ISSUES"
  | None => false
  end.

(** The part of the handler that runs on a document that was found;
    [inl] is an exception with its text.  No field is a [datetime]
    object, so the loop that replaces those by their text changes
    nothing. *)
Definition with_download_url (cfg : config) (e : env) (job_document : gmap string fval)
    : string + gmap string fval :=
  if completed e (job_document !! "status")
     && from_option (truthy e) false (job_document !! "resultS3Key")
  then
    if falsy (PROCESSED_RESULTS_BUCKET cfg) then inr job_document
    else
      match generate_presigned_get_url e (PROCESSED_RESULTS_BUCKET cfg)
              (default (VStr EmptyString) (job_document !! "resultS3Key"))
              (URL_EXPIRATION_SECONDS_GET_RESULT cfg) with
      | inl text => inl text
      | inr presigned_url =>
          if falsy presigned_url then inr job_document
          else inr (<["resultDownloadUrl" := VStr (default EmptyString presigned_url)]>
                      job_document)
      end
  else inr job_document.

(** [lambda_handler], reading the jobs collection [jobs]. *)
Definition lambda_handler (cfg : config) (e : env) (ev : path_parameters)
    (jobs : gmap string (gmap string fval)) : response :=
  match db_connects e with
  | Some text => fail 503 ("Failed to connect to database: " ++ text)
  | None =>
      match ev with
      | PathNull => unexpected "'NoneType' object has no attribute 'get'"
      | Path job_id =>
          if falsy job_id then fail 400 "Missing 'jobId' in path."
          else
            let job_id := default EmptyString job_id in
            match find_one_fails e with
            | Some (OperationFailure details) =>
                fail 500 ("Database operation error: " ++ details)
            | Some (OtherFailure text) => unexpected text
            | None =>
                match jobs !! job_id with
                | Some job_document =>
                    if bool_decide (job_document = ∅)
                    then fail 404 ("Job with ID '" ++ job_id ++ "' not found.")
                    else
                      match with_download_url cfg e job_document with
                      | inr doc => {| statusCode := 200; error := None; document := Some doc |}
                      | inl text => unexpected text
                      end
                | None => fail 404 ("Job with ID '" ++ job_id ++ "' not found.")
                end
            end
      end
  end.

End Poll.

(* ===================================================================== *)
(** ** The start of a job: [lambda_initiate_s3_processing.py] *)
(* ===================================================================== *)

Module Initiate.
Import PyStr.

(** The module-level configuration. *)
Record config := {
  SQS_QUEUE_URL : option string;
  UPLOAD_BUCKET_NAME_ENV : option string
}.

(** The request body after [json.loads]: the keys the handler reads,
    for a body whose ['s3Bucket'] and ['s3Key'] are strings, [null] or
    absent and whose ['maxPreviewRows'] is an integer or absent. *)
Record request := {
  s3Bucket : option string;
  s3Key : option string;
  maxPreviewRows : option Z
}.

(** [event.get('body', '{}')] after [json.loads]; [inl] when that, or
    [body.get] on a body that is no dictionary, raises. *)
Definition event := (string + request)%type.

(** What the outside world answers during one request. *)
Record env := {
  uuid4 : string;                    (* [str(uuid.uuid4())] *)
  now_isoformat : string;            (* [datetime.now(timezone.utc).isoformat()] *)
  send_message : option string       (* [Some text]: sqs_client.send_message raises *)
}.

(** The parameters of [send_message]: the payload, the preview size it
    carries along and the group of a FIFO queue. *)
Record sent_message := {
  message_payload : Ingest.payload;
  message_maxPreviewRows : Z;
  MessageGroupId : option string
}.

Record response := {
  statusCode : Z;
  error : option string;
  jobId : option string
}.

Definition fail (code : Z) (text : string) : response :=
  {| statusCode := code; error := Some text; jobId := None |}.

(** [s.endswith(suffix)] *)
Definition endswith (s suffix : string) : bool :=
  let n := String.length s in
  let k := String.length suffix in
  (k <=? n)%nat && String.eqb (String.substring (n - k) k s) suffix.

(** [lambda_handler]: the response and the messages sent to the queue. *)
Definition lambda_handler (cfg : config) (e : env) (ev : event)
    : response * list sent_message :=
  if Ingest.falsy (SQS_QUEUE_URL cfg) then
    (fail 500 "Server configuration error: SQS Queue not defined.", [])
  else
    match ev with
    | inl text => (fail 500 ("An unexpected server error occurred: " ++ text), [])
    | inr body =>
        let s3_bucket_from_payload := s3Bucket body in
        let s3_key := s3Key body in
        let s3_bucket_to_process :=
          if Ingest.falsy (UPLOAD_BUCKET_NAME_ENV cfg) then s3_bucket_from_payload
          else UPLOAD_BUCKET_NAME_ENV cfg in
        if Ingest.falsy s3_bucket_to_process then
          (fail 400 "Missing S3 bucket information.", [])
        else if Ingest.falsy s3_key then
          (fail 400 "Missing required parameter: 's3Key'", [])
        else
          let job_id := uuid4 e in
          let original_file_name := Ingest.basename (default EmptyString s3_key) in
          let submitted_at_iso := now_isoformat e in
          let message_payload :=
            {| Ingest.jobId := Some job_id;
               Ingest.s3Bucket := s3_bucket_to_process;
               Ingest.s3Key := s3_key;
               Ingest.originalFileName := Some original_file_name;
               Ingest.submittedAt := Some submitted_at_iso |} in
          let message :=
            {| message_payload := message_payload;
               message_maxPreviewRows := default 50 (maxPreviewRows body);
               MessageGroupId :=
                 if endswith (default EmptyString (SQS_QUEUE_URL cfg)) ".fifo"
                 then Some job_id else None |} in
          match send_message e with
          | Some text => (fail 500 ("An unexpected server error occurred: " ++ text), [])
          | None =>
              ({| statusCode := 202; error := None; jobId := Some job_id |}, [message])
          end
    end.

End Initiate.

(* ===================================================================== *)
(** ** Notions used to state the properties of the handlers *)
(* ===================================================================== *)

Module RowDefs.
Import PyStr Validator Ingest.

(** [msg] is a message about the row of index [k]: it starts with the
    1-based row number and names a column. *)
Definition row_message (k : nat) (msg : string) : Prop :=
  exists column tail,
    msg = "Row " ++ str_of_Z (Z.of_nat k + 1) ++ ", Column '" ++ column ++ "': " ++ tail.

(** The message of a blank required cell. *)
Definition required_message (i : nat) (h : string) : string :=
  where_ i h ++ "Value is required but is empty.".

(** The body of the first loop over the recognised headers of a row, as
    in [validate_cells]. *)
Definition cell_step (max : Z) (row : gmap string string) (i : nat) :=
  fun '(is_current_row_valid, row_specific_errors, current_row_product_data)
      '(header_name, attribute_definition) =>
    let cell_value_str : option string := row !! header_name in
    let '(is_cell_valid, cleaned_value, error_msg) :=
      validate_value max cell_value_str header_name attribute_definition i in
    (is_current_row_valid && is_cell_valid,
     (if falsy error_msg then row_specific_errors
      else (row_specific_errors ++ [default EmptyString error_msg])%list),
     <[header_name := cleaned_value]> (current_row_product_data : gmap string pyval)).

(** What holds of the running totals before the row of index [i]: a
    row is a product or contributes messages, every product has the
    recognised headers as its keys, every message is about an earlier
    row. *)
Definition row_invariant (known : list (string * attr_def)) (i : nat)
    (acc : nat * list (gmap string pyval) * list string) : Prop :=
  let '(total, products, errors) := acc in
  (length products <= total)%nat
  /\ (errors = [] <-> length products = total)
  /\ Forall (fun d => dom d = list_to_set (map fst known)) products
  /\ Forall (fun m => exists k, (k < i)%nat /\ row_message k m) errors.

(** Every header is paired with the definition stored under it, and the
    definition bears that name. *)
Definition keyed (defs : gmap string attr_def) (l : list (string * attr_def)) : Prop :=
  Forall (fun hd => defs !! fst hd = Some (snd hd) /\ name (snd hd) = Some (fst hd)) l.

(** What the first loop has recorded for the headers in [seen]: their
    cleaned values, and for a rejected cell the lost validity and the
    message. *)
Definition cells_recorded (max : Z) (row : gmap string string) (i : nat)
    (seen : list (string * attr_def))
    (acc : bool * list string * gmap string pyval) : Prop :=
  let '(v, e, data) := acc in
  Forall (fun hd =>
            let r := validate_value max (row !! fst hd) (fst hd) (snd hd) i in
            data !! fst hd = Some (snd (fst r))
            /\ (fst (fst r) = false ->
                  v = false /\ exists msg, snd r = Some msg /\ In msg e)) seen.

(** The fields of a job document that a status update writes. *)
Definition status_field (f : string) : bool :=
  String.eqb f "status" || String.eqb f "updatedAt" || String.eqb f "resultS3Key"
  || String.eqb f "errorDetails".

End RowDefs.

Module ApproveDefs.
Import Approve.

(** [isinstance(v, dict)] *)
Definition is_dict (v : jval) : bool :=
  match v with JObj _ => true | _ => false end.

(** The number of dictionaries in a [products] array. *)
Definition count_dicts (l : list jval) : nat :=
  length (List.filter is_dict l).

(** One step of the consolidation of measures, as in [consolidate]. *)
Definition consolidate_step : dict -> string * (string * string) -> dict :=
  fun d '(attr_name, (val_key, unit_key)) =>
    match get val_key d, get unit_key d with
    | Some value, Some unit_ =>
        set attr_name (JObj [("value", value); ("unit", unit_)])
            (remove unit_key (remove val_key d))
    | _, _ => d
    end.

(** The keys the consolidation of measures reads or writes. *)
Definition measure_key (k : string) : bool :=
  existsb (fun m => String.eqb k (fst m) || String.eqb k (fst (snd m))
                    || String.eqb k (snd (snd m))) measure_attributes.

End ApproveDefs.

(* ===================================================================== *)
(** ** Concrete inputs for the other handlers *)
(* ===================================================================== *)

Module Scenarios.
Import PyStr PyNum Validator Examples.

Definition colour_def : attr_def :=
  {| type := Some "single_select"; name := Some "Colour"; isRequired := false;
     options := ["Red"; "Blue"] |}.

(** [Name,Price,Extra] with the rows [Gadget,19.99,x] and [Widget,abc,y]:
    the column [Extra] is not defined and the second price is no number. *)
Definition rd_mixed : Ingest.csv_reader :=
  {| Ingest.fieldnames := Ingest.Head ["Name"; "Price"; "Extra"];
     Ingest.items :=
       [Ingest.Row {[ "Name" := "Gadget"; "Price" := "19.99"; "Extra" := "x" ]};
        Ingest.Row {[ "Name" := "Widget"; "Price" := "abc"; "Extra" := "y" ]}] |}.

Definition mixed_summary : Ingest.csv_summary :=
  summary_of (Ingest.process_csv 50
                (Ingest.get_defined_attributes_map [name_def; price_def])
                "job-1" rd_mixed).

(** A message that names the job and the bucket but no file. *)
Definition msg_no_key : Ingest.payload :=
  {| Ingest.jobId := Some "job-1"; Ingest.s3Bucket := Some "portal-uploads";
     Ingest.s3Key := None; Ingest.originalFileName := None;
     Ingest.submittedAt := Some "2024-05-01T10:00:00+00:00" |}.

(** The document store cannot be reached. *)
Definition env_down : Ingest.env :=
  {| Ingest.db_connects := Some "connection refused"; Ingest.log_initial_ok := true;
     Ingest.status_update_ok := true;
     Ingest.attribute_docs := [name_def; price_def];
     Ingest.s3_get := Ingest.GetOk rd_gadget; Ingest.s3_put := None |}.

(** The results bucket rejects the artifact. *)
Definition env_put_fails : Ingest.env :=
  {| Ingest.db_connects := None; Ingest.log_initial_ok := true;
     Ingest.status_update_ok := true;
     Ingest.attribute_docs := [name_def; price_def];
     Ingest.s3_get := Ingest.GetOk rd_gadget; Ingest.s3_put := Some "AccessDenied" |}.

(** The status poll. *)
Definition poll_cfg : Poll.config :=
  {| Poll.PROCESSED_RESULTS_BUCKET := Some "portal-results";
     Poll.URL_EXPIRATION_SECONDS_GET_RESULT := 3600 |}.

Definition poll_env : Poll.env :=
  {| Poll.db_connects := None; Poll.find_one_fails := None;
     Poll.isoformat := fun t => "2024-05-01T10:00:00." ++ str_of_Z (Z.of_nat t) ++ "+00:00";
     Poll.generate_presigned_url :=
       fun bucket key _ => Some ("https://" ++ bucket ++ ".s3.amazonaws.com/" ++ key
                                   ++ "?X-Amz-Expires=3600");
     Poll.invalid_key := fun _ => "Parameter validation failed" |}.

(** What the poll answers for [job-1] once [msg0] was delivered. *)
Definition polled_doc : gmap string Ingest.fval :=
  default ∅ (Poll.document
               (Poll.lambda_handler poll_cfg poll_env (Poll.Path (Some "job-1"))
                                    (Ingest.jobs w_done))).

(** The start of a job. *)
Definition init_cfg : Initiate.config :=
  {| Initiate.SQS_QUEUE_URL := Some "https://sqs.eu-west-1.amazonaws.com/1/portal-jobs";
     Initiate.UPLOAD_BUCKET_NAME_ENV := Some "portal-uploads" |}.

Definition init_env : Initiate.env :=
  {| Initiate.uuid4 := "job-1"; Initiate.now_isoformat := "2024-05-01T10:00:00+00:00";
     Initiate.send_message := None |}.

Definition init_request : Initiate.event :=
  inr {| Initiate.s3Bucket := None; Initiate.s3Key := Some "uploads/a.csv";
         Initiate.maxPreviewRows := None |}.

Definition init_message : Initiate.sent_message :=
  {| Initiate.message_payload := msg0; Initiate.message_maxPreviewRows := 50;
     Initiate.MessageGroupId := None |}.

(** The bulk save: a product with a barcode of digits and a width. *)
Definition boxed_product : Approve.dict :=
  [("Barcode", Approve.JStr "0123"); ("ProductName", Approve.JStr "Gadget");
   ("WidthValue", Approve.JStr "10"); ("WidthUnit", Approve.JStr "cm")].

(** The same product with the barcode written without its leading zero. *)
Definition boxed_product' : Approve.dict :=
  [("Barcode", Approve.JStr "123"); ("ProductName", Approve.JStr "Gadget");
   ("WidthValue", Approve.JStr "10"); ("WidthUnit", Approve.JStr "cm")].

Definition prepared (d : Approve.dict) : Approve.dict :=
  match Approve.prepare_product O (Approve.JStr "uploads/a.csv") d with
  | inr doc => doc
  | inl _ => []
  end.

(** A request with one product and one entry that is no dictionary. *)
Definition good_request : Approve.event :=
  inr (Approve.JObj
         [("products", Approve.JArr [Approve.JObj boxed_product; Approve.JStr "note"]);
          ("s3Key", Approve.JStr "uploads/a.csv")]).

Definition good_ops : list Approve.update_op :=
  default [] (snd (Approve.lambda_handler db_up good_request)).

Definition priced : Approve.dict :=
  [("Price", Approve.JStr "19.99"); ("Count", Approve.JStr "007");
   ("Name", Approve.JStr "Gadget")].

Definition converted (d : Approve.dict) : Approve.dict :=
  match Approve.convert_all d with
  | inr d' => d'
  | inl _ => []
  end.

End Scenarios.

(* ===================================================================== *)
(** ** Properties *)
(* ===================================================================== *)

Module StringFacts.
Import PyStr.

Lemma append_assoc (a b c : string) : (a ++ b) ++ c = a ++ (b ++ c).
Proof.
  induction a as [|x a IH]; [reflexivity|].
  change (String x ((a ++ b) ++ c) = String x (a ++ b ++ c)).
  now rewrite IH.
Qed.

Lemma mentions_middle (pre needle post : string) :
  mentions (pre ++ needle ++ post) needle.
Proof. now exists pre, post. Qed.

End StringFacts.

Module ValidatorFacts.
Import PyStr PyNum Validator StringFacts.

Lemma where_mentions (row_number : nat) (attr_name rest : string) :
  mentions (where_ row_number attr_name ++ rest) attr_name.
Proof.
  unfold where_.
  exists ("Row " ++ str_of_Z (Z.of_nat row_number + 1) ++ ", Column '"), ("': " ++ rest).
  now rewrite !append_assoc.
Qed.

(** C5.  For every definition of type [number], every header name and
    every row position: ["42"] is accepted as the integer 42, ["42.5"]
    is accepted as the float whose value is 85/2, and ["abc"] is
    rejected with a message that contains the name of the column. *)
Theorem number_examples (max : Z) (d : attr_def) (header_name : string) (row_number : nat) :
  type d = Some "number" ->
  validate_value max (Some "42") header_name d row_number = (true, PInt 42, None)
  /\ (exists f,
        validate_value max (Some "42.5") header_name d row_number = (true, PFloat f, None)
        /\ represents f 85 2)
  /\ (exists msg,
        validate_value max (Some "abc") header_name d row_number
          = (false, PStr "abc", Some msg)
        /\ mentions msg (default header_name (name d))).
Proof.
  intros Ht. unfold validate_value. rewrite Ht.
  split; [|split].
  - reflexivity.
  - eexists. split; [reflexivity|]. vm_compute. reflexivity.
  - eexists. split; [reflexivity|]. apply where_mentions.
Qed.

Lemma not_documented (t : option string) :
  documented t = false ->
  type_is t "short_text" = false /\ type_is t "long_text" = false
  /\ type_is t "rich_text" = false /\ type_is t "number" = false
  /\ type_is t "single_select" = false /\ type_is t "multiple_select" = false
  /\ type_is t "measure" = false.
Proof.
  destruct t as [t|]; [|now repeat split].
  unfold documented, mem, documented_types, type_is; cbn [existsb].
  intros H. repeat (apply orb_false_elim in H; destruct H as [? H]).
  now repeat split.
Qed.

(** C10.  For a definition whose type is absent or none of the seven
    documented types, every non-blank input is accepted and cleaned to
    its trimmed text; a rejection only happens for a blank input of a
    required definition. *)
Theorem undocumented_type_accepts (max : Z) (d : attr_def) (value_str : option string)
    (header_name : string) (row_number : nat) :
  documented (type d) = false ->
  (is_blank value_str = false ->
     validate_value max value_str header_name d row_number
       = (true, PStr (strip (default EmptyString value_str)), None))
  /\ (fst (fst (validate_value max value_str header_name d row_number)) = false ->
        is_blank value_str = true /\ isRequired d = true).
Proof.
  intros Hd. apply not_documented in Hd as (H1 & H2 & H3 & H4 & H5 & H6 & H7).
  unfold validate_value. rewrite H1, H2, H3, H4, H5, H6, H7. cbn [orb].
  destruct (is_blank value_str); split; try discriminate; try reflexivity.
  destruct (isRequired d); [now split | discriminate].
Qed.

(** C8, as amended.  For a raw value and a definition, the accepted
    flag, the cleaned value and the tail of the error message (if any)
    are fixed; the message is that tail after the row number and the
    name of the column, so it also depends on the row position and,
    for a definition without a name, on the header name. *)
Theorem verdict_independent_of_position (max : Z) (value_str : option string) (d : attr_def) :
  exists accepted cleaned tail,
    forall (header_name : string) (row_number : nat),
      validate_value max value_str header_name d row_number
        = (accepted, cleaned,
           option_map (fun t => where_ row_number (default header_name (name d)) ++ t) tail).
Proof.
  unfold validate_value.
  repeat match goal with
         | |- context [if ?c then _ else _] => destruct c
         | |- context [match ?c with _ => _ end] => destruct c
         end;
    try (do 2 eexists; exists None; intros; reflexivity);
    try (do 2 eexists; eexists (Some _); intros; reflexivity).
Qed.

(** C6, as amended.  For a [multiple_select] definition and a non-blank
    input, with the entries being the trimmed non-empty pieces between
    semicolons: an empty option list is an error; otherwise no entry at
    all is an error when the definition is required; otherwise entries
    outside the options are an error whose message lists exactly
    those; otherwise the entries are accepted in order.  With options
    A, B, C the input ["A;C"] is accepted and ["A;D"] is rejected with
    a message listing ['D']. *)
Theorem multiple_select_cases (max : Z) (d : attr_def) (v header_name : string)
    (row_number : nat) :
  type d = Some "multiple_select" ->
  is_blank (Some v) = false ->
  let entries := selected_entries (strip v) in
  let invalid := invalid_entries d entries in
  let at_ := where_ row_number (default header_name (name d)) in
  let result := validate_value max (Some v) header_name d row_number in
  (options d = [] ->
     result = (false, PStr (strip v), Some (at_ ++ "No options defined.")))
  /\ (options d <> [] -> entries = [] -> isRequired d = true ->
        result = (false, PStr (strip v), Some (at_ ++ "Value is required.")))
  /\ (options d <> [] -> (entries <> [] \/ isRequired d = false) -> invalid <> [] ->
        result = (false, PList entries,
                  Some (at_ ++ "Values " ++ repr_list invalid
                            ++ " are not in allowed options: "
                            ++ repr_list (options d) ++ ".")))
  /\ (options d <> [] -> (entries <> [] \/ isRequired d = false) -> invalid = [] ->
        result = (true, PList entries, None))
  /\ (options d = ["A"; "B"; "C"] -> v = "A;C" -> result = (true, PList ["A"; "C"], None))
  /\ (options d = ["A"; "B"; "C"] -> v = "A;D" ->
        result = (false, PList ["A"; "D"],
                  Some (at_ ++ "Values ['D'] are not in allowed options: ['A', 'B', 'C']."))).
Proof.
  intros Ht Hb entries invalid at_ result.
  assert (Hr : result =
    match options d with
    | [] => (false, PStr (strip v), Some (at_ ++ "No options defined."))
    | _ =>
        if bool_decide (entries = []) && isRequired d
        then (false, PStr (strip v), Some (at_ ++ "Value is required."))
        else match invalid with
             | _ :: _ =>
                 (false, PList entries,
                  Some (at_ ++ "Values " ++ repr_list invalid
                            ++ " are not in allowed options: "
                            ++ repr_list (options d) ++ "."))
             | [] => (true, PList entries, None)
             end
    end).
  { subst result. unfold validate_value. rewrite Hb, Ht. reflexivity. }
  rewrite Hr. clear Hr.
  repeat split.
  - intros ->. reflexivity.
  - intros Ho He Hq. destruct (options d); [done|].
    rewrite He, Hq. reflexivity.
  - intros Ho Hc Hi. destruct (options d) as [|o os] eqn:Eo; [done|].
    assert (bool_decide (entries = []) && isRequired d = false) as ->.
    { destruct Hc as [Hc | ->]; [|apply andb_false_r].
      now rewrite bool_decide_eq_false_2. }
    destruct invalid; [done | reflexivity].
  - intros Ho Hc Hi. destruct (options d) as [|o os] eqn:Eo; [done|].
    assert (bool_decide (entries = []) && isRequired d = false) as ->.
    { destruct Hc as [Hc | ->]; [|apply andb_false_r].
      now rewrite bool_decide_eq_false_2. }
    now rewrite Hi.
  - intros Ho ->. subst entries invalid. unfold invalid_entries. rewrite Ho. reflexivity.
  - intros Ho ->. subst entries invalid. unfold invalid_entries. rewrite Ho. reflexivity.
Qed.

(** *** Concrete instances *)

Import Examples.

Lemma number_examples_witness :
  validate_value 50 (Some "42") "Price" price_def 0 = (true, PInt 42, None).
Proof. exact (proj1 (number_examples 50 price_def "Price" 0 eq_refl)). Defined.

Lemma undocumented_type_accepts_witness :
  validate_value 50 (Some " teal ") "Shade" shade_def 3 = (true, PStr "teal", None).
Proof.
  exact (proj1 (undocumented_type_accepts 50 shade_def (Some " teal ") "Shade" 3 eq_refl)
               eq_refl).
Defined.

Lemma verdict_independent_of_position_witness :
  exists accepted cleaned tail,
    forall (header_name : string) (row_number : nat),
      validate_value 50 (Some "abc") header_name price_def row_number
        = (accepted, cleaned,
           option_map (fun t => where_ row_number (default header_name (name price_def)) ++ t)
                      tail).
Proof. exact (verdict_independent_of_position 50 (Some "abc") price_def). Defined.

(** The same value and definition at two row positions: the error
    messages differ. *)
Lemma error_message_depends_on_row :
  validate_value 50 (Some "abc") "Price" price_def 0
    = (false, PStr "abc", Some "Row 1, Column 'Price': Value 'abc' is not a valid number.")
  /\ validate_value 50 (Some "abc") "Price" price_def 1
      = (false, PStr "abc", Some "Row 2, Column 'Price': Value 'abc' is not a valid number.")
  /\ snd (validate_value 50 (Some "abc") "Price" price_def 0)
      <> snd (validate_value 50 (Some "abc") "Price" price_def 1).
Proof. repeat split. vm_compute. discriminate. Qed.

Lemma multiple_select_cases_witness :
  validate_value 50 (Some "A;D") "Tags" tags_def 0
    = (false, PList ["A"; "D"],
       Some "Row 1, Column 'Tags': Values ['D'] are not in allowed options: ['A', 'B', 'C'].").
Proof.
  destruct (multiple_select_cases 50 tags_def "A;D" "Tags" 0 eq_refl eq_refl)
    as (_ & _ & _ & _ & _ & H).
  exact (H eq_refl eq_refl).
Defined.

(** A required [multiple_select] column and the input [";"]: the option
    list is not empty and no entry is outside it, yet the value is
    rejected. *)
Lemma required_multiple_select_without_entries :
  is_blank (Some ";") = false
  /\ selected_entries (strip ";") = []
  /\ invalid_entries tags_def (selected_entries (strip ";")) = []
  /\ validate_value 50 (Some ";") "Tags" tags_def 0
      = (false, PStr ";", Some "Row 1, Column 'Tags': Value is required.").
Proof. repeat split. Qed.

End ValidatorFacts.

Module IngestFacts.
Import PyStr PyNum Validator Ingest.

(** *** The two store operations *)

Lemma lookup_update_one_upsert (id id' : string) (set ins : gmap string fval)
    (j : gmap string (gmap string fval)) :
  update_one_upsert id set ins j !! id'
    = if decide (id = id') then Some (set ∪ default ins (j !! id)) else j !! id'.
Proof.
  unfold update_one_upsert.
  destruct (j !! id) as [doc|] eqn:E; simpl;
    rewrite lookup_insert; case_decide; reflexivity.
Qed.

Lemma lookup_update_one (id id' : string) (set : gmap string fval)
    (j : gmap string (gmap string fval)) :
  update_one id set j !! id' = if decide (id = id') then (set ∪.) <$> (j !! id) else j !! id'.
Proof.
  unfold update_one.
  destruct (j !! id) as [doc|] eqn:E; simpl.
  - rewrite lookup_insert; case_decide; reflexivity.
  - case_decide; subst; auto.
Qed.

(** Apart from the time fields, the written fields do not depend on the clock. *)
Lemma job_document_fields_time (b k n : string) (t t' : nat) (f : string) :
  time_field f = false ->
  job_document_fields b k n t !! f = job_document_fields b k n t' !! f.
Proof.
  unfold time_field, job_document_fields. intros H.
  apply orb_false_elim in H as [H1 H2].
  apply String.eqb_neq in H1, H2.
  rewrite !lookup_insert, !lookup_singleton.
  repeat case_decide; congruence.
Qed.

Lemma update_fields_time (st : string) (k : option string)
    (d : option (list (string * option string))) (t t' : nat) (f : string) :
  time_field f = false ->
  update_fields st k d t !! f = update_fields st k d t' !! f.
Proof.
  unfold time_field, update_fields. intros H.
  apply orb_false_elim in H as [H1 H2].
  apply String.eqb_neq in H1, H2.
  destruct (falsy k), d as [[|x d]|];
    rewrite !lookup_insert, !lookup_singleton;
    repeat case_decide; congruence.
Qed.

Lemma update_fields_status (st : string) (k : option string)
    (d : option (list (string * option string))) (t : nat) :
  update_fields st k d t !! "status" = Some (VStr st).
Proof.
  unfold update_fields.
  destruct (falsy k), d as [[|x d]|]; reflexivity.
Qed.


(** *** Projections of the status tracker *)

Lemma jobs_update_job_status ok id st k d w :
  jobs (update_job_status ok id st k d w)
    = if ok then update_one id (update_fields st k d (clock w)) (jobs w) else jobs w.
Proof. unfold update_job_status. destruct ok; reflexivity. Qed.

Lemma results_update_job_status ok id st k d w :
  results (update_job_status ok id st k d w) = results w.
Proof. unfold update_job_status. destruct ok; reflexivity. Qed.

Lemma clock_update_job_status ok id st k d w :
  clock (update_job_status ok id st k d w) = S (clock w).
Proof. unfold update_job_status. destruct ok; reflexivity. Qed.

Lemma job_status_update_job_status id st k d w :
  is_Some (jobs w !! id) ->
  job_status (update_job_status true id st k d w) id = Some (VStr st).
Proof.
  intros [doc Hdoc]. unfold job_status, job_field.
  rewrite jobs_update_job_status, lookup_update_one, decide_True by reflexivity.
  rewrite Hdoc. simpl. rewrite lookup_union, update_fields_status.
  now destruct (doc !! "status").
Qed.

Lemma exists_update_job_status ok id id' st k d w :
  is_Some (jobs w !! id) -> is_Some (jobs (update_job_status ok id' st k d w) !! id).
Proof.
  intros H. rewrite jobs_update_job_status. destruct ok; [|exact H].
  rewrite lookup_update_one. case_decide; [subst|exact H].
  destruct H as [doc ->]. now eexists.
Qed.

Lemma log_initial_job_status_true id b k n sub w :
  exists w', log_initial_job_status true id b k n sub w = (true, w')
    /\ jobs w' = update_one_upsert id (job_document_fields b k n (clock w))
                   {[ "_id" := VStr id; "submittedAt" := sub ]} (jobs w)
    /\ results w' = results w /\ clock w' = S (clock w).
Proof. eexists. split; [reflexivity|]. now repeat split. Qed.

(** *** The row loop and the decision *)

Lemma process_rows_total max known rows i total products errors total' products' errors' :
  process_rows max known rows i (total, products, errors) = inr (total', products', errors') ->
  total' = (total + length rows)%nat.
Proof.
  revert i total products errors.
  induction rows as [|[cells|text] rows IH]; intros i total products errors H; simpl in H.
  - inversion H; subst. simpl. lia.
  - unfold process_row in H.
    destruct (validate_cells max known cells i) as [[v1 e1] data].
    destruct (check_required known data i (v1, e1)) as [v e2].
    destruct v; apply IH in H; simpl; lia.
  - discriminate.
Qed.

Lemma decide_status_completed errors ignored total products :
  decide_status errors ignored total products = "COMPLETED"
  <-> errors = [] /\ ignored = [] /\ (0 < total)%nat /\ products = total.
Proof.
  unfold decide_status.
  destruct (bool_decide_reflect (errors = [])), (bool_decide_reflect (ignored = []));
    simpl; try (split; [discriminate | tauto]).
  destruct (Nat.ltb_spec 0 total); simpl; [|split; [discriminate | lia]].
  destruct (Nat.eqb_spec products total); simpl; [tauto|].
  split; [discriminate | tauto].
Qed.

Lemma decide_status_cases errors ignored total products :
  decide_status errors ignored total products = "COMPLETED"
  \/ decide_status errors ignored total products = "COMPLETED_WITH_ISSUES".
Proof. unfold decide_status. destruct (_ && _); auto. Qed.

(** What [process_csv] decides when it read the rows. *)
Lemma process_csv_done max defs job_id reader s :
  process_csv max defs job_id reader = CsvDone s ->
  (final_job_status s = "COMPLETED" \/ final_job_status s = "COMPLETED_WITH_ISSUES")
  /\ (headers_for_result s <> [] ->
        final_job_status s
          = decide_status (validation_errors_list s) (ignored_headers_from_csv s)
                          (total_rows_read s) (length (products_for_result s))
        /\ total_rows_read s = length (items reader)).
Proof.
  unfold process_csv. destruct (fieldnames reader) as [text|[|h hs]]; [discriminate| |].
  - intros [= <-]. simpl. split; [auto | congruence].
  - destruct (partition_headers defs (h :: hs)) as [known ignored].
    destruct known as [|kd known].
    + intros [= <-]. simpl. split; [auto | congruence].
    + destruct (process_rows _ _ _ _ _) as [text|[[total products] errors]] eqn:E;
        [discriminate|].
      intros [= <-]. simpl. split; [apply decide_status_cases|].
      intros _. split; [reflexivity|].
      apply process_rows_total in E. exact E.
Qed.


(** *** A delivery up to the download *)

Lemma logged_exists p w : is_Some (jobs (logged p w) !! job_of p).
Proof.
  unfold logged; simpl. rewrite lookup_update_one_upsert, decide_True by reflexivity.
  now eexists.
Qed.

Lemma process_record_ready cfg e p w :
  ready cfg e p ->
  process_record cfg e (Body p) w
    = process_logged cfg e (job_of p) (default EmptyString (s3Key p)) (file_name_of p)
                     (logged p w).
Proof.
  intros (Hj & Hb & Hk & Hdb & Hlog & _).
  unfold process_record, logged, file_name_of. cbn [now]. rewrite Hdb, Hj, Hb, Hk. cbn [orb].
  unfold log_initial_job_status. rewrite Hlog. reflexivity.
Qed.

Lemma process_logged_ready cfg e p id key name w :
  ready cfg e p ->
  process_logged cfg e id key name w
    = match s3_get e with
      | GetClientError error_code text =>
          unhandled e id text
            (update_job_status (status_update_ok e) id "FAILED" None
               (Some [("error", Some (if String.eqb error_code "NoSuchKey"
                                      then "File not found in S3." else "S3 download error"));
                      ("s3_error_code", Some error_code)]) w)
      | GetOtherError text => unhandled e id text w
      | GetOk reader =>
          match process_csv (SHORT_TEXT_MAX_LENGTH cfg)
                  (get_defined_attributes_map (attribute_docs e)) id reader with
          | CsvFailed err_msg => (Next, fail_job e id err_msg w)
          | CsvDone s =>
              match s3_put e with
              | None =>
                  (Next,
                   update_job_status (status_update_ok e) id (final_job_status s)
                     (Some (result_s3_key_path cfg id)) None
                     (with_results (snd (now w))
                        (<[result_s3_key_path cfg id :=
                             {| r_jobId := id; r_s3Key := key;
                                r_processingTimestamp := clock w;
                                r_message := processing_outcome_message s;
                                r_fileName := name;
                                r_headers := headers_for_result s;
                                r_products := products_for_result s;
                                r_originalHeaders := actual_headers_from_csv s;
                                r_ignoredHeaders := ignored_headers_from_csv s;
                                r_validationErrors := validation_errors_list s |}]>
                           (results w))))
              | Some text =>
                  unhandled e id text
                    (update_job_status (status_update_ok e) id "FAILED" None
                       (Some [("error", Some "Failed to save results to S3.");
                              ("s3Error", Some text)]) (snd (now w)))
              end
          end
      end.
Proof.
  intros (_ & _ & _ & _ & _ & Hbk & Hdefs).
  unfold process_logged. rewrite Hbk.
  rewrite bool_decide_eq_false_2 by exact Hdefs.
  reflexivity.
Qed.

(** A delivery whose file is read and whose artifact is stored ends with
    the status the parsing block decided. *)
Lemma delivery_success cfg e p w reader s :
  ready cfg e p ->
  s3_get e = GetOk reader ->
  process_csv (SHORT_TEXT_MAX_LENGTH cfg) (get_defined_attributes_map (attribute_docs e))
              (job_of p) reader = CsvDone s ->
  s3_put e = None -> status_update_ok e = true ->
  fst (process_record cfg e (Body p) w) = Next
  /\ job_status (snd (process_record cfg e (Body p) w)) (job_of p)
       = Some (VStr (final_job_status s)).
Proof.
  intros Hready Hget Hcsv Hput Hupd.
  rewrite (process_record_ready _ _ _ _ Hready).
  rewrite (process_logged_ready _ _ _ _ _ _ _ Hready), Hget, Hcsv, Hput, Hupd.
  split; [reflexivity|]. cbn [snd].
  apply job_status_update_job_status. apply logged_exists.
Qed.

(** C1.  For a delivery that reaches the download, whose file is read
    without [csv.Error] and has at least one recognised header: the
    decided status is COMPLETED exactly when there is no validation
    error, no ignored header, at least one row was read and the number
    of valid products equals the number of rows read, and it is
    COMPLETED_WITH_ISSUES in every other case; the rows read are the
    rows of the file; and once the artifact is stored and the status
    update is accepted, the job record holds the decided status. *)
Theorem terminal_status_decision (cfg : config) (e : env) (p : payload) (w : world)
    (reader : csv_reader) (s : csv_summary) :
  ready cfg e p ->
  s3_get e = GetOk reader ->
  process_csv (SHORT_TEXT_MAX_LENGTH cfg) (get_defined_attributes_map (attribute_docs e))
              (job_of p) reader = CsvDone s ->
  headers_for_result s <> [] ->
  (final_job_status s = "COMPLETED"
     <-> validation_errors_list s = [] /\ ignored_headers_from_csv s = []
         /\ (0 < total_rows_read s)%nat
         /\ length (products_for_result s) = total_rows_read s)
  /\ (final_job_status s <> "COMPLETED" -> final_job_status s = "COMPLETED_WITH_ISSUES")
  /\ total_rows_read s = length (items reader)
  /\ (s3_put e = None -> status_update_ok e = true ->
        fst (process_record cfg e (Body p) w) = Next
        /\ job_status (snd (process_record cfg e (Body p) w)) (job_of p)
             = Some (VStr (final_job_status s))).
Proof.
  intros Hready Hget Hcsv Hh.
  destruct (process_csv_done _ _ _ _ _ Hcsv) as [Hcases Hdec].
  destruct (Hdec Hh) as [Hst Htot].
  split; [|split; [|split]].
  - rewrite Hst. apply decide_status_completed.
  - intros Hn. destruct Hcases; [contradiction | assumption].
  - exact Htot.
  - intros Hput Hupd. now apply (delivery_success cfg e p w reader s).
Qed.

(** *** Headers *)

Lemma partition_headers_all_known (defs : gmap string attr_def) (names : list string)
    (known0 : list (string * attr_def)) (ignored0 : list string) :
  Forall (fun h => is_Some (defs !! h)) names ->
  exists known,
    fold_left (fun '(known, ignored) header =>
                 match defs !! header with
                 | Some d => ((known ++ [(header, d)])%list, ignored)
                 | None => (known, (ignored ++ [header])%list)
                 end) names (known0, ignored0) = (known, ignored0)
    /\ map fst known = (map fst known0 ++ names)%list.
Proof.
  intros H. revert known0. induction H as [|h names [d Hd] _ IH]; intros known0.
  - exists known0. split; [reflexivity|]. now rewrite app_nil_r.
  - cbn [fold_left]. rewrite Hd.
    destruct (IH (known0 ++ [(h, d)])%list) as (known & -> & Hm).
    exists known. split; [reflexivity|].
    rewrite Hm, map_app. cbn [map fst]. now rewrite <- app_assoc.
Qed.

(** C2, as amended.  For a file whose header row is not empty, whose
    headers are all defined attributes and which has no data row: the
    headers are all kept, none is ignored, there is no product and no
    validation error, and the decided status is COMPLETED_WITH_ISSUES,
    which the job record holds once the artifact is stored. *)
Theorem headers_only_file (cfg : config) (e : env) (p : payload) (w : world)
    (names : list string) :
  let defs := get_defined_attributes_map (attribute_docs e) in
  let reader := {| fieldnames := Head names; items := [] |} in
  names <> [] ->
  Forall (fun h => is_Some (defs !! h)) names ->
  exists s,
    process_csv (SHORT_TEXT_MAX_LENGTH cfg) defs (job_of p) reader = CsvDone s
    /\ headers_for_result s = names
    /\ ignored_headers_from_csv s = []
    /\ products_for_result s = []
    /\ validation_errors_list s = []
    /\ final_job_status s = "COMPLETED_WITH_ISSUES"
    /\ (ready cfg e p -> s3_get e = GetOk reader -> s3_put e = None ->
          status_update_ok e = true ->
          job_status (snd (process_record cfg e (Body p) w)) (job_of p)
            = Some (VStr "COMPLETED_WITH_ISSUES")).
Proof.
  intros defs reader Hne Hall.
  destruct (partition_headers_all_known defs names [] [] Hall) as (known & Hp & Hm).
  cbn [map app] in Hm.
  assert (Hcsv : exists s,
    process_csv (SHORT_TEXT_MAX_LENGTH cfg) defs (job_of p) reader = CsvDone s
    /\ headers_for_result s = names /\ ignored_headers_from_csv s = []
    /\ products_for_result s = [] /\ validation_errors_list s = []
    /\ final_job_status s = "COMPLETED_WITH_ISSUES").
  { unfold process_csv, reader. cbn [fieldnames items].
    destruct names as [|h hs]; [done|].
    unfold partition_headers. rewrite Hp.
    destruct known as [|kd known]; [discriminate|].
    cbn [process_rows]. eexists. split; [reflexivity|].
    cbn [headers_for_result ignored_headers_from_csv products_for_result
         validation_errors_list final_job_status].
    now repeat split. }
  destruct Hcsv as (s & Hs & Hh & Hi & Hpr & Hv & Hf).
  exists s. repeat (split; [assumption|]).
  intros Hready Hget Hput Hupd.
  destruct (delivery_success cfg e p w reader s Hready Hget Hs Hput Hupd) as [_ ->].
  now rewrite Hf.
Qed.

(** *** Every delivery that logs its start ends in a terminal status *)

Lemma job_status_unhandled e id text w :
  status_update_ok e = true -> is_Some (jobs w !! id) ->
  job_status (snd (unhandled e id text w)) id = Some (VStr "FAILED").
Proof.
  intros Hupd Hex. unfold unhandled. cbn [snd]. rewrite Hupd.
  now apply job_status_update_job_status.
Qed.

Lemma job_status_fail_job e id msg w :
  status_update_ok e = true -> is_Some (jobs w !! id) ->
  job_status (fail_job e id msg w) id = Some (VStr "FAILED").
Proof.
  intros Hupd Hex. unfold fail_job. rewrite Hupd.
  now apply job_status_update_job_status.
Qed.

Lemma job_status_log_initial id b k n sub w :
  job_status (snd (log_initial_job_status true id b k n sub w)) id
    = Some (VStr "PROCESSING").
Proof.
  unfold job_status, job_field, log_initial_job_status. cbn [now snd with_jobs jobs].
  rewrite lookup_update_one_upsert, decide_True by reflexivity.
  cbn [mbind option_bind]. rewrite lookup_union.
  replace (job_document_fields b k n (clock w) !! "status")
    with (Some (VStr "PROCESSING")) by reflexivity.
  now destruct (default _ _ !! "status").
Qed.

Lemma submitted_log_initial id b k n sub w v :
  job_field w id "submittedAt" = Some v ->
  job_field (snd (log_initial_job_status true id b k n sub w)) id "submittedAt" = Some v.
Proof.
  unfold job_field, log_initial_job_status. cbn [now snd with_jobs jobs].
  rewrite lookup_update_one_upsert, decide_True by reflexivity.
  destruct (jobs w !! id) as [doc|]; [|discriminate].
  cbn [mbind option_bind default from_option Datatypes.id].
  intros Hv. rewrite lookup_union, Hv.
  replace (job_document_fields b k n (clock w) !! "submittedAt")
    with (@None fval) by reflexivity.
  reflexivity.
Qed.

(** C3, as amended.  The initial upsert of a delivery sets the status
    of the job to PROCESSING whatever it was before, and keeps the
    [submittedAt] the record already has; a delivery that reaches the
    download and whose status updates are stored leaves the record in
    a terminal status (COMPLETED, COMPLETED_WITH_ISSUES or FAILED). *)
Theorem redelivery_resets_then_terminates (cfg : config) (e : env) (p : payload) (w : world) :
  (forall b k n sub,
      job_status (snd (log_initial_job_status true (job_of p) b k n sub w)) (job_of p)
        = Some (VStr "PROCESSING"))
  /\ (forall b k n sub v,
        job_field w (job_of p) "submittedAt" = Some v ->
        job_field (snd (log_initial_job_status true (job_of p) b k n sub w)) (job_of p)
                  "submittedAt" = Some v)
  /\ (ready cfg e p -> status_update_ok e = true ->
        terminal (job_status (snd (process_record cfg e (Body p) w)) (job_of p))).
Proof.
  split; [|split].
  - intros. apply job_status_log_initial.
  - intros. now apply submitted_log_initial.
  - intros Hready Hupd.
    rewrite (process_record_ready _ _ _ _ Hready).
    rewrite (process_logged_ready _ _ _ _ _ _ _ Hready).
    pose proof (logged_exists p w) as Hex.
    unfold terminal.
    destruct (s3_get e) as [reader|code text|text].
    + destruct (process_csv _ _ _ _) as [msg|s] eqn:Hcsv.
      * right; right. now apply job_status_fail_job.
      * destruct (s3_put e) as [text|].
        -- right; right. apply job_status_unhandled; [assumption|].
           now apply exists_update_job_status.
        -- cbn [snd]. rewrite Hupd, job_status_update_job_status by exact Hex.
           destruct (process_csv_done _ _ _ _ _ Hcsv) as [[-> | ->] _]; auto.
    + right; right. apply job_status_unhandled; [assumption|].
      now apply exists_update_job_status.
    + right; right. now apply job_status_unhandled.
Qed.


(** *** Delivering the same message again *)

Ltac reduce_world :=
  cbn [process_logged unhandled fail_job update_job_status log_initial_job_status
       now with_jobs with_results jobs results clock fst snd
       db_connects log_initial_ok status_update_ok attribute_docs s3_get s3_put].

Ltac normalise_lookups :=
  repeat first
    [ rewrite lookup_update_one
    | rewrite lookup_update_one_upsert ].

Ltac align_times f Hf :=
  rewrite ?(update_fields_time _ _ _ (S _) O f Hf);
  rewrite ?(job_document_fields_time _ _ _ (S _) O f Hf).

Ltac split_on_job id' :=
  let Hne := fresh "Hne" in
  match goal with
  | |- context [decide (?x = id')] => destruct (decide (x = id')) as [<-|Hne]
  end;
  [ rewrite ?decide_True by reflexivity
  | rewrite ?decide_False by exact Hne; reflexivity ].

Ltac solve_fields :=
  let id' := fresh "id'" in
  let f := fresh "f" in
  let Hf := fresh "Hf" in
  intros id' f Hf; unfold job_field; reduce_world; normalise_lookups;
  first
    [ reflexivity
    | split_on_job id';
      match goal with
      | |- context [jobs ?w !! ?id] => destruct (jobs w !! id)
      end;
      cbn [fmap option_fmap option_map mbind option_bind default from_option Datatypes.id];
      rewrite ?lookup_union; align_times f Hf;
      repeat match goal with
             | |- context [?m !! f] => destruct (m !! f)
             end;
      reflexivity ].

Lemma redelivery_jobs cfg e body w id f :
  time_field f = false ->
  job_field (snd (process_record cfg e body (snd (process_record cfg e body w)))) id f
    = job_field (snd (process_record cfg e body w)) id f.
Proof.
  revert id f.
  destruct body as [|text|p]; [reflexivity | reflexivity |].
  destruct e as [db lg up docs get put].
  unfold process_record.
  cbn [db_connects log_initial_ok status_update_ok attribute_docs s3_get s3_put].
  destruct db; [reflexivity|].
  destruct (falsy (jobId p) || falsy (s3Bucket p) || falsy (s3Key p)).
  { destruct (falsy (jobId p)); [reflexivity|].
    destruct up; solve_fields. }
  destruct lg; [|reflexivity].
  reduce_world. unfold process_logged.
  cbn [db_connects log_initial_ok status_update_ok attribute_docs s3_get s3_put].
  destruct (falsy (PROCESSED_RESULTS_BUCKET cfg)).
  { destruct up; solve_fields. }
  destruct (bool_decide _).
  { destruct up; solve_fields. }
  destruct get as [reader|code text|text].
  - destruct (process_csv _ _ _ _) as [msg|s].
    + destruct up; solve_fields.
    + destruct put; destruct up; solve_fields.
  - destruct up; solve_fields.
  - destruct up; solve_fields.
Qed.

Ltac walk_delivery e p leaf :=
  destruct e as [db lg up docs get put];
  unfold process_record;
  cbn [db_connects log_initial_ok status_update_ok attribute_docs s3_get s3_put];
  destruct db; [leaf|];
  destruct (falsy (jobId p) || falsy (s3Bucket p) || falsy (s3Key p));
  [ destruct (falsy (jobId p)); [leaf|]; destruct up; leaf |];
  destruct lg; [|leaf];
  reduce_world; unfold process_logged;
  cbn [db_connects log_initial_ok status_update_ok attribute_docs s3_get s3_put];
  destruct (falsy (PROCESSED_RESULTS_BUCKET _)); [destruct up; leaf|];
  destruct (bool_decide _); [destruct up; leaf|];
  destruct get as [reader|code text|text];
  [ destruct (process_csv _ _ _ _) as [msg|s];
    [ destruct up; leaf | destruct put; destruct up; leaf ]
  | destruct up; leaf
  | destruct up; leaf ].

(** The outcome of a delivery does not depend on the stores. *)
Lemma outcome_independent cfg e body w w' :
  fst (process_record cfg e body w) = fst (process_record cfg e body w').
Proof.
  destruct body as [|text|p]; [reflexivity | reflexivity |].
  walk_delivery e p ltac:(reflexivity).
Qed.

(** A delivery leaves the results bucket alone or writes one artifact,
    at the key derived from the job identifier; but for the processing
    time the artifact depends on the message and the answers only. *)
Lemma results_effect cfg e body :
  (forall w, results (snd (process_record cfg e body w)) = results w)
  \/ (exists p a, body = Body p
        /\ forall w, exists a', strip_time a' = a
             /\ results (snd (process_record cfg e body w))
                  = <[result_s3_key_path cfg (job_of p) := a']> (results w)).
Proof.
  destruct body as [|text|p]; [left; reflexivity | left; reflexivity |].
  walk_delivery e p
    ltac:(first [ left; reflexivity
                | right; eexists p, _; split; [reflexivity|];
                  intros w; eexists; split; [|reflexivity];
                  unfold strip_time;
                  cbn [r_jobId r_s3Key r_message r_fileName r_headers
                       r_products r_originalHeaders r_ignoredHeaders r_validationErrors];
                  reflexivity ]).
Qed.

(** C4.  Delivering the same message again, with the same answers of
    the outside world: the outcome is the same; every field of every
    job document except the two time fields is the same, in particular
    the status, [submittedAt] and the result key; the results bucket
    holds the same keys, with the same artifacts but for their
    processing time; and the only key a delivery writes is
    [{prefix}/{jobId}-result.json]. *)
Theorem redelivery_idempotent (cfg : config) (e : env) (body : sqs_body) (w : world) :
  let r1 := process_record cfg e body w in
  let r2 := process_record cfg e body (snd r1) in
  fst r2 = fst r1
  /\ (forall id f, time_field f = false ->
        job_field (snd r2) id f = job_field (snd r1) id f)
  /\ dom (results (snd r2)) = dom (results (snd r1))
  /\ (forall key, strip_time <$> results (snd r2) !! key
                   = strip_time <$> results (snd r1) !! key)
  /\ (forall key, results (snd r1) !! key <> results w !! key ->
        exists p, body = Body p /\ key = result_s3_key_path cfg (job_of p)).
Proof.
  intros r1 r2. subst r1 r2.
  split; [apply outcome_independent|].
  split; [intros; now apply redelivery_jobs|].
  destruct (results_effect cfg e body) as [Hsame | (p & a & -> & Hput)].
  - rewrite !Hsame. repeat split; congruence.
  - destruct (Hput w) as (a1 & Ha1 & ->).
    destruct (Hput (snd (process_record cfg e (Body p) w))) as (a2 & Ha2 & ->).
    destruct (Hput w) as (a1' & Ha1' & ->).
    split; [|split].
    + now rewrite insert_insert_eq, !dom_insert_L.
    + intros key. rewrite !lookup_insert.
      case_decide; [cbn; congruence | reflexivity].
    + intros key Hk. exists p. split; [reflexivity|].
      rewrite lookup_insert in Hk. case_decide; congruence.
Qed.

(** *** Download failures and parse failures *)

Lemma error_details_update_job_status id st k x d w :
  is_Some (jobs w !! id) ->
  job_field (update_job_status true id st k (Some (x :: d)) w) id "errorDetails"
    = Some (VDict (x :: d)).
Proof.
  intros [doc Hdoc]. unfold job_field.
  rewrite jobs_update_job_status, lookup_update_one, decide_True by reflexivity.
  rewrite Hdoc. cbn [fmap option_fmap option_map mbind option_bind].
  rewrite lookup_union.
  replace (update_fields st k (Some (x :: d)) (clock w) !! "errorDetails")
    with (Some (VDict (x :: d))).
  - now destruct (doc !! "errorDetails").
  - unfold update_fields. destruct (falsy k); reflexivity.
Qed.

(** C7.  In a delivery that reaches the download and whose status
    updates are stored: a failed download leaves the job FAILED with a
    dictionary of error details and the exception leaves the handler,
    so the rest of the batch is not processed; a [csv.Error] leaves
    the job FAILED with its message, raises nothing, and the handler
    goes on with the next record. *)
Theorem download_failure_raises_parse_failure_does_not (cfg : config) (e : env)
    (p : payload) (w : world) (rest : list (env * sqs_body)) :
  ready cfg e p ->
  status_update_ok e = true ->
  let r := process_record cfg e (Body p) w in
  (forall text, download_error (s3_get e) = Some text ->
     fst r = Raised text
     /\ job_status (snd r) (job_of p) = Some (VStr "FAILED")
     /\ job_field (snd r) (job_of p) "errorDetails"
          = Some (VDict [("error", Some "Unhandled exception during processing.");
                         ("exception", Some text)])
     /\ lambda_handler cfg ((e, Body p) :: rest) w = (Propagated text, snd r))
  /\ (forall reader err_msg,
        s3_get e = GetOk reader ->
        process_csv (SHORT_TEXT_MAX_LENGTH cfg)
                    (get_defined_attributes_map (attribute_docs e)) (job_of p) reader
          = CsvFailed err_msg ->
        fst r = Next
        /\ job_status (snd r) (job_of p) = Some (VStr "FAILED")
        /\ job_field (snd r) (job_of p) "errorDetails"
             = Some (VDict [("error", Some err_msg)])
        /\ lambda_handler cfg ((e, Body p) :: rest) w = lambda_handler cfg rest (snd r)).
Proof.
  intros Hready Hupd r.
  assert (Hr : r = process_logged cfg e (job_of p) (default EmptyString (s3Key p))
                     (file_name_of p) (logged p w)).
  { subst r. now apply process_record_ready. }
  pose proof (logged_exists p w) as Hex.
  cbn [lambda_handler]. fold r.
  rewrite (process_logged_ready _ _ _ _ _ _ _ Hready) in Hr.
  split.
  - intros text Herr.
    assert (Hu : exists w', is_Some (jobs w' !! job_of p)
                            /\ r = unhandled e (job_of p) text w').
    { destruct (s3_get e) as [reader|code text'|text']; [discriminate| |];
        injection Herr as ->; eexists; (split; [|exact Hr]);
        [now apply exists_update_job_status | exact Hex]. }
    destruct Hu as (w' & Hw' & ->).
    unfold unhandled. cbn [fst snd]. rewrite Hupd.
    repeat split.
    + now apply job_status_update_job_status.
    + now apply error_details_update_job_status.
  - intros reader err_msg Hget Hcsv. rewrite Hget, Hcsv in Hr. rewrite Hr.
    unfold fail_job. cbn [fst snd]. rewrite Hupd.
    repeat split.
    + now apply job_status_update_job_status.
    + now apply error_details_update_job_status.
Qed.

(** A header that cannot be read, or a row that cannot be read once a
    header is recognised, is a parse failure. *)
Lemma process_csv_head_error max defs job_id text rows :
  process_csv max defs job_id {| fieldnames := HeadError text; items := rows |}
    = CsvFailed ("Failed to parse CSV file structure for job " ++ job_id ++ ": " ++ text).
Proof. reflexivity. Qed.


(** *** Concrete instances *)

Import Examples.

Lemma ready_example (g : get_result) : ready cfg0 (env_of g) msg0.
Proof. repeat split. vm_compute. discriminate. Qed.

Lemma gadget_done :
  process_csv (SHORT_TEXT_MAX_LENGTH cfg0)
              (get_defined_attributes_map (attribute_docs (env_of (GetOk rd_gadget))))
              (job_of msg0) rd_gadget = CsvDone gadget_summary.
Proof. vm_compute. reflexivity. Qed.

Lemma terminal_status_decision_witness :
  job_status (snd (process_record cfg0 (env_of (GetOk rd_gadget)) (Body msg0) w0)) "job-1"
    = Some (VStr "COMPLETED").
Proof.
  destruct (terminal_status_decision cfg0 (env_of (GetOk rd_gadget)) msg0 w0 rd_gadget
              gadget_summary (ready_example _) eq_refl gadget_done) as (_ & _ & _ & H).
  - vm_compute. discriminate.
  - exact (proj2 (H eq_refl eq_refl)).
Defined.

(** A file with the recognised headers [Name,Price] and no row: no
    product, no error, no ignored header, and the status is
    COMPLETED_WITH_ISSUES. *)
Lemma headers_only_is_not_completed :
  let w := snd (process_record cfg0 (env_of (GetOk rd_headers_only)) (Body msg0) w0) in
  job_status w "job-1" = Some (VStr "COMPLETED_WITH_ISSUES")
  /\ (r_products <$> results w !! "processed-files/job-1-result.json") = Some []
  /\ (r_validationErrors <$> results w !! "processed-files/job-1-result.json") = Some []
  /\ (r_ignoredHeaders <$> results w !! "processed-files/job-1-result.json") = Some []
  /\ job_status w "job-1" <> Some (VStr "COMPLETED").
Proof. vm_compute. repeat split. discriminate. Qed.

Lemma headers_only_file_witness :
  job_status (snd (process_record cfg0 (env_of (GetOk rd_headers_only)) (Body msg0) w0))
             "job-1"
    = Some (VStr "COMPLETED_WITH_ISSUES").
Proof.
  destruct (headers_only_file cfg0 (env_of (GetOk rd_headers_only)) msg0 w0 ["Name"; "Price"])
    as (s & _ & _ & _ & _ & _ & _ & H).
  - discriminate.
  - repeat (constructor; [eexists; vm_compute; reflexivity|]). constructor.
  - exact (H (ready_example _) eq_refl eq_refl eq_refl).
Defined.

(** The record of [job-1] is COMPLETED; the initial upsert of a second
    delivery sets it to PROCESSING, and there it stays when the later
    status update is not stored. *)
Lemma redelivery_regresses_status :
  job_status w_done "job-1" = Some (VStr "COMPLETED")
  /\ job_status (snd (log_initial_job_status true "job-1" "portal-uploads" "uploads/a.csv"
                        "a.csv" (VStr "2024-05-01T10:00:00+00:00") w_done)) "job-1"
      = Some (VStr "PROCESSING")
  /\ job_status (snd (process_record cfg0 env_flaky (Body msg0) w_done)) "job-1"
      = Some (VStr "PROCESSING").
Proof. vm_compute. repeat split. Qed.

Lemma redelivery_resets_then_terminates_witness :
  terminal (job_status
              (snd (process_record cfg0 (env_of (GetOk rd_gadget)) (Body msg0) w_done))
              "job-1").
Proof.
  exact (proj2 (proj2 (redelivery_resets_then_terminates cfg0 (env_of (GetOk rd_gadget))
                         msg0 w_done))
               (ready_example _) eq_refl).
Defined.

Lemma redelivery_idempotent_witness :
  let r1 := process_record cfg0 (env_of (GetOk rd_gadget)) (Body msg0) w0 in
  let r2 := process_record cfg0 (env_of (GetOk rd_gadget)) (Body msg0) (snd r1) in
  job_field (snd r2) "job-1" "submittedAt" = job_field (snd r1) "job-1" "submittedAt".
Proof.
  exact (proj1 (proj2 (redelivery_idempotent cfg0 (env_of (GetOk rd_gadget)) (Body msg0) w0))
               "job-1" "submittedAt" eq_refl).
Defined.

Lemma download_failure_raises_parse_failure_does_not_witness :
  fst (process_record cfg0 (env_of (GetClientError "NoSuchKey" "NoSuchKey: not found"))
                      (Body msg0) w0)
    = Raised "NoSuchKey: not found"
  /\ fst (process_record cfg0 (env_of (GetOk rd_broken)) (Body msg0) w0) = Next.
Proof.
  split.
  - exact (proj1 (proj1 (download_failure_raises_parse_failure_does_not cfg0
                           (env_of (GetClientError "NoSuchKey" "NoSuchKey: not found"))
                           msg0 w0 [] (ready_example _) eq_refl)
                        "NoSuchKey: not found" eq_refl)).
  - exact (proj1 (proj2 (download_failure_raises_parse_failure_does_not cfg0
                           (env_of (GetOk rd_broken)) msg0 w0 [] (ready_example _) eq_refl)
                        rd_broken _ eq_refl (process_csv_head_error _ _ _ _ _))).
Defined.

End IngestFacts.

Module ApproveFacts.
Import PyStr PyNum Approve.

Lemma derive_id_missing (d : dict) :
  absent_or_falsy "Barcode" d = true -> absent_or_falsy "ProductName" d = true ->
  derive_id d = inl uuid_name_error.
Proof. unfold derive_id. now intros -> ->. Qed.

Lemma prepare_product_missing (t : nat) (src : jval) (d : dict) :
  absent_or_falsy "Barcode" d = true -> absent_or_falsy "ProductName" d = true ->
  prepare_product t src d = inl uuid_name_error.
Proof. intros Hb Hn. unfold prepare_product. now rewrite derive_id_missing. Qed.

(** A dictionary without identifier anywhere in the list makes the loop raise. *)
Lemma prepare_all_raises (t : nat) (src : jval) (l : list jval) (d : dict) :
  In (JObj d) l ->
  absent_or_falsy "Barcode" d = true -> absent_or_falsy "ProductName" d = true ->
  exists text, prepare_all t src l = inl text.
Proof.
  intros Hin Hb Hn. induction l as [|x l IH]; [destruct Hin|].
  destruct Hin as [-> | Hin].
  - cbn [prepare_all]. rewrite prepare_product_missing by assumption. eauto.
  - destruct (IH Hin) as [text Ht].
    destruct x; cbn [prepare_all]; eauto.
    destruct (prepare_product t src o) as [text'|doc]; [eauto|].
    rewrite Ht. eauto.
Qed.

(** When the entries before it are prepared without error, the exception
    is the [NameError]. *)
Lemma prepare_all_name_error (t : nat) (src : jval) (pre post : list jval) (d : dict)
    (docs : list dict) :
  prepare_all t src pre = inr docs ->
  absent_or_falsy "Barcode" d = true -> absent_or_falsy "ProductName" d = true ->
  prepare_all t src (pre ++ JObj d :: post) = inl uuid_name_error.
Proof.
  intros Hpre Hb Hn. revert docs Hpre.
  induction pre as [|x pre IH]; intros docs Hpre.
  - cbn [app prepare_all]. now rewrite prepare_product_missing.
  - cbn [app]. destruct x; cbn [prepare_all] in *; eauto.
    destruct (prepare_product t src o) as [text'|doc]; [discriminate|].
    destruct (prepare_all t src pre) as [text'|docs'] eqn:E; [discriminate|].
    now rewrite (IH docs').
Qed.

(** C9, as amended.  When an element of the [products] array is a
    dictionary whose ['Barcode'] and ['ProductName'] are both absent or
    falsy, the handler answers 500 and [bulk_write] is never called;
    when the database is reachable and the elements before that
    dictionary are prepared without an exception, the error of the
    response is the [NameError] of [uuid.uuid4()]. *)
Theorem missing_identifier_fails (e : env) (ev : event) (l : list jval) (d : dict) :
  products_of ev = Some l ->
  In (JObj d) l ->
  absent_or_falsy "Barcode" d = true ->
  absent_or_falsy "ProductName" d = true ->
  statusCode (fst (lambda_handler e ev)) = 500
  /\ snd (lambda_handler e ev) = None
  /\ (db_connects e = None ->
      forall pre post docs,
        l = (pre ++ JObj d :: post)%list ->
        prepare_all (current_timestamp e) (source_of ev) pre = inr docs ->
        error (fst (lambda_handler e ev))
          = Some ("An unexpected server error occurred: " ++ uuid_name_error)).
Proof.
  intros Hp Hin Hb Hn.
  destruct ev as [text|[| | | | | |body|]]; try discriminate.
  unfold products_of in Hp.
  destruct (get "products" body) as [[| | | | |l'| |]|] eqn:Hg; try discriminate.
  injection Hp as ->.
  unfold lambda_handler. rewrite Hg. cbn [source_of].
  destruct (db_connects e) as [text|] eqn:Hdb.
  - repeat split. discriminate.
  - destruct l as [|x l]; [destruct Hin|].
    destruct (prepare_all_raises (current_timestamp e)
                (default (JStr "unknown_source_csv") (get "s3Key" body))
                (x :: l) d Hin Hb Hn) as [text Ht].
    rewrite Ht. repeat split.
    intros _ pre post docs Hl Hpre.
    rewrite Hl in Ht.
    rewrite (prepare_all_name_error _ _ pre post d docs Hpre Hb Hn) in Ht.
    now injection Ht as <-.
Qed.

(** *** Concrete instances *)

Import Examples.

Lemma missing_identifier_fails_witness :
  statusCode (fst (lambda_handler db_up anonymous_request)) = 500
  /\ snd (lambda_handler db_up anonymous_request) = None
  /\ error (fst (lambda_handler db_up anonymous_request))
      = Some "An unexpected server error occurred: name 'uuid' is not defined".
Proof.
  destruct (missing_identifier_fails db_up anonymous_request
              [JObj [("Colour", JStr "red")]] [("Colour", JStr "red")]
              eq_refl (or_introl eq_refl) eq_refl eq_refl) as (H1 & H2 & H3).
  split; [exact H1 | split; [exact H2 |]].
  exact (H3 eq_refl [] [] [] eq_refl eq_refl).
Defined.

(** Two requests with a product that has no identifier in which no
    [NameError] is raised: an earlier product makes [int] raise
    [ValueError], or the database is unreachable. *)
Lemma name_error_not_always_raised :
  products_of bad_request
    = Some [JObj [("Barcode", JStr "x"); ("Note", JStr superscript_two)]; JObj []]
  /\ absent_or_falsy "Barcode" [] = true /\ absent_or_falsy "ProductName" [] = true
  /\ error (fst (lambda_handler db_up bad_request))
      = Some ("An unexpected server error occurred: "
                ++ "invalid literal for int() with base 10: '" ++ superscript_two ++ "'")
  /\ error (fst (lambda_handler db_up bad_request))
      <> Some ("An unexpected server error occurred: " ++ uuid_name_error)
  /\ error (fst (lambda_handler db_down bad_request))
      = Some "Failed to connect to database: connection refused".
Proof. vm_compute. repeat split. discriminate. Qed.

End ApproveFacts.

Set Warnings "-clear-no-such-hyp".

Module StripFacts.
Import PyStr.

Lemma lstrip_by_fixed (p : ascii -> bool) (s : string) :
  lstrip_by p (lstrip_by p s) = lstrip_by p s.
Proof.
  induction s as [|c r IH]; [reflexivity|].
  cbn [lstrip_by]. destruct (p c) eqn:E; [exact IH|].
  cbn [lstrip_by]. now rewrite E.
Qed.

Lemma rstrip_by_fixed (p : ascii -> bool) (s : string) :
  rstrip_by p (rstrip_by p s) = rstrip_by p s.
Proof.
  induction s as [|c r IH]; [reflexivity|].
  cbn [rstrip_by]. destruct (rstrip_by p r) as [|c' r'] eqn:E.
  - destruct (p c) eqn:Ec; [reflexivity|]. cbn [rstrip_by]. now rewrite Ec.
  - cbn [rstrip_by] in *. now rewrite IH.
Qed.

(** Stripping on the right keeps a first character that is not stripped. *)
Lemma lstrip_rstrip (p : ascii -> bool) (s : string) :
  lstrip_by p s = s -> lstrip_by p (rstrip_by p s) = rstrip_by p s.
Proof.
  destruct s as [|c r]; [reflexivity|].
  cbn [lstrip_by]. destruct (p c) eqn:Ec.
  - intros H. exfalso.
    assert (Hl : forall t, (String.length (lstrip_by p t) <= String.length t)%nat).
    { induction t as [|x t IHt]; cbn [lstrip_by String.length]; [lia|].
      destruct (p x); cbn [String.length]; lia. }
    specialize (Hl r). rewrite H in Hl. cbn [String.length] in Hl. lia.
  - intros _. cbn [rstrip_by].
    destruct (rstrip_by p r); rewrite ?Ec; cbn [lstrip_by]; now rewrite Ec.
Qed.

Lemma strip_idempotent (s : string) : strip (strip s) = strip s.
Proof.
  unfold strip.
  rewrite (lstrip_rstrip is_space (lstrip_by is_space s)) by apply lstrip_by_fixed.
  apply rstrip_by_fixed.
Qed.

Lemma contains_char_lstrip (ch : ascii) (p : ascii -> bool) (s : string) :
  contains_char ch (lstrip_by p s) = true -> contains_char ch s = true.
Proof.
  induction s as [|c r IH]; [discriminate|].
  cbn [lstrip_by]. destruct (p c); [|trivial].
  intros H. cbn [contains_char]. rewrite (IH H). apply orb_true_r.
Qed.

Lemma contains_char_rstrip (ch : ascii) (p : ascii -> bool) (s : string) :
  contains_char ch (rstrip_by p s) = true -> contains_char ch s = true.
Proof.
  induction s as [|c r IH]; [discriminate|].
  cbn [rstrip_by]. destruct (rstrip_by p r) as [|c' r'] eqn:E.
  - destruct (p c); [discriminate|]. cbn [contains_char].
    rewrite orb_false_r. intros ->. reflexivity.
  - cbn [contains_char] in *. destruct (ascii_dec c ch); [reflexivity|].
    cbn [orb]. exact IH.
Qed.

Lemma contains_char_strip (ch : ascii) (s : string) :
  contains_char ch (strip s) = true -> contains_char ch s = true.
Proof.
  unfold strip. intros H.
  now apply contains_char_rstrip, contains_char_lstrip in H.
Qed.

(** No piece of a split contains the separator. *)
Lemma split_on_pieces (sep : ascii) (s : string) :
  Forall (fun piece => contains_char sep piece = false) (split_on sep s).
Proof.
  induction s as [|c r IH]; cbn [split_on].
  - repeat constructor.
  - destruct (ascii_dec c sep) as [->|Hne].
    + constructor; [reflexivity | exact IH].
    + destruct (split_on sep r) as [|piece ps].
      * repeat constructor. cbn [contains_char]. now destruct (ascii_dec c sep).
      * inversion IH; subst. constructor; [|assumption].
        cbn [contains_char]. now destruct (ascii_dec c sep).
Qed.

Lemma split_on_nonempty (sep : ascii) (s : string) : split_on sep s <> [].
Proof.
  destruct s as [|c r]; cbn [split_on]; [discriminate|].
  destruct (ascii_dec c sep); [discriminate|]. now destruct (split_on sep r).
Qed.

Lemma join_head (sep : string) (c : ascii) (piece : string) (ps : list string) :
  join sep (String c piece :: ps) = String c (join sep (piece :: ps)).
Proof. destruct ps; reflexivity. Qed.

(** Joining the pieces with the separator gives the string back. *)
Lemma join_split_on (sep : ascii) (s : string) :
  join (String sep EmptyString) (split_on sep s) = s.
Proof.
  induction s as [|c r IH]; [reflexivity|].
  pose proof (split_on_nonempty sep r) as Hn.
  cbn [split_on]. destruct (ascii_dec c sep) as [->|Hne].
  - destruct (split_on sep r) as [|piece ps]; [done|].
    change (String sep (join (String sep EmptyString) (piece :: ps)) = String sep r).
    now rewrite IH.
  - destruct (split_on sep r) as [|piece ps]; [done|].
    now rewrite join_head, IH.
Qed.
End StripFacts.

Module ValidatorMore.
Import PyStr PyNum Validator StripFacts.

Lemma mem_In (x : string) (l : list string) : mem x l = true <-> In x l.
Proof.
  unfold mem. rewrite existsb_exists. split.
  - intros (y & Hy & He). apply String.eqb_eq in He. now subst.
  - intros H. exists x. split; [assumption | apply String.eqb_refl].
Qed.

Lemma is_empty_true (s : string) : is_empty s = true <-> s = EmptyString.
Proof. destruct s; split; (reflexivity || discriminate). Qed.

Ltac walk_validate :=
  unfold validate_value;
  repeat match goal with
         | |- context [if ?c then _ else _] => destruct c eqn:?
         | |- context [match ?c with _ => _ end] => destruct c eqn:?
         end.

Lemma blank_cells_aux (max : Z) (value_str : option string) (header_name : string)
    (d : attr_def) (row_number : nat) :
  snd (fst (validate_value max value_str header_name d row_number)) = PNone
  <-> is_blank value_str = true.
Proof. walk_validate; cbn [fst snd]; split; congruence. Qed.

(** X1.  [validate_value] returns an error message exactly when it
    rejects the cell.  The cleaned value is [None] exactly for a blank
    cell (absent, or empty after trimming), and a blank cell is rejected
    exactly when the definition is required, whatever its type. *)
Theorem verdict_message_and_blank (max : Z) (value_str : option string)
    (header_name : string) (d : attr_def) (row_number : nat) :
  let r := validate_value max value_str header_name d row_number in
  (fst (fst r) = true <-> snd r = None)
  /\ (snd (fst r) = PNone <-> is_blank value_str = true)
  /\ (is_blank value_str = true -> fst (fst r) = negb (isRequired d)).
Proof.
  cbv zeta. split; [|split].
  - walk_validate; cbn [fst snd]; split; congruence.
  - apply blank_cells_aux.
  - intros H. unfold validate_value. rewrite H. now destruct (isRequired d).
Qed.

Lemma not_blank_strip (v : option string) :
  is_blank v = false -> strip (default EmptyString v) <> EmptyString.
Proof.
  destruct v as [s|]; [|discriminate]. cbn [is_blank default from_option Datatypes.id].
  intros H E. rewrite E in H. discriminate.
Qed.

Lemma selected_entries_clean (s : string) :
  Forall (fun e => strip e = e /\ e <> EmptyString /\ contains_char ";" e = false)
         (selected_entries s).
Proof.
  unfold selected_entries. apply Forall_forall. intros e He.
  apply list_elem_of_In, in_map_iff in He as (piece & <- & Hp).
  apply list_elem_of_In, list_elem_of_filter in Hp as [Hne Hp]. repeat split.
  - apply strip_idempotent.
  - intros E. rewrite E in Hne. exact Hne.
  - pose proof (split_on_pieces ";" s) as Hall.
    rewrite Forall_forall in Hall. specialize (Hall piece Hp).
    destruct (contains_char ";" (strip piece)) eqn:E; [|reflexivity].
    apply contains_char_strip in E. congruence.
Qed.

Lemma cleaned_values_are_trimmed_aux (max : Z) (value_str : option string)
    (header_name : string) (d : attr_def) (row_number : nat) :
  let r := validate_value max value_str header_name d row_number in
  (forall s, snd (fst r) = PStr s ->
     s = strip (default EmptyString value_str) /\ strip s = s /\ s <> EmptyString)
  /\ (forall l, snd (fst r) = PList l ->
        l = selected_entries (strip (default EmptyString value_str))
        /\ Forall (fun e => strip e = e /\ e <> EmptyString /\ contains_char ";" e = false) l).
Proof.
  cbv zeta. split.
  - intros s.
    assert (Hs : is_blank value_str = false ->
                 s = strip (default EmptyString value_str) ->
                 s = strip (default EmptyString value_str) /\ strip s = s /\ s <> EmptyString).
    { intros Hb ->. repeat split; [apply strip_idempotent | now apply not_blank_strip]. }
    walk_validate; cbn [fst snd]; intros [= <-] || discriminate; now apply Hs.
  - intros l.
    walk_validate; cbn [fst snd]; intros [= <-] || discriminate;
      (split; [reflexivity | apply selected_entries_clean]).
Qed.

(** X2.  A cleaned value that is a string is the trimmed cell: it has
    no surrounding whitespace and is not empty.  A cleaned value that is
    a list holds the entries of the trimmed cell, each of them trimmed,
    not empty and free of the separator [;]. *)
Theorem cleaned_values_are_trimmed (max : Z) (value_str : option string)
    (header_name : string) (d : attr_def) (row_number : nat) :
  let r := validate_value max value_str header_name d row_number in
  (forall s, snd (fst r) = PStr s ->
     s = strip (default EmptyString value_str) /\ strip s = s /\ s <> EmptyString)
  /\ (forall l, snd (fst r) = PList l ->
        l = selected_entries (strip (default EmptyString value_str))
        /\ Forall (fun e => strip e = e /\ e <> EmptyString /\ contains_char ";" e = false) l).
Proof. exact (cleaned_values_are_trimmed_aux max value_str header_name d row_number). Qed.

(** X3.  For a [single_select] definition and a cell that is not
    blank, the cleaned value is the trimmed cell and the cell is
    accepted exactly when the trimmed cell is one of the options (so
    never with an empty option list); the comparison is exact, with no
    folding of case. *)
Theorem single_select_membership (max : Z) (v header_name : string) (d : attr_def)
    (row_number : nat) :
  type d = Some "single_select" ->
  is_blank (Some v) = false ->
  let r := validate_value max (Some v) header_name d row_number in
  snd (fst r) = PStr (strip v)
  /\ (fst (fst r) = true <-> In (strip v) (options d)).
Proof.
  intros Ht Hb. cbv zeta. unfold validate_value. rewrite Hb, Ht.
  cbn [type_is String.eqb Ascii.eqb Bool.eqb orb default from_option Datatypes.id].
  destruct (options d) as [|o os] eqn:Eo.
  - cbn [fst snd]. split; [reflexivity|]. split; [discriminate | intros []].
  - rewrite <- Eo. destruct (mem (strip v) (options d)) eqn:Em; cbn [negb fst snd].
    + split; [reflexivity|]. split; [intros _; now apply mem_In | reflexivity].
    + split; [reflexivity|]. split; [discriminate|].
      intros Hin. apply mem_In in Hin. congruence.
Qed.

Lemma int_of_float_exact (f : spec_float) :
  is_integer f = true -> represents f (int_of_float f) 1.
Proof.
  destruct f as [s|s| |s m e]; try discriminate.
  - intros _. reflexivity.
  - unfold is_integer, represents, float_value, int_of_float.
    destruct (Z.leb_spec 0 e) as [He|He]; cbn [orb].
    + intros _. destruct s; lia.
    + intros Hm. apply Z.eqb_eq in Hm.
      assert (Hp : 0 < 2 ^ (- e)) by (apply Z.pow_pos_nonneg; lia).
      pose proof (Z.div_mod (Zpos m) (2 ^ (- e)) ltac:(lia)) as Hd.
      rewrite Hm in Hd. destruct s; lia.
Qed.

(** X4.  For a [number] definition and a cell that is not blank: the
    cell is accepted exactly when [float] parses the trimmed cell; an
    accepted value that is integral is stored as the integer of the
    same value, any other accepted value (also an infinity or a NaN) as
    the float itself; a rejected cell keeps its trimmed text. *)
Theorem number_values (max : Z) (v header_name : string) (d : attr_def) (row_number : nat) :
  type d = Some "number" ->
  is_blank (Some v) = false ->
  let r := validate_value max (Some v) header_name d row_number in
  match float_of_str (strip v) with
  | None => fst (fst r) = false /\ snd (fst r) = PStr (strip v)
  | Some f =>
      fst (fst r) = true
      /\ (is_integer f = true ->
            exists z, snd (fst r) = PInt z /\ represents f z 1)
      /\ (is_integer f = false -> snd (fst r) = PFloat f)
  end.
Proof.
  intros Ht Hb. cbv zeta. unfold validate_value. rewrite Hb, Ht.
  cbn [type_is String.eqb Ascii.eqb Bool.eqb orb default from_option Datatypes.id].
  destruct (float_of_str (strip v)) as [f|]; cbn [fst snd]; [|now split].
  split; [reflexivity|]. destruct (is_integer f) eqn:Ei; split; try discriminate.
  - intros _. eexists. split; [reflexivity|]. now apply int_of_float_exact.
  - reflexivity.
Qed.

(** *** Concrete instances *)

Import Examples Scenarios.

Lemma verdict_message_and_blank_witness :
  fst (fst (validate_value 50 (Some "  ") "Price" price_def 0)) = false.
Proof.
  exact (proj2 (proj2 (verdict_message_and_blank 50 (Some "  ") "Price" price_def 0)) eq_refl).
Defined.

Lemma cleaned_values_are_trimmed_witness :
  "Gadget" = strip (default EmptyString (Some "  Gadget "))
  /\ strip "Gadget" = "Gadget" /\ "Gadget" <> EmptyString.
Proof.
  exact (proj1 (cleaned_values_are_trimmed 50 (Some "  Gadget ") "Name" name_def 0)
               "Gadget" eq_refl).
Defined.

Lemma single_select_membership_witness :
  snd (fst (validate_value 50 (Some " Red") "Colour" colour_def 0)) = PStr (strip " Red")
  /\ (fst (fst (validate_value 50 (Some " Red") "Colour" colour_def 0)) = true
      <-> In (strip " Red") (options colour_def)).
Proof. exact (single_select_membership 50 " Red" "Colour" colour_def 0 eq_refl eq_refl). Defined.

Lemma number_values_witness :
  fst (fst (validate_value 50 (Some "abc") "Price" price_def 0)) = false
  /\ snd (fst (validate_value 50 (Some "abc") "Price" price_def 0)) = PStr (strip "abc").
Proof. exact (number_values 50 "abc" "Price" price_def 0 eq_refl eq_refl). Defined.

End ValidatorMore.

Module RowFacts.
Import PyStr PyNum Validator Ingest RowDefs StripFacts ValidatorMore.

(** *** Headers and definitions *)

Lemma partition_headers_acc (defs : gmap string attr_def) (headers : list string)
    (known0 : list (string * attr_def)) (ignored0 : list string) :
  let r := fold_left (fun '(known, ignored) header =>
                        match defs !! header with
                        | Some d => ((known ++ [(header, d)])%list, ignored)
                        | None => (known, (ignored ++ [header])%list)
                        end) headers (known0, ignored0) in
  map fst (fst r) = (map fst known0 ++ filter (fun h => is_Some (defs !! h)) headers)%list
  /\ snd r = (ignored0 ++ filter (fun h => defs !! h = None) headers)%list
  /\ (Forall (fun hd => defs !! fst hd = Some (snd hd)) known0 ->
      Forall (fun hd => defs !! fst hd = Some (snd hd)) (fst r)).
Proof.
  cbv zeta. revert known0 ignored0.
  induction headers as [|h hs IH]; intros known0 ignored0.
  - cbn [fold_left fst snd]. rewrite !filter_nil, !app_nil_r. auto.
  - cbn [fold_left]. destruct (defs !! h) as [d|] eqn:Eh.
    + destruct (IH (known0 ++ [(h, d)])%list ignored0) as (H1 & H2 & H3).
      rewrite H1, H2. split; [|split].
      * rewrite filter_cons_True by (rewrite Eh; eauto).
        rewrite map_app. cbn [map fst]. now rewrite <- app_assoc.
      * rewrite filter_cons_False by (rewrite Eh; discriminate). reflexivity.
      * intros Hk. apply H3. apply Forall_app. split; [exact Hk|].
        constructor; [exact Eh | constructor].
    + destruct (IH known0 (ignored0 ++ [h])%list) as (H1 & H2 & H3).
      rewrite H1, H2. split; [|split].
      * rewrite filter_cons_False by (rewrite Eh; intros [? ?]; discriminate). reflexivity.
      * rewrite filter_cons_True by exact Eh. now rewrite <- app_assoc.
      * exact H3.
Qed.

(** X5.  The split of the CSV headers: the recognised headers are the
    headers with a definition, in the order of the file and with their
    repetitions, each paired with the definition stored under it; the
    ignored headers are the others, in order; no header is lost. *)
Theorem partition_headers_spec (defs : gmap string attr_def) (headers : list string) :
  let known := fst (partition_headers defs headers) in
  let ignored := snd (partition_headers defs headers) in
  map fst known = filter (fun h => is_Some (defs !! h)) headers
  /\ ignored = filter (fun h => defs !! h = None) headers
  /\ Forall (fun hd => defs !! fst hd = Some (snd hd)) known
  /\ (length known + length ignored = length headers)%nat.
Proof.
  cbv zeta. unfold partition_headers.
  destruct (partition_headers_acc defs headers [] []) as (H1 & H2 & H3).
  cbn [map app] in H1, H2. repeat split; try assumption.
  - apply H3. constructor.
  - rewrite <- (length_map fst), H1, H2.
    clear. induction headers as [|h hs IH]; [reflexivity|].
    destruct (defs !! h) as [d|] eqn:Eh.
    + rewrite filter_cons_True by (rewrite Eh; eauto).
      rewrite filter_cons_False by (rewrite Eh; discriminate). cbn [length]. lia.
    + rewrite filter_cons_False by (rewrite Eh; intros [? ?]; discriminate).
      rewrite filter_cons_True by exact Eh. cbn [length]. lia.
Qed.

Lemma attributes_map_acc (docs : list attr_def) (m0 : gmap string attr_def) :
  let m := fold_left (fun m d => match name d with
                                 | Some n => <[n := d]> m
                                 | None => m
                                 end) docs m0 in
  (forall n d, m !! n = Some d -> (name d = Some n /\ In d docs) \/ m0 !! n = Some d)
  /\ (forall n, is_Some (m0 !! n) -> is_Some (m !! n))
  /\ (forall d n, In d docs -> name d = Some n -> is_Some (m !! n)).
Proof.
  cbv zeta. revert m0. induction docs as [|x docs IH]; intros m0.
  - cbn [fold_left]. repeat split; auto. intros d n [].
  - cbn [fold_left]. destruct (name x) as [nx|] eqn:Ex.
    + destruct (IH (<[nx := x]> m0)) as (H1 & H2 & H3). repeat split.
      * intros n d Hm. destruct (H1 n d Hm) as [[Hn Hin] | Hm0].
        -- left. split; [assumption | now right].
        -- rewrite lookup_insert in Hm0. case_decide.
           ++ injection Hm0 as <-. subst. left. split; [assumption | now left].
           ++ now right.
      * intros n Hn. apply H2. rewrite lookup_insert. case_decide; [eauto | assumption].
      * intros d n [<- | Hin] Hd.
        -- apply H2. rewrite Ex in Hd. injection Hd as ->.
           rewrite lookup_insert_eq. eauto.
        -- now apply (H3 d).
    + destruct (IH m0) as (H1 & H2 & H3). repeat split.
      * intros n d Hm. destruct (H1 n d Hm) as [[Hn Hin] | Hm0]; [|now right].
        left. split; [assumption | now right].
      * exact H2.
      * intros d n [<- | Hin] Hd; [congruence | now apply (H3 d)].
Qed.

(** X6.  [get_defined_attributes_map]: every entry of the map is a
    fetched definition stored under its own name, every fetched
    definition that has a name has an entry under it, and the map is
    empty exactly when no fetched definition has a name. *)
Theorem attributes_map_keys (docs : list attr_def) :
  let m := get_defined_attributes_map docs in
  (forall n d, m !! n = Some d -> name d = Some n /\ In d docs)
  /\ (forall d n, In d docs -> name d = Some n -> is_Some (m !! n))
  /\ (m = ∅ <-> Forall (fun d => name d = None) docs).
Proof.
  cbv zeta. unfold get_defined_attributes_map.
  destruct (attributes_map_acc docs ∅) as (H1 & _ & H3).
  split; [|split].
  - intros n d Hm. destruct (H1 n d Hm) as [H | H]; [exact H|].
    rewrite lookup_empty in H. discriminate.
  - exact H3.
  - split.
    + intros He. apply Forall_forall. intros d Hd.
      destruct (name d) as [n|] eqn:En; [|reflexivity].
      apply list_elem_of_In in Hd.
      destruct (H3 d n Hd En) as [x Hx]. rewrite He, lookup_empty in Hx. discriminate.
    + intros Hall. apply map_eq. intros n. rewrite lookup_empty.
      destruct (fold_left _ docs ∅ !! n) as [d|] eqn:E; [|reflexivity].
      destruct (H1 n d E) as [[Hn Hin] | H]; [|rewrite lookup_empty in H; discriminate].
      rewrite Forall_forall in Hall. apply list_elem_of_In in Hin.
      rewrite (Hall d Hin) in Hn. discriminate.
Qed.

(** *** Rows *)

Lemma row_message_nonempty k msg : row_message k msg -> msg <> EmptyString.
Proof. intros (c & t & ->). discriminate. Qed.

Lemma validate_value_verdict max v h d i :
  let r := validate_value max v h d i in
  (fst (fst r) = true -> snd r = None)
  /\ (fst (fst r) = false -> exists msg, snd r = Some msg /\ row_message i msg).
Proof.
  cbv zeta. unfold row_message. split.
  - ValidatorMore.walk_validate; cbn [fst snd]; congruence.
  - ValidatorMore.walk_validate; cbn [fst snd]; intros [=];
      (eexists; split; [reflexivity|]); unfold where_;
      rewrite ?StringFacts.append_assoc; do 2 eexists; reflexivity.
Qed.

Section RowLoop.
Variable max : Z.
Variable known : list (string * attr_def).

Lemma cells_acc (row : gmap string string) (i : nat) (l : list (string * attr_def))
    (v0 : bool) (e0 : list string) (d0 : gmap string pyval) :
  (v0 = false -> e0 <> []) -> Forall (row_message i) e0 ->
  let '(v, e, d) := fold_left (cell_step max row i) l (v0, e0, d0) in
  (v = false -> e <> []) /\ Forall (row_message i) e
  /\ dom d = list_to_set (map fst l) ∪ dom d0.
Proof.
  revert v0 e0 d0. induction l as [|[h a] l IH]; intros v0 e0 d0 Hv He.
  - cbn [fold_left map list_to_set]. repeat split; [assumption.. | set_solver].
  - cbn [fold_left]. unfold cell_step at 2.
    pose proof (validate_value_verdict max (row !! h) h a i) as Hverdict.
    destruct (validate_value max (row !! h) h a i) as [[ok val] msg].
    cbn [fst snd] in Hverdict. destruct Hverdict as [Hok Hbad].
    match goal with
    | |- context [fold_left _ l (?v1, ?e1, ?d1)] =>
        specialize (IH v1 e1 d1);
        destruct (fold_left (cell_step max row i) l (v1, e1, d1)) as [[v e] d]
    end.
    destruct IH as (H1 & H2 & H3).
    + destruct ok.
      * rewrite (Hok eq_refl). cbn [falsy]. rewrite andb_true_r. exact Hv.
      * destruct (Hbad eq_refl) as (m & -> & Hm). intros _.
        pose proof (row_message_nonempty _ _ Hm).
        destruct m; [done|]. cbn [falsy is_empty]. now destruct e0.
    + destruct ok.
      * rewrite (Hok eq_refl). exact He.
      * destruct (Hbad eq_refl) as (m & -> & Hm).
        pose proof (row_message_nonempty _ _ Hm).
        destruct m; [done|]. cbn [falsy is_empty default from_option Datatypes.id].
        apply Forall_app. split; [exact He|]. now repeat constructor.
    + repeat split; [assumption.. |].
      rewrite H3, dom_insert_L. cbn [map fst list_to_set]. set_solver.
Qed.

Lemma validate_cells_spec (row : gmap string string) (i : nat) :
  let '(v, e, d) := validate_cells max known row i in
  (v = false -> e <> []) /\ Forall (row_message i) e
  /\ dom d = list_to_set (map fst known).
Proof.
  pose proof (cells_acc row i known true [] ∅) as H.
  unfold validate_cells.
  change (fold_left _ known (true, [], ∅)) with (fold_left (cell_step max row i) known (true, [], ∅)).
  destruct (fold_left (cell_step max row i) known (true, [], ∅)) as [[v e] d].
  destruct H as (H1 & H2 & H3); [discriminate | constructor |].
  repeat split; [assumption.. |]. rewrite H3. set_solver.
Qed.

Lemma check_required_spec (data : gmap string pyval) (i : nat) (l : list (string * attr_def))
    (v0 : bool) (e0 : list string) :
  (v0 = false -> e0 <> []) -> Forall (row_message i) e0 ->
  let '(v, e) := check_required l data i (v0, e0) in
  (v = false -> e <> []) /\ Forall (row_message i) e.
Proof.
  revert v0 e0. induction l as [|[h a] l IH]; intros v0 e0 Hv He.
  - cbn. auto.
  - unfold check_required. cbn [fold_left]. fold (check_required l data i).
    destruct (isRequired a && value_missing (data !! h)).
    + apply IH.
      * intros _. destruct (existsb _ _) eqn:Ex.
        -- intros ->. discriminate.
        -- now destruct e0.
      * destruct (existsb _ _); [exact He|].
        apply Forall_app. split; [exact He|]. repeat constructor.
        exists h, "Value is required but is missing or empty.". reflexivity.
    + now apply IH.
Qed.

Lemma process_row_invariant (row : gmap string string) (i : nat) acc :
  row_invariant known i acc -> row_invariant known (S i) (process_row max known row i acc).
Proof.
  destruct acc as [[total products] errors]. intros (H1 & H2 & H3 & H4).
  assert (H4' : Forall (fun m => exists k, (k < S i)%nat /\ row_message k m) errors).
  { eapply Forall_impl; [exact H4|]. intros m (k & Hk & Hm). exists k. split; [lia|assumption]. }
  unfold process_row.
  pose proof (validate_cells_spec row i) as Hc.
  destruct (validate_cells max known row i) as [[v1 e1] data].
  destruct Hc as (Hc1 & Hc2 & Hc3).
  pose proof (check_required_spec data i known v1 e1 Hc1 Hc2) as Hr.
  destruct (check_required known data i (v1, e1)) as [v e].
  destruct Hr as [Hr1 Hr2].
  destruct v; unfold row_invariant.
  - rewrite length_app. cbn [length]. repeat split; try lia.
    + intros He. apply H2 in He. lia.
    + intros He. apply H2. lia.
    + apply Forall_app. split; [exact H3 | now repeat constructor].
    + exact H4'.
  - specialize (Hr1 eq_refl). repeat split; try lia.
    + intros He. apply app_eq_nil in He as [_ He]. contradiction.
    + exact H3.
    + apply Forall_app. split; [exact H4'|].
      eapply Forall_impl; [exact Hr2|]. intros m Hm. exists i. split; [lia|assumption].
Qed.

Lemma process_rows_invariant (rows : list csv_item) (i : nat) acc acc' :
  row_invariant known i acc ->
  process_rows max known rows i acc = inr acc' ->
  row_invariant known (i + length rows) acc'.
Proof.
  revert i acc. induction rows as [|[cells|text] rows IH]; intros i acc Hinv H.
  - cbn in H. injection H as <-. now rewrite Nat.add_0_r.
  - cbn [process_rows] in H. cbn [length]. rewrite Nat.add_succ_r.
    apply (IH (S i) _ (process_row_invariant cells i acc Hinv) H).
  - discriminate.
Qed.
End RowLoop.

Lemma process_csv_invariant max defs job_id reader s :
  process_csv max defs job_id reader = CsvDone s ->
  exists known,
    headers_for_result s = map fst known
    /\ row_invariant known (total_rows_read s)
         (total_rows_read s, products_for_result s, validation_errors_list s).
Proof.
  unfold process_csv. destruct (fieldnames reader) as [text|[|h hs]]; [discriminate| |].
  - intros [= <-]. exists []. cbn. repeat split; auto.
  - destruct (partition_headers defs (h :: hs)) as [known ignored].
    destruct known as [|kd known].
    + intros [= <-]. exists []. cbn. repeat split; auto.
    + destruct (process_rows _ _ _ _ _) as [text|[[total products] errors]] eqn:E;
        [discriminate|].
      intros [= <-]. exists (kd :: known). split; [reflexivity|].
      cbn [total_rows_read products_for_result validation_errors_list].
      pose proof (IngestFacts.process_rows_total _ _ _ _ _ _ _ _ _ _ E) as Ht.
      apply process_rows_invariant in E.
      * cbn [Nat.add] in *. now subst total.
      * cbn. repeat split; auto.
Qed.

(** X7.  When the parsing block ends without [csv.Error]: there are at
    most as many products as rows read; there is no validation error
    exactly when every row read became a product; and, with a
    recognised header, the status is COMPLETED exactly when there is no
    validation error, no ignored header and at least one row (the
    comparison of the two counts in the decision then always holds). *)
Theorem rows_and_errors (max : Z) (defs : gmap string attr_def) (job_id : string)
    (reader : csv_reader) (s : csv_summary) :
  process_csv max defs job_id reader = CsvDone s ->
  (length (products_for_result s) <= total_rows_read s)%nat
  /\ (validation_errors_list s = [] <-> length (products_for_result s) = total_rows_read s)
  /\ (headers_for_result s <> [] ->
        (final_job_status s = "COMPLETED"
           <-> validation_errors_list s = [] /\ ignored_headers_from_csv s = []
               /\ (0 < total_rows_read s)%nat)).
Proof.
  intros H. destruct (process_csv_invariant _ _ _ _ _ H) as (known & _ & H1 & H2 & _).
  split; [exact H1 | split; [exact H2|]].
  intros Hh. destruct (IngestFacts.process_csv_done _ _ _ _ _ H) as [_ Hd].
  destruct (Hd Hh) as [-> _]. rewrite IngestFacts.decide_status_completed.
  split; [tauto|]. intros (He & Hi & Ht). repeat split; try assumption. now apply H2.
Qed.

(** X8.  Every product of the result has exactly the recognised
    headers as its keys: an ignored column never reaches a product and
    a recognised column is never left out, also when its cell is
    blank. *)
Theorem products_have_the_recognised_headers (max : Z) (defs : gmap string attr_def)
    (job_id : string) (reader : csv_reader) (s : csv_summary) :
  process_csv max defs job_id reader = CsvDone s ->
  Forall (fun product : gmap string pyval =>
            dom product = list_to_set (headers_for_result s)) (products_for_result s).
Proof.
  intros H. destruct (process_csv_invariant _ _ _ _ _ H) as (known & -> & _ & _ & H3 & _).
  exact H3.
Qed.

(** X9.  Every validation error of the result starts with the 1-based
    number of a row that was read and the name of a column. *)
Theorem messages_name_their_row (max : Z) (defs : gmap string attr_def)
    (job_id : string) (reader : csv_reader) (s : csv_summary) :
  process_csv max defs job_id reader = CsvDone s ->
  Forall (fun msg => exists k, (k < total_rows_read s)%nat /\ row_message k msg)
         (validation_errors_list s).
Proof.
  intros H. destruct (process_csv_invariant _ _ _ _ _ H) as (known & _ & _ & _ & _ & H4).
  exact H4.
Qed.

(** *** Concrete instances *)

Import Examples Scenarios.

Lemma mixed_done :
  process_csv 50 (get_defined_attributes_map [name_def; price_def]) "job-1" rd_mixed
    = CsvDone mixed_summary.
Proof. vm_compute. reflexivity. Qed.

Lemma attributes_map_keys_witness :
  name price_def = Some "Price" /\ In price_def [name_def; price_def].
Proof.
  apply (proj1 (attributes_map_keys [name_def; price_def]) "Price" price_def).
  vm_compute. reflexivity.
Defined.

Lemma rows_and_errors_witness :
  (length (products_for_result mixed_summary) <= total_rows_read mixed_summary)%nat
  /\ (validation_errors_list mixed_summary = []
      <-> length (products_for_result mixed_summary) = total_rows_read mixed_summary)
  /\ (headers_for_result mixed_summary <> [] ->
        (final_job_status mixed_summary = "COMPLETED"
           <-> validation_errors_list mixed_summary = []
               /\ ignored_headers_from_csv mixed_summary = []
               /\ (0 < total_rows_read mixed_summary)%nat)).
Proof.
  exact (rows_and_errors 50 (get_defined_attributes_map [name_def; price_def]) "job-1"
           rd_mixed mixed_summary mixed_done).
Defined.

Lemma products_have_the_recognised_headers_witness :
  Forall (fun product : gmap string pyval =>
            dom product = list_to_set (headers_for_result mixed_summary))
         (products_for_result mixed_summary).
Proof.
  exact (products_have_the_recognised_headers 50
           (get_defined_attributes_map [name_def; price_def]) "job-1" rd_mixed mixed_summary
           mixed_done).
Defined.

Lemma messages_name_their_row_witness :
  Forall (fun msg => exists k, (k < total_rows_read mixed_summary)%nat /\ row_message k msg)
         (validation_errors_list mixed_summary).
Proof.
  exact (messages_name_their_row 50 (get_defined_attributes_map [name_def; price_def])
           "job-1" rd_mixed mixed_summary mixed_done).
Defined.

End RowFacts.

Module RequiredFacts.
Import PyStr PyNum Validator Ingest RowDefs StripFacts ValidatorMore RowFacts.

Lemma prefix_append (needle post : string) : String.prefix needle (needle ++ post) = true.
Proof.
  induction needle as [|c n IH]; [now destruct post|].
  change (String c n ++ post) with (String c (n ++ post)).
  cbn [String.prefix]. now destruct (ascii_dec c c).
Qed.

Lemma contains_here (needle post : string) : contains needle (needle ++ post) = true.
Proof. destruct (needle ++ post) eqn:E; cbn [contains]; rewrite <- E, prefix_append; reflexivity. Qed.

Lemma contains_later (needle pre rest : string) :
  contains needle rest = true -> contains needle (pre ++ rest) = true.
Proof.
  intros H. induction pre as [|c pre IH]; [exact H|].
  change (String c pre ++ rest) with (String c (pre ++ rest)).
  cbn [contains]. rewrite IH. apply orb_true_r.
Qed.

Lemma contains_middle (pre needle post : string) :
  contains needle (pre ++ needle ++ post) = true.
Proof. apply contains_later, contains_here. Qed.

Lemma required_message_found (i : nat) (h : string) :
  contains ("Column '" ++ h ++ "'") (required_message i h)
  && contains "Value is required" (required_message i h) = true.
Proof.
  unfold required_message, where_. apply andb_true_intro. split.
  - replace (("Row " ++ str_of_Z (Z.of_nat i + 1) ++ ", Column '" ++ h ++ "': ")
               ++ "Value is required but is empty.")
      with (("Row " ++ str_of_Z (Z.of_nat i + 1) ++ ", ")
              ++ ("Column '" ++ h ++ "'") ++ ": Value is required but is empty.").
    + apply contains_middle.
    + rewrite !StringFacts.append_assoc. reflexivity.
  - replace (("Row " ++ str_of_Z (Z.of_nat i + 1) ++ ", Column '" ++ h ++ "': ")
               ++ "Value is required but is empty.")
      with (("Row " ++ str_of_Z (Z.of_nat i + 1) ++ ", Column '" ++ h ++ "': ")
              ++ "Value is required" ++ " but is empty.") by reflexivity.
    apply contains_middle.
Qed.

Section Required.
Variable max : Z.
Variable defs : gmap string attr_def.
Variable row : gmap string string.
Variable i : nat.

Lemma cells_recorded_fold (l seen : list (string * attr_def)) acc :
  keyed defs (seen ++ l) -> cells_recorded max row i seen acc ->
  cells_recorded max row i (seen ++ l) (fold_left (cell_step max row i) l acc).
Proof.
  revert seen acc. induction l as [|[h d] l IH]; intros seen acc Hk Hinv.
  - rewrite app_nil_r. exact Hinv.
  - cbn [fold_left]. replace (seen ++ (h, d) :: l)%list with ((seen ++ [(h, d)]) ++ l)%list
      by now rewrite <- app_assoc.
    apply IH; [now rewrite <- app_assoc|].
    destruct acc as [[v e] data]. unfold cell_step.
    pose proof (validate_value_verdict max (row !! h) h d i) as [_ Hbad].
    destruct (validate_value max (row !! h) h d i) as [[ok val] msg] eqn:Ev.
    cbn [fst snd] in Hbad. unfold cells_recorded in *.
    apply Forall_app. split.
    + unfold keyed in Hk. rewrite Forall_app in Hk. destruct Hk as [Hks Hkl].
      inversion Hkl as [|? ? [Hd _] _]; subst. cbn [fst snd] in Hd.
      rewrite Forall_forall in Hinv, Hks |- *. intros [h' d'] Hin.
      specialize (Hinv _ Hin). specialize (Hks _ Hin). cbn [fst snd] in *.
      destruct Hinv as [Ha Hb]. destruct Hks as [Hd' _].
      destruct (decide (h = h')) as [<- | Hne].
      * assert (d' = d) as -> by congruence. rewrite Ev. cbn [fst snd].
        rewrite lookup_insert_eq. split; [reflexivity|].
        intros ->. destruct (Hbad eq_refl) as (m & -> & Hm).
        pose proof (row_message_nonempty _ _ Hm). split; [apply andb_false_r|].
        exists m. split; [reflexivity|]. destruct m; [done|].
        cbn [falsy is_empty default from_option Datatypes.id]. apply in_or_app. right. now left.
      * rewrite lookup_insert_ne by exact Hne. split; [exact Ha|].
        intros Hf. destruct (Hb Hf) as (-> & m & Hm & Hin'). split; [reflexivity|].
        exists m. split; [exact Hm|]. destruct (falsy msg); [exact Hin'|].
        apply in_or_app. now left.
    + constructor; [|constructor]. cbn [fst snd]. rewrite Ev. cbn [fst snd].
      rewrite lookup_insert_eq. split; [reflexivity|].
      intros ->. destruct (Hbad eq_refl) as (m & -> & Hm).
      pose proof (row_message_nonempty _ _ Hm). split; [apply andb_false_r|].
      exists m. split; [reflexivity|]. destruct m; [done|].
      cbn [falsy is_empty default from_option Datatypes.id]. apply in_or_app. right. now left.
Qed.

Lemma blank_required_cell (h : string) (d : attr_def) :
  name d = Some h -> isRequired d = true ->
  value_missing (Some (snd (fst (validate_value max (row !! h) h d i)))) = true ->
  validate_value max (row !! h) h d i = (false, PNone, Some (required_message i h)).
Proof.
  intros Hn Hr Hm.
  destruct (cleaned_values_are_trimmed_aux max (row !! h) h d i) as [Hs _].
  destruct (is_blank (row !! h)) eqn:Eb.
  - unfold validate_value. rewrite Eb, Hr, Hn. reflexivity.
  - exfalso. destruct (snd (fst (validate_value max (row !! h) h d i))) as [|s| | |] eqn:Ec;
      cbn [value_missing] in Hm; try discriminate.
    + pose proof (blank_cells_aux max (row !! h) h d i) as Hb. rewrite Ec in Hb.
      rewrite (proj1 Hb eq_refl) in Eb. discriminate.
    + destruct (Hs s eq_refl) as (_ & Hst & Hne). rewrite Hst in Hm. now destruct s.
Qed.

Lemma check_required_fixed (l : list (string * attr_def)) (v : bool) (e : list string)
    (data : gmap string pyval) :
  keyed defs l -> cells_recorded max row i l (v, e, data) ->
  check_required l data i (v, e) = (v, e).
Proof.
  induction l as [|[h d] l IH]; intros Hk Hinv; [reflexivity|].
  unfold check_required. cbn [fold_left]. fold (check_required l data i).
  inversion Hk as [|? ? [_ Hn] Hk']; subst. cbn [fst snd] in Hn.
  unfold cells_recorded in Hinv. inversion Hinv as [|? ? [Ha Hb] Hinv']; subst.
  cbn [fst snd] in Ha, Hb.
  destruct (isRequired d && value_missing (data !! h)) eqn:Ec; [|now apply IH].
  apply andb_prop in Ec as [Hr Hm]. rewrite Ha in Hm.
  pose proof (blank_required_cell h d Hn Hr Hm) as Hv. rewrite Hv in Hb. cbn [fst snd] in Hb.
  destruct (Hb eq_refl) as (-> & m & [= <-] & Hin).
  assert (existsb (fun specific_err =>
                     contains ("Column '" ++ h ++ "'") specific_err
                     && contains "Value is required" specific_err)
                  (filter (fun x => negb (is_empty x)) e) = true) as ->.
  { apply existsb_exists. exists (required_message i h). split.
    - apply list_elem_of_In, list_elem_of_filter. split.
      + unfold required_message, where_. reflexivity.
      + now apply list_elem_of_In.
    - apply required_message_found. }
  now apply IH.
Qed.
End Required.

Lemma known_headers_keyed (docs : list attr_def) (headers : list string) :
  keyed (get_defined_attributes_map docs)
        (fst (partition_headers (get_defined_attributes_map docs) headers)).
Proof.
  unfold keyed, partition_headers.
  destruct (partition_headers_acc (get_defined_attributes_map docs) headers [] [])
    as (_ & _ & H).
  specialize (H (List.Forall_nil _)).
  eapply Forall_impl; [exact H|]. intros [h d] Hd. cbn [fst snd] in *.
  split; [exact Hd|].
  destruct (attributes_map_acc docs ∅) as (H1 & _).
  destruct (H1 h d Hd) as [[Hn _] | He]; [exact Hn|].
  rewrite lookup_empty in He. discriminate.
Qed.

Lemma cells_count max row i (l : list (string * attr_def)) acc :
  (length (snd (fst (fold_left (cell_step max row i) l acc)))
   <= length (snd (fst acc)) + length l)%nat.
Proof.
  revert acc. induction l as [|[h d] l IH]; intros [[v e] data]; cbn [fold_left length].
  - cbn [fst snd]. lia.
  - etransitivity; [apply IH|]. unfold cell_step.
    destruct (validate_value max (row !! h) h d i) as [[ok val] msg].
    cbn [fst snd]. destruct (falsy msg); rewrite ?length_app; cbn [length]; lia.
Qed.

(** X10.  For the recognised headers of a file and the definitions of
    the attribute map: the second loop over the headers of a row, the
    check for missing required values, changes neither the validity of
    the row nor its messages, because [validate_value] has already
    rejected every blank required cell with a message that the check
    recognises.  A row so yields at most one message per recognised
    header. *)
Theorem required_check_adds_nothing (max : Z) (docs : list attr_def) (headers : list string)
    (row : gmap string string) (i : nat) :
  let known := fst (partition_headers (get_defined_attributes_map docs) headers) in
  let cells := validate_cells max known row i in
  check_required known (snd cells) i (fst cells) = fst cells
  /\ (length (snd (fst cells)) <= length known)%nat.
Proof.
  cbv zeta. set (known := fst (partition_headers _ headers)).
  unfold validate_cells.
  change (fold_left _ known (true, [], ∅))
    with (fold_left (cell_step max row i) known (true, [], ∅)).
  split.
  - pose proof (cells_recorded_fold max (get_defined_attributes_map docs) row i known []
                  (true, [], ∅) (known_headers_keyed docs headers) (List.Forall_nil _)) as Hinv.
    cbn [app] in Hinv.
    destruct (fold_left (cell_step max row i) known (true, [], ∅)) as [[v e] data].
    cbn [fst snd]. apply (check_required_fixed max (get_defined_attributes_map docs) row i);
      [apply known_headers_keyed | exact Hinv].
  - apply (cells_count max row i known (true, [], ∅)).
Qed.
End RequiredFacts.

Module TrackerFacts.
Import PyStr PyNum Validator Ingest RowDefs IngestFacts.

Ltac solve_frame :=
  unfold job_field; reduce_world; normalise_lookups;
  rewrite ?decide_False by assumption;
  rewrite ?decide_True by reflexivity;
  try reflexivity.

(** X11.  A delivery reads and writes the document of its own job
    only: the document of every other job is the same before and
    after, whatever the outside world answers. *)
Theorem delivery_touches_one_job (cfg : config) (e : env) (p : payload) (w : world)
    (id : string) :
  id <> job_of p ->
  jobs (snd (process_record cfg e (Body p) w)) !! id = jobs w !! id.
Proof.
  intros Hne. assert (Hne' : default EmptyString (jobId p) <> id) by (unfold job_of in Hne; congruence).
  walk_delivery e p ltac:(solve_frame).
Qed.

Lemma dom_update_one (id : string) (set : gmap string fval)
    (j : gmap string (gmap string fval)) :
  dom (update_one id set j) = dom j.
Proof.
  unfold update_one. destruct (j !! id) as [doc|] eqn:E; [|reflexivity].
  rewrite dom_insert_L. apply elem_of_dom_2 in E. set_solver.
Qed.

Ltac solve_kept f H :=
  unfold job_field in *; reduce_world; normalise_lookups;
  repeat case_decide; subst;
  try exact H;
  match goal with
  | |- context [jobs ?w !! ?id] => destruct (jobs w !! id); [|now destruct H]
  end;
  cbn [fmap option_fmap option_map mbind option_bind default from_option Datatypes.id] in *;
  rewrite ?lookup_union;
  repeat match goal with
         | |- context [?m !! f] => destruct (m !! f) eqn:?
         end;
  cbn; eauto; now destruct H.

(** X12.  A delivery never deletes: a field that a job document has
    before the delivery it has afterwards (possibly with a new value),
    and a key of the results bucket that holds an artifact still holds
    one. *)
Theorem delivery_never_deletes (cfg : config) (e : env) (body : sqs_body) (w : world) :
  let w' := snd (process_record cfg e body w) in
  (forall id f, is_Some (job_field w id f) -> is_Some (job_field w' id f))
  /\ (forall key, is_Some (results w !! key) -> is_Some (results w' !! key)).
Proof.
  cbv zeta. split.
  - intros id f H. destruct body as [|text|p]; [exact H | exact H |].
    walk_delivery e p ltac:(solve_kept f H).
  - intros key H.
    destruct (results_effect cfg e body) as [Hsame | (p & a & -> & Hput)].
    + now rewrite Hsame.
    + destruct (Hput w) as (a' & _ & ->). rewrite lookup_insert. case_decide; eauto.
Qed.

(** X13.  A message that lacks the job identifier, the bucket or the
    key is dropped without an exception once the store is reachable: no
    job document is created, the results bucket is untouched, and
    nothing at all is written when the job identifier is the missing
    part; with a job identifier, a document that already exists is
    marked FAILED. *)
Theorem malformed_message_is_dropped (cfg : config) (e : env) (p : payload) (w : world) :
  db_connects e = None ->
  falsy (jobId p) = true \/ falsy (s3Bucket p) = true \/ falsy (s3Key p) = true ->
  let r := process_record cfg e (Body p) w in
  fst r = Next
  /\ dom (jobs (snd r)) = dom (jobs w)
  /\ results (snd r) = results w
  /\ (falsy (jobId p) = true -> jobs (snd r) = jobs w)
  /\ (falsy (jobId p) = false -> status_update_ok e = true ->
        is_Some (jobs w !! job_of p) ->
        job_status (snd r) (job_of p) = Some (VStr "FAILED")).
Proof.
  intros Hdb Hbad. cbv zeta. unfold process_record. cbn [now]. rewrite Hdb.
  assert (falsy (jobId p) || falsy (s3Bucket p) || falsy (s3Key p) = true) as ->.
  { destruct Hbad as [-> | [-> | ->]]; rewrite ?orb_true_r; reflexivity. }
  cbn [fst snd]. destruct (falsy (jobId p)) eqn:Ej.
  - repeat split; discriminate.
  - unfold fail_job. rewrite jobs_update_job_status, results_update_job_status.
    repeat split.
    + destruct (status_update_ok e); [apply dom_update_one | reflexivity].
    + discriminate.
    + intros _ Hupd Hex. rewrite Hupd. now apply job_status_update_job_status.
Qed.

(** X14.  When the document store cannot be reached the exception of
    the connection leaves the handler and neither store is changed;
    when the store is reached but refuses the initial status, the
    record is skipped without an exception and again neither store is
    changed. *)
Theorem nothing_recorded_without_the_store (cfg : config) (e : env) (p : payload) (w : world) :
  let r := process_record cfg e (Body p) w in
  (forall text, db_connects e = Some text ->
     fst r = Raised text /\ jobs (snd r) = jobs w /\ results (snd r) = results w)
  /\ (db_connects e = None ->
      falsy (jobId p) = false -> falsy (s3Bucket p) = false -> falsy (s3Key p) = false ->
      log_initial_ok e = false ->
      fst r = Next /\ jobs (snd r) = jobs w /\ results (snd r) = results w).
Proof.
  cbv zeta. unfold process_record. cbn [now]. split.
  - intros text ->. now repeat split.
  - intros -> -> -> -> Hlog. cbn [orb].
    unfold log_initial_job_status. rewrite Hlog. now repeat split.
Qed.

(** X15.  When the results bucket refuses the artifact of a delivery
    that parsed its file, the exception of the write leaves the
    handler, the results bucket is unchanged, and the job document ends
    FAILED with the error details of the outer handler, which replace
    the details that name the failed write. *)
Theorem artifact_write_failure (cfg : config) (e : env) (p : payload) (w : world)
    (reader : csv_reader) (s : csv_summary) (text : string) :
  ready cfg e p ->
  s3_get e = GetOk reader ->
  process_csv (SHORT_TEXT_MAX_LENGTH cfg) (get_defined_attributes_map (attribute_docs e))
              (job_of p) reader = CsvDone s ->
  s3_put e = Some text ->
  let r := process_record cfg e (Body p) w in
  fst r = Raised text
  /\ results (snd r) = results w
  /\ (status_update_ok e = true ->
        job_status (snd r) (job_of p) = Some (VStr "FAILED")
        /\ job_field (snd r) (job_of p) "errorDetails"
             = Some (VDict [("error", Some "Unhandled exception during processing.");
                            ("exception", Some text)])).
Proof.
  intros Hready Hget Hcsv Hput. cbv zeta.
  rewrite (process_record_ready _ _ _ _ Hready).
  rewrite (process_logged_ready _ _ _ _ _ _ _ Hready), Hget, Hcsv, Hput.
  unfold unhandled. cbn [fst snd]. rewrite !results_update_job_status.
  split; [reflexivity | split; [reflexivity|]].
  intros ->.
  assert (Hex : is_Some (jobs (update_job_status true (job_of p) "FAILED" None
                    (Some [("error", Some "Failed to save results to S3.");
                           ("s3Error", Some text)]) (snd (now (logged p w)))) !! job_of p)).
  { apply exists_update_job_status. apply logged_exists. }
  split.
  - now apply job_status_update_job_status.
  - now apply error_details_update_job_status.
Qed.

Lemma result_key_nonempty (cfg : config) (id : string) :
  is_empty (result_s3_key_path cfg id) = false.
Proof.
  unfold result_s3_key_path.
  destruct (rstrip_char "/" (PROCESSED_RESULTS_PREFIX cfg)); reflexivity.
Qed.

(** After a successful delivery the job record names the artifact. *)
Lemma delivery_result_key (cfg : config) (e : env) (p : payload) (w : world)
    (reader : csv_reader) (s : csv_summary) :
  ready cfg e p ->
  s3_get e = GetOk reader ->
  process_csv (SHORT_TEXT_MAX_LENGTH cfg) (get_defined_attributes_map (attribute_docs e))
              (job_of p) reader = CsvDone s ->
  s3_put e = None -> status_update_ok e = true ->
  job_field (snd (process_record cfg e (Body p) w)) (job_of p) "resultS3Key"
    = Some (VStr (result_s3_key_path cfg (job_of p))).
Proof.
  intros Hready Hget Hcsv Hput Hupd.
  rewrite (process_record_ready _ _ _ _ Hready).
  rewrite (process_logged_ready _ _ _ _ _ _ _ Hready), Hget, Hcsv, Hput, Hupd.
  cbn [snd]. unfold job_field.
  rewrite jobs_update_job_status, lookup_update_one, decide_True by reflexivity.
  destruct (logged_exists p w) as [doc Hdoc].
  cbn [with_results now snd jobs]. rewrite Hdoc.
  cbn [fmap option_fmap option_map mbind option_bind].
  rewrite lookup_union. unfold update_fields. cbn [falsy].
  rewrite result_key_nonempty.
  rewrite lookup_insert_eq. now destruct (doc !! "resultS3Key").
Qed.

(** X16.  A delivery that parses its file and stores the artifact
    writes, under the key [{prefix}/{jobId}-result.json], an artifact
    that holds the identifier, the key and the file name of the job and
    the message, headers, products, ignored headers and validation
    errors of the parsing block; no other key of the results bucket
    changes, and once the status update is stored the job document
    names that key. *)
Theorem stored_artifact (cfg : config) (e : env) (p : payload) (w : world)
    (reader : csv_reader) (s : csv_summary) :
  ready cfg e p ->
  s3_get e = GetOk reader ->
  process_csv (SHORT_TEXT_MAX_LENGTH cfg) (get_defined_attributes_map (attribute_docs e))
              (job_of p) reader = CsvDone s ->
  s3_put e = None ->
  let w' := snd (process_record cfg e (Body p) w) in
  let key := result_s3_key_path cfg (job_of p) in
  (exists a, results w' !! key = Some a
     /\ r_jobId a = job_of p
     /\ r_s3Key a = default EmptyString (s3Key p)
     /\ r_fileName a = file_name_of p
     /\ r_message a = processing_outcome_message s
     /\ r_headers a = headers_for_result s
     /\ r_products a = products_for_result s
     /\ r_originalHeaders a = actual_headers_from_csv s
     /\ r_ignoredHeaders a = ignored_headers_from_csv s
     /\ r_validationErrors a = validation_errors_list s)
  /\ (forall key', key' <> key -> results w' !! key' = results w !! key')
  /\ (status_update_ok e = true ->
        job_field w' (job_of p) "resultS3Key" = Some (VStr key)).
Proof.
  intros Hready Hget Hcsv Hput. cbv zeta.
  split; [|split]; [| |intros Hupd; now apply (delivery_result_key cfg e p w reader s)].
  - rewrite (process_record_ready _ _ _ _ Hready).
    rewrite (process_logged_ready _ _ _ _ _ _ _ Hready), Hget, Hcsv, Hput.
    cbn [snd]. rewrite results_update_job_status. cbn [with_results results].
    eexists. rewrite lookup_insert_eq. split; [reflexivity|]. now repeat split.
  - rewrite (process_record_ready _ _ _ _ Hready).
    rewrite (process_logged_ready _ _ _ _ _ _ _ Hready), Hget, Hcsv, Hput.
    cbn [snd]. rewrite results_update_job_status. cbn [with_results results].
    intros key' Hk. now rewrite lookup_insert_ne.
Qed.

(** X17.  A batch is processed record by record: handling two batches
    one after the other is handling their concatenation, except that an
    exception in the first ends the run, so the records after the one
    that raised are not processed. *)
Theorem batches_compose (cfg : config) (first rest : list (env * sqs_body)) (w : world) :
  lambda_handler cfg (first ++ rest) w
    = match lambda_handler cfg first w with
      | (Returned, w') => lambda_handler cfg rest w'
      | (Propagated text, w') => (Propagated text, w')
      end.
Proof.
  revert w. induction first as [|[e body] first IH]; intros w; [reflexivity|].
  cbn [app lambda_handler].
  destruct (process_record cfg e body w) as [[|text] w']; [apply IH | reflexivity].
Qed.

Lemma append_cancel_r (a b suffix : string) : a ++ suffix = b ++ suffix -> a = b.
Proof.
  assert (Hlen : forall x y, String.length (x ++ y) = (String.length x + String.length y)%nat).
  { induction x as [|c x IHx]; intros y; [reflexivity|].
    change (S (String.length (x ++ y)) = S (String.length x + String.length y)).
    now rewrite IHx. }
  revert b. induction a as [|c a IH]; intros b H.
  - destruct b as [|c' b]; [reflexivity|].
    apply (f_equal String.length) in H. rewrite !Hlen in H.
    cbn [String.length] in H. lia.
  - destruct b as [|c' b].
    + apply (f_equal String.length) in H. rewrite !Hlen in H.
      cbn [String.length] in H. lia.
    + change (String c (a ++ suffix) = String c' (b ++ suffix)) in H.
      injection H as -> H. now rewrite (IH b H).
Qed.

(** X18.  Two jobs never share the key of their artifact: the key
    determines the job identifier. *)
Theorem result_key_per_job (cfg : config) (a b : string) :
  result_s3_key_path cfg a = result_s3_key_path cfg b -> a = b.
Proof.
  unfold result_s3_key_path. intros H.
  apply (inj (String.app _)) in H. apply (inj (String.app _)) in H.
  now apply append_cancel_r in H.
Qed.

(** *** The record of a delivery that logged its start *)

Lemma update_fields_other st k d t f :
  status_field f = false -> update_fields st k d t !! f = None.
Proof.
  unfold status_field, update_fields. intros H.
  repeat (apply orb_false_elim in H as [H ?]).
  repeat match goal with
         | H : String.eqb _ _ = false |- _ => apply String.eqb_neq in H
         end.
  destruct (falsy k), d as [[|x d]|];
    rewrite ?lookup_insert, ?lookup_singleton; repeat case_decide; congruence.
Qed.

Lemma update_job_status_keeps ok id st k d w doc :
  jobs w !! id = Some doc ->
  exists doc', jobs (update_job_status ok id st k d w) !! id = Some doc'
    /\ forall f, status_field f = false -> doc' !! f = doc !! f.
Proof.
  intros H. rewrite jobs_update_job_status. destruct ok; [|eauto].
  rewrite lookup_update_one, decide_True, H by reflexivity.
  eexists. split; [reflexivity|]. intros f Hf.
  now rewrite lookup_union, update_fields_other, (left_id None _).
Qed.

Lemma update_job_status_keeps2 ok id st k d st' k' d' w doc :
  jobs w !! id = Some doc ->
  exists doc', jobs (update_job_status ok id st' k' d' (update_job_status ok id st k d w)) !! id
                 = Some doc'
    /\ forall f, status_field f = false -> doc' !! f = doc !! f.
Proof.
  intros H.
  destruct (update_job_status_keeps ok id st k d w doc H) as (doc1 & H1 & K1).
  destruct (update_job_status_keeps ok id st' k' d' _ doc1 H1) as (doc2 & H2 & K2).
  exists doc2. split; [exact H2|]. intros f Hf. now rewrite K2, K1.
Qed.

Lemma process_logged_keeps cfg e id key name w doc :
  jobs w !! id = Some doc ->
  exists doc', jobs (snd (process_logged cfg e id key name w)) !! id = Some doc'
    /\ forall f, status_field f = false -> doc' !! f = doc !! f.
Proof.
  intros H. unfold process_logged, fail_job, unhandled.
  destruct (falsy (PROCESSED_RESULTS_BUCKET cfg)); [now apply update_job_status_keeps|].
  destruct (bool_decide _); [now apply update_job_status_keeps|].
  destruct (s3_get e) as [reader|code text|text]; cbn [snd].
  - destruct (process_csv _ _ _ _) as [msg|s]; cbn [snd];
      [now apply update_job_status_keeps|].
    cbn [now]. destruct (s3_put e); cbn [snd].
    + now apply update_job_status_keeps2.
    + now apply update_job_status_keeps.
  - now apply update_job_status_keeps2.
  - now apply update_job_status_keeps.
Qed.

Lemma process_record_logged cfg e p w :
  falsy (jobId p) = false -> falsy (s3Bucket p) = false -> falsy (s3Key p) = false ->
  db_connects e = None -> log_initial_ok e = true ->
  process_record cfg e (Body p) w
    = process_logged cfg e (job_of p) (default EmptyString (s3Key p)) (file_name_of p)
                     (logged p w).
Proof.
  intros Hj Hb Hk Hdb Hlog.
  unfold process_record, logged, file_name_of. cbn [now]. rewrite Hdb, Hj, Hb, Hk. cbn [orb].
  unfold log_initial_job_status. rewrite Hlog. reflexivity.
Qed.

(** After a delivery that logged its start, the fields of the record
    that no status update writes are those of the initial upsert. *)
Lemma delivery_record (cfg : config) (e : env) (p : payload) (w : world) :
  falsy (jobId p) = false -> falsy (s3Bucket p) = false -> falsy (s3Key p) = false ->
  db_connects e = None -> log_initial_ok e = true ->
  exists doc,
    jobs (snd (process_record cfg e (Body p) w)) !! job_of p = Some doc
    /\ forall f, status_field f = false ->
         doc !! f
         = (job_document_fields (default EmptyString (s3Bucket p))
              (default EmptyString (s3Key p)) (file_name_of p) (S (clock w))
            ∪ default {[ "_id" := VStr (job_of p); "submittedAt" := submitted_of p (clock w) ]}
                      (jobs w !! job_of p)) !! f.
Proof.
  intros Fj Fb Fk Hdb Hlog.
  rewrite (process_record_logged cfg e p w Fj Fb Fk Hdb Hlog).
  eapply process_logged_keeps. unfold logged. cbn [jobs].
  now rewrite lookup_update_one_upsert, decide_True by reflexivity.
Qed.

(** X19.  After a delivery that logged its start, whatever happens
    afterwards, the job document holds the bucket, the key and the file
    name of the message (the base name of the key when the message has
    no file name); for a new job it holds the identifier and the
    submission time of the message (or the clock, when the message has
    none), and for a known job the identifier and submission time that
    were stored before. *)
Theorem logged_delivery_keeps_identity (cfg : config) (e : env) (p : payload) (w : world)
    (id bucket key : string) :
  jobId p = Some id -> id <> EmptyString ->
  s3Bucket p = Some bucket -> bucket <> EmptyString ->
  s3Key p = Some key -> key <> EmptyString ->
  db_connects e = None -> log_initial_ok e = true ->
  exists doc,
    jobs (snd (process_record cfg e (Body p) w)) !! id = Some doc
    /\ doc !! "s3Bucket" = Some (VStr bucket)
    /\ doc !! "s3Key" = Some (VStr key)
    /\ doc !! "originalFileName" = Some (VStr (default (basename key) (originalFileName p)))
    /\ (jobs w !! id = None ->
          doc !! "_id" = Some (VStr id)
          /\ doc !! "submittedAt" = Some (submitted_of p (clock w)))
    /\ (forall old, jobs w !! id = Some old ->
          doc !! "_id" = old !! "_id" /\ doc !! "submittedAt" = old !! "submittedAt").
Proof.
  intros Hj Hjn Hb Hbn Hk Hkn Hdb Hlog.
  assert (Fj : falsy (jobId p) = false) by (rewrite Hj; now destruct id).
  assert (Fb : falsy (s3Bucket p) = false) by (rewrite Hb; now destruct bucket).
  assert (Fk : falsy (s3Key p) = false) by (rewrite Hk; now destruct key).
  destruct (delivery_record cfg e p w Fj Fb Fk Hdb Hlog) as (doc & Hdoc & Hkeep).
  assert (Hid : job_of p = id) by (unfold job_of; now rewrite Hj).
  unfold file_name_of in Hkeep. rewrite Hid, Fk, Hb, Hk in *.
  cbn [default from_option Datatypes.id] in Hkeep.
  exists doc. split; [exact Hdoc|].
  rewrite !Hkeep by reflexivity. rewrite !lookup_union.
  split; [|split; [|split; [|split]]].
  - replace (job_document_fields _ _ _ _ !! "s3Bucket") with (Some (VStr bucket))
      by reflexivity.
    now destruct (_ !! "s3Bucket").
  - replace (job_document_fields _ _ _ _ !! "s3Key") with (Some (VStr key)) by reflexivity.
    now destruct (_ !! "s3Key").
  - replace (job_document_fields bucket key (default (basename key) (originalFileName p))
               (S (clock w)) !! "originalFileName")
      with (Some (VStr (default (basename key) (originalFileName p)))) by reflexivity.
    now destruct (_ !! "originalFileName").
  - intros ->. cbn [default from_option Datatypes.id].
    replace (job_document_fields _ _ _ _ !! "_id") with (@None fval) by reflexivity.
    replace (job_document_fields _ _ _ _ !! "submittedAt") with (@None fval) by reflexivity.
    rewrite !(left_id None _). split; reflexivity.
  - intros old ->. cbn [default from_option Datatypes.id].
    replace (job_document_fields _ _ _ _ !! "_id") with (@None fval) by reflexivity.
    replace (job_document_fields _ _ _ _ !! "submittedAt") with (@None fval) by reflexivity.
    now rewrite !(left_id None _).
Qed.

(** *** Concrete instances *)

Import Examples Scenarios.

Lemma ready_put_fails : ready cfg0 env_put_fails msg0.
Proof. repeat split. vm_compute. discriminate. Qed.

Lemma delivery_touches_one_job_witness :
  jobs (snd (process_record cfg0 (env_of (GetOk rd_gadget)) (Body msg0) w_done)) !! "job-2"
    = jobs w_done !! "job-2".
Proof.
  apply (delivery_touches_one_job cfg0 (env_of (GetOk rd_gadget)) msg0 w_done "job-2").
  vm_compute. discriminate.
Defined.

Lemma delivery_never_deletes_witness :
  is_Some (job_field (snd (process_record cfg0 (env_of (GetClientError "NoSuchKey" "not found"))
                             (Body msg0) w_done))
                     "job-1" "resultS3Key").
Proof.
  apply (proj1 (delivery_never_deletes cfg0 (env_of (GetClientError "NoSuchKey" "not found"))
                  (Body msg0) w_done)).
  vm_compute. eexists. reflexivity.
Defined.

Lemma malformed_message_is_dropped_witness :
  fst (process_record cfg0 (env_of (GetOk rd_gadget)) (Body msg_no_key) w_done) = Next
  /\ job_status (snd (process_record cfg0 (env_of (GetOk rd_gadget)) (Body msg_no_key) w_done))
                "job-1" = Some (VStr "FAILED").
Proof.
  destruct (malformed_message_is_dropped cfg0 (env_of (GetOk rd_gadget)) msg_no_key w_done
              eq_refl (or_intror (or_intror eq_refl))) as (H1 & _ & _ & _ & H5).
  split; [exact H1|]. apply (H5 eq_refl eq_refl). vm_compute. eexists. reflexivity.
Defined.

Lemma nothing_recorded_without_the_store_witness :
  fst (process_record cfg0 env_down (Body msg0) w0) = Raised "connection refused"
  /\ jobs (snd (process_record cfg0 env_down (Body msg0) w0)) = jobs w0
  /\ results (snd (process_record cfg0 env_down (Body msg0) w0)) = results w0.
Proof.
  exact (proj1 (nothing_recorded_without_the_store cfg0 env_down msg0 w0)
               "connection refused" eq_refl).
Defined.

Lemma artifact_write_failure_witness :
  fst (process_record cfg0 env_put_fails (Body msg0) w0) = Raised "AccessDenied"
  /\ job_status (snd (process_record cfg0 env_put_fails (Body msg0) w0)) "job-1"
       = Some (VStr "FAILED").
Proof.
  destruct (artifact_write_failure cfg0 env_put_fails msg0 w0 rd_gadget gadget_summary
              "AccessDenied" ready_put_fails eq_refl gadget_done eq_refl) as (H1 & _ & H3).
  split; [exact H1 | exact (proj1 (H3 eq_refl))].
Defined.

Lemma stored_artifact_witness :
  job_field (snd (process_record cfg0 (env_of (GetOk rd_gadget)) (Body msg0) w0))
            "job-1" "resultS3Key"
    = Some (VStr "processed-files/job-1-result.json").
Proof.
  exact (proj2 (proj2 (stored_artifact cfg0 (env_of (GetOk rd_gadget)) msg0 w0 rd_gadget
                         gadget_summary (ready_example _) eq_refl gadget_done eq_refl))
               eq_refl).
Defined.

Lemma result_key_per_job_witness : "job-1" = "job-1".
Proof. exact (result_key_per_job cfg0 "job-1" "job-1" eq_refl). Defined.

Lemma logged_delivery_keeps_identity_witness :
  exists doc,
    jobs (snd (process_record cfg0 (env_of (GetOtherError "timeout")) (Body msg0) w0))
      !! "job-1" = Some doc
    /\ doc !! "s3Bucket" = Some (VStr "portal-uploads")
    /\ doc !! "s3Key" = Some (VStr "uploads/a.csv")
    /\ doc !! "originalFileName" = Some (VStr "a.csv").
Proof.
  assert (Hne : forall c s, String c s <> EmptyString) by discriminate.
  destruct (logged_delivery_keeps_identity cfg0 (env_of (GetOtherError "timeout")) msg0 w0
              "job-1" "portal-uploads" "uploads/a.csv"
              eq_refl (Hne _ _) eq_refl (Hne _ _) eq_refl (Hne _ _) eq_refl eq_refl)
    as (doc & H1 & H2 & H3 & H4 & _).
  exists doc. exact (conj H1 (conj H2 (conj H3 H4))).
Defined.

End TrackerFacts.

Module PollFacts.
Import PyStr Ingest IngestFacts Poll.

Lemma with_download_url_other_fields cfg e doc doc' f :
  with_download_url cfg e doc = inr doc' ->
  f <> "resultDownloadUrl" -> doc' !! f = doc !! f.
Proof.
  unfold with_download_url. intros H Hf.
  repeat match type of H with
         | context [match ?c with _ => _ end] => destruct c
         | context [if ?c then _ else _] => destruct c
         end; try discriminate; injection H as <-; try reflexivity.
  now rewrite lookup_insert_ne.
Qed.

(** X20.  A poll that answers 200 returns the stored job document,
    changed in at most the field [resultDownloadUrl]; that field is
    written only for a job whose status is COMPLETED or
    COMPLETED_WITH_ISSUES, when the results bucket is configured, and
    its value is then the pre-signed URL of the stored result key in
    that bucket. *)
Theorem download_url_only_when_completed (cfg : config) (e : env) (job_id : string)
    (jobs : gmap string (gmap string fval)) (doc : gmap string fval) :
  let r := lambda_handler cfg e (Path (Some job_id)) jobs in
  statusCode r = 200 ->
  document r = Some doc ->
  exists stored,
    jobs !! job_id = Some stored
    /\ (forall f, f <> "resultDownloadUrl" -> doc !! f = stored !! f)
    /\ (doc !! "resultDownloadUrl" <> stored !! "resultDownloadUrl" ->
        completed e (stored !! "status") = true
        /\ exists bucket key url,
             PROCESSED_RESULTS_BUCKET cfg = Some bucket
             /\ stored !! "resultS3Key" ≫= text_of e = Some key
             /\ generate_presigned_url e bucket key (URL_EXPIRATION_SECONDS_GET_RESULT cfg)
                  = Some url
             /\ doc !! "resultDownloadUrl" = Some (VStr url)).
Proof.
  cbv zeta. unfold lambda_handler.
  destruct (db_connects e); [discriminate|].
  destruct (falsy (Some job_id)); [discriminate|].
  destruct (find_one_fails e) as [[d|t]|]; [discriminate | discriminate |].
  cbn [default from_option Datatypes.id].
  destruct (jobs !! job_id) as [stored|]; [|discriminate].
  destruct (bool_decide (stored = ∅)); [discriminate|].
  destruct (with_download_url cfg e stored) as [text|doc'] eqn:Ew; [discriminate|].
  intros _ [= <-]. exists stored. split; [reflexivity|]. split.
  - intros f Hf. now apply (with_download_url_other_fields cfg e stored doc').
  - unfold with_download_url in Ew. intros Hd.
    destruct (completed e (stored !! "status")) eqn:Ec; [|injection Ew as <-; done].
    destruct (stored !! "resultS3Key") as [key|] eqn:Ek; [|injection Ew as <-; done].
    cbn [from_option default Datatypes.id andb] in Ew.
    destruct (truthy e key) eqn:Et; [|injection Ew as <-; done].
    split; [reflexivity|].
    destruct (PROCESSED_RESULTS_BUCKET cfg) as [bucket|] eqn:Eb;
      [|injection Ew as <-; done].
    destruct (falsy (Some bucket)) eqn:Ef; [injection Ew as <-; done|].
    unfold generate_presigned_get_url in Ew. rewrite Ef, Et in Ew. cbn [orb negb] in Ew.
    assert (Hk : exists k, text_of e key = Some k
                   /\ (match generate_presigned_url e bucket k
                               (URL_EXPIRATION_SECONDS_GET_RESULT cfg) with
                       | Some url => if is_empty url then inr stored
                                     else inr (<["resultDownloadUrl" := VStr url]> stored)
                       | None => inr stored
                       end = (inr doc' : string + gmap string fval))).
    { destruct key as [k|t|d]; [exists k | exists (isoformat e t) | discriminate];
        (split; [reflexivity|]);
        cbn [text_of default from_option Datatypes.id] in Ew;
        destruct (generate_presigned_url e bucket _ _) as [url|]; exact Ew. }
    destruct Hk as (k & Hk & Hu).
    destruct (generate_presigned_url e bucket k _) as [url|] eqn:Eu;
      [|injection Hu as <-; done].
    destruct (is_empty url); injection Hu as <-; [done|].
    exists bucket, k, url. cbn [mbind option_bind].
    repeat split; try reflexivity; try assumption.
    apply lookup_insert_eq.
Qed.

(** X21.  The consumer and the poll fit together: after a delivery
    that parsed its file, stored the artifact and recorded the status,
    a poll for the job, configured with the same results bucket,
    answers 200 with the decided status, the key of the artifact and
    the pre-signed URL of that key. *)
Theorem poll_after_delivery (icfg : Ingest.config) (ie : Ingest.env) (p : payload)
    (w : world) (reader : csv_reader) (s : csv_summary)
    (cfg : config) (e : env) (url : string) :
  ready icfg ie p ->
  s3_get ie = GetOk reader ->
  process_csv (SHORT_TEXT_MAX_LENGTH icfg) (get_defined_attributes_map (attribute_docs ie))
              (job_of p) reader = CsvDone s ->
  s3_put ie = None -> status_update_ok ie = true ->
  db_connects e = None -> find_one_fails e = None ->
  PROCESSED_RESULTS_BUCKET cfg = Ingest.PROCESSED_RESULTS_BUCKET icfg ->
  generate_presigned_url e (default EmptyString (PROCESSED_RESULTS_BUCKET cfg))
    (result_s3_key_path icfg (job_of p)) (URL_EXPIRATION_SECONDS_GET_RESULT cfg) = Some url ->
  url <> EmptyString ->
  let w' := snd (process_record icfg ie (Body p) w) in
  let r := lambda_handler cfg e (Path (jobId p)) (jobs w') in
  statusCode r = 200
  /\ exists doc, document r = Some doc
       /\ doc !! "status" = Some (VStr (final_job_status s))
       /\ doc !! "resultS3Key" = Some (VStr (result_s3_key_path icfg (job_of p)))
       /\ doc !! "resultDownloadUrl" = Some (VStr url).
Proof.
  intros Hready Hget Hcsv Hput Hupd Hdb Hfind Hbucket Hurl Hne. cbv zeta.
  destruct (delivery_success icfg ie p w reader s Hready Hget Hcsv Hput Hupd) as [_ Hst].
  pose proof (TrackerFacts.delivery_result_key icfg ie p w reader s Hready Hget Hcsv Hput Hupd)
    as Hkey.
  destruct (process_csv_done _ _ _ _ _ Hcsv) as [Hfinal _].
  destruct Hready as (Hj & _ & _ & _ & _ & Hbk & _).
  unfold job_status, job_field in Hst, Hkey.
  destruct (jobs (snd (process_record icfg ie (Body p) w)) !! job_of p) as [doc|] eqn:Edoc;
    [|discriminate].
  cbn [mbind option_bind] in Hst, Hkey.
  unfold lambda_handler. rewrite Hdb, Hj, Hfind. fold (job_of p). rewrite Edoc.
  assert (Hne0 : doc <> ∅).
  { intros ->. rewrite lookup_empty in Hst. discriminate. }
  rewrite bool_decide_eq_false_2 by exact Hne0.
  unfold with_download_url. rewrite Hkey, Hst.
  assert (completed e (Some (VStr (final_job_status s))) = true) as ->.
  { destruct Hfinal as [-> | ->]; reflexivity. }
  pose proof (TrackerFacts.result_key_nonempty icfg (job_of p)) as Hkn.
  assert (Ht : truthy e (VStr (result_s3_key_path icfg (job_of p))) = true).
  { cbn [truthy text_of falsy]. now rewrite Hkn. }
  cbn [from_option default Datatypes.id andb]. rewrite Ht.
  unfold generate_presigned_get_url. rewrite Ht, Hbucket, Hbk. cbn [orb negb].
  cbn [text_of default from_option Datatypes.id].
  rewrite Hbucket in Hurl. rewrite Hurl.
  destruct url as [|c url]; [done|]. cbn [falsy is_empty statusCode document].
  split; [reflexivity|]. eexists. split; [reflexivity|].
  cbn [default from_option Datatypes.id].
  rewrite !lookup_insert_ne by discriminate. rewrite lookup_insert_eq. auto.
Qed.

(** *** Concrete instances *)

Import Examples Scenarios.

Lemma download_url_only_when_completed_witness :
  exists stored,
    jobs w_done !! "job-1" = Some stored
    /\ (forall f, f <> "resultDownloadUrl" -> polled_doc !! f = stored !! f).
Proof.
  destruct (download_url_only_when_completed poll_cfg poll_env "job-1" (jobs w_done) polled_doc)
    as (stored & H1 & H2 & _).
  - vm_compute. reflexivity.
  - vm_compute. reflexivity.
  - exists stored. exact (conj H1 H2).
Defined.

Lemma poll_after_delivery_witness :
  statusCode (lambda_handler poll_cfg poll_env (Path (Some "job-1")) (jobs w_done)) = 200.
Proof.
  assert (Hne : forall c s, String c s <> EmptyString) by discriminate.
  exact (proj1 (poll_after_delivery cfg0 (env_of (GetOk rd_gadget)) msg0 w0 rd_gadget
                  gadget_summary poll_cfg poll_env
                  "https://portal-results.s3.amazonaws.com/processed-files/job-1-result.json?X-Amz-Expires=3600"
                  (ready_example _) eq_refl gadget_done eq_refl eq_refl eq_refl eq_refl
                  eq_refl eq_refl (Hne _ _))).
Defined.

End PollFacts.

Module InitiateFacts.
Import PyStr Initiate.

(** X22.  For a request body whose bucket and key are strings or
    absent: the initiation answers 202, or sends anything to the queue,
    only when the key is a non-empty string and a bucket is known (the
    configured one taking precedence over the one of the request);
    then exactly one message is sent, and it carries the job identifier
    returned to the caller, that bucket, the key, the base name of the
    key as file name and the submission time. *)
Theorem accepted_request_enqueues_one_message (cfg : config) (e : env) (ev : event) :
  let r := lambda_handler cfg e ev in
  (statusCode (fst r) = 202 \/ snd r <> [] ->
     exists body bucket key,
       ev = inr body
       /\ s3Key body = Some key /\ key <> EmptyString
       /\ bucket <> EmptyString
       /\ (if Ingest.falsy (UPLOAD_BUCKET_NAME_ENV cfg) then s3Bucket body
            else UPLOAD_BUCKET_NAME_ENV cfg) = Some bucket
       /\ jobId (fst r) = Some (uuid4 e)
       /\ statusCode (fst r) = 202
       /\ exists m, snd r = [m]
            /\ message_payload m
                 = {| Ingest.jobId := Some (uuid4 e);
                      Ingest.s3Bucket := Some bucket;
                      Ingest.s3Key := Some key;
                      Ingest.originalFileName := Some (Ingest.basename key);
                      Ingest.submittedAt := Some (now_isoformat e) |}
            /\ message_maxPreviewRows m = default 50 (maxPreviewRows body)).
Proof.
  cbv zeta. unfold lambda_handler.
  destruct (Ingest.falsy (SQS_QUEUE_URL cfg)); [cbn; intros [|]; done|].
  destruct ev as [text|body]; [cbn; intros [|]; done|].
  destruct (if Ingest.falsy (UPLOAD_BUCKET_NAME_ENV cfg) then s3Bucket body
            else UPLOAD_BUCKET_NAME_ENV cfg) as [bucket|] eqn:Eb;
    [|cbn; intros [|]; done].
  destruct (Ingest.falsy (Some bucket)) eqn:Efb; [cbn; intros [|]; done|].
  destruct (s3Key body) as [key|] eqn:Ek; [|cbn; intros [|]; done].
  destruct (Ingest.falsy (Some key)) eqn:Efk; [cbn; intros [|]; done|].
  destruct (send_message e); [cbn; intros [|]; done|].
  intros _. cbn [fst snd statusCode jobId default from_option Datatypes.id].
  exists body, bucket, key.
  split; [reflexivity|]. split; [exact Ek|].
  split; [intros ->; discriminate|]. split; [intros ->; discriminate|].
  split; [exact Eb|]. split; [reflexivity|]. split; [reflexivity|].
  eexists. split; [reflexivity|]. split; reflexivity.
Qed.

(** X23.  The initiation and the consumer fit together: when the
    consumer, with a reachable store, is handed a message that the
    initiation sent for a job not yet known, it creates the job
    document under the identifier returned to the caller, with the
    submission time of the initiation, the key of the request and the
    base name of that key as file name. *)
Theorem enqueued_message_is_recorded (cfg : config) (e : env) (ev : event)
    (m : sent_message) (icfg : Ingest.config) (ie : Ingest.env) (w : Ingest.world) :
  uuid4 e <> EmptyString ->
  In m (snd (lambda_handler cfg e ev)) ->
  Ingest.db_connects ie = None ->
  Ingest.log_initial_ok ie = true ->
  Ingest.jobs w !! uuid4 e = None ->
  jobId (fst (lambda_handler cfg e ev)) = Some (uuid4 e)
  /\ exists doc,
       Ingest.jobs (snd (Ingest.process_record icfg ie (Ingest.Body (message_payload m)) w))
         !! uuid4 e = Some doc
       /\ doc !! "_id" = Some (Ingest.VStr (uuid4 e))
       /\ doc !! "submittedAt" = Some (Ingest.VStr (now_isoformat e))
       /\ exists key, (exists body, ev = inr body /\ s3Key body = Some key)
            /\ doc !! "s3Key" = Some (Ingest.VStr key)
            /\ doc !! "originalFileName" = Some (Ingest.VStr (Ingest.basename key)).
Proof.
  intros Hu Hin Hdb Hlog Hnew. unfold lambda_handler in *.
  destruct (Ingest.falsy (SQS_QUEUE_URL cfg)); [destruct Hin|].
  destruct ev as [text|body]; [destruct Hin|].
  destruct (if Ingest.falsy (UPLOAD_BUCKET_NAME_ENV cfg) then s3Bucket body
            else UPLOAD_BUCKET_NAME_ENV cfg) as [bucket|] eqn:Eb; [|destruct Hin].
  destruct (Ingest.falsy (Some bucket)) eqn:Efb; [destruct Hin|].
  destruct (s3Key body) as [key|] eqn:Ek; [|destruct Hin].
  destruct (Ingest.falsy (Some key)) eqn:Efk; [destruct Hin|].
  destruct (send_message e); [destruct Hin|].
  destruct Hin as [<- | []]. cbn [fst jobId message_payload].
  split; [reflexivity|].
  cbn [default from_option Datatypes.id].
  set (p := {| Ingest.jobId := Some (uuid4 e); Ingest.s3Bucket := Some bucket;
               Ingest.s3Key := Some key;
               Ingest.originalFileName := Some (Ingest.basename key);
               Ingest.submittedAt := Some (now_isoformat e) |}).
  assert (Fj : Ingest.falsy (Ingest.jobId p) = false).
  { cbn. now destruct (uuid4 e). }
  destruct (TrackerFacts.delivery_record icfg ie p w Fj Efb Efk Hdb Hlog)
    as (doc & Hdoc & Hkeep).
  change (Ingest.job_of p) with (uuid4 e) in *. rewrite Hnew in Hkeep.
  exists doc. split; [exact Hdoc|].
  rewrite !Hkeep by reflexivity. rewrite !lookup_union.
  split; [reflexivity | split; [reflexivity|]].
  exists key. split; [eauto|]. split; reflexivity.
Qed.

(** *** Concrete instances *)

Import Examples Scenarios.

Lemma accepted_request_enqueues_one_message_witness :
  jobId (fst (lambda_handler init_cfg init_env init_request)) = Some "job-1"
  /\ exists m, snd (lambda_handler init_cfg init_env init_request) = [m]
       /\ message_payload m = msg0.
Proof.
  destruct (accepted_request_enqueues_one_message init_cfg init_env init_request
              (or_introl eq_refl))
    as (body & bucket & key & Hev & Hk & _ & _ & Hb & Hid & _ & m & Hm & Hp & _).
  split; [exact Hid|]. exists m. split; [exact Hm|].
  injection Hev as <-. injection Hk as <-. injection Hb as <-. exact Hp.
Defined.

Lemma enqueued_message_is_recorded_witness :
  exists doc,
    Ingest.jobs (snd (Ingest.process_record cfg0 (env_of (Ingest.GetOk rd_gadget))
                        (Ingest.Body msg0) w0)) !! "job-1" = Some doc
    /\ doc !! "_id" = Some (Ingest.VStr "job-1")
    /\ doc !! "submittedAt" = Some (Ingest.VStr "2024-05-01T10:00:00+00:00").
Proof.
  assert (Hne : forall c s, String c s <> EmptyString) by discriminate.
  destruct (enqueued_message_is_recorded init_cfg init_env init_request init_message cfg0
              (env_of (Ingest.GetOk rd_gadget)) w0 (Hne _ _) (or_introl eq_refl)
              eq_refl eq_refl eq_refl)
    as (_ & doc & H1 & H2 & H3 & _).
  exists doc. exact (conj H1 (conj H2 H3)).
Defined.

End InitiateFacts.

Module ApproveMore.
Import PyStr PyNum Approve ApproveDefs.

Lemma get_set_eq k v d : get k (set k v d) = Some v.
Proof.
  induction d as [|[k' v'] d IH]; cbn [set get].
  - now rewrite String.eqb_refl.
  - destruct (String.eqb k k') eqn:E; cbn [get]; rewrite ?String.eqb_refl, ?E; auto.
Qed.

Lemma get_set_ne k k' v d : k <> k' -> get k (set k' v d) = get k d.
Proof.
  intros Hne. induction d as [|[k2 v2] d IH]; cbn [set get].
  - apply String.eqb_neq in Hne. now rewrite Hne.
  - destruct (String.eqb k' k2) eqn:E; cbn [get].
    + apply String.eqb_eq in E. subst k2.
      apply String.eqb_neq in Hne. now rewrite Hne.
    + now rewrite IH.
Qed.

Lemma get_remove_ne k k' d : k <> k' -> get k (remove k' d) = get k d.
Proof.
  intros Hne. induction d as [|[k2 v2] d IH]; cbn [remove get]; [reflexivity|].
  destruct (String.eqb k' k2) eqn:E; cbn [get].
  - apply String.eqb_eq in E. subst k2. apply String.eqb_neq in Hne. now rewrite Hne.
  - now rewrite IH.
Qed.

Lemma get_consolidate k d : measure_key k = false -> get k (consolidate d) = get k d.
Proof.
  unfold measure_key, consolidate. generalize measure_attributes as ms. intros ms. revert d.
  induction ms as [|[a [vk uk]] ms IH]; intros d H; [reflexivity|].
  cbn [existsb fst snd] in H. apply orb_false_elim in H as [H Hms].
  apply orb_false_elim in H as [H H3]. apply orb_false_elim in H as [H1 H2].
  apply String.eqb_neq in H1, H2, H3.
  cbn [fold_left]. rewrite (IH _ Hms).
  destruct (get vk d), (get uk d); try reflexivity.
  now rewrite get_set_ne, !get_remove_ne.
Qed.

Lemma get_convert_all k d d' :
  convert_all d = inr d' ->
  match get k d with
  | Some v => exists v', convert_value v = inr v' /\ get k d' = Some v'
  | None => get k d' = None
  end.
Proof.
  revert d'. induction d as [|[k1 v1] d IH]; intros d' H; cbn [convert_all] in H.
  - injection H as <-. reflexivity.
  - destruct (convert_value v1) as [t|v1'] eqn:Ev; [discriminate|].
    destruct (convert_all d) as [t|r'] eqn:Er; [discriminate|].
    injection H as <-. cbn [get]. destruct (String.eqb k k1); [eauto|].
    now apply IH.
Qed.

Lemma get_filter_out k k0 (d : dict) :
  get k (filter (fun kv => negb (String.eqb (fst kv) k0)) d)
    = if String.eqb k k0 then None else get k d.
Proof.
  unfold dict in *.
  induction d as [|[k1 v1] d IH]; [now destruct (String.eqb k k0)|].
  destruct (String.eqb k1 k0) eqn:E1.
  - rewrite filter_cons_False by (cbn; rewrite E1; auto). rewrite IH. cbn [get].
    apply String.eqb_eq in E1. subst k1.
    destruct (String.eqb k k0); reflexivity.
  - rewrite filter_cons_True by (cbn; rewrite E1; auto). cbn [get]. rewrite IH.
    destruct (String.eqb k k1) eqn:E2; [|reflexivity].
    apply String.eqb_eq in E2. subst k1. now rewrite E1.
Qed.

Lemma prepare_product_metadata ts src d doc :
  prepare_product ts src d = inr doc ->
  get "createdAt" doc = Some (JDate ts)
  /\ get "updatedAt" doc = Some (JDate ts)
  /\ is_Some (get "_id" doc)
  /\ is_Some (get "importSource" doc).
Proof.
  unfold prepare_product. destruct (derive_id d) as [t|id]; [discriminate|]. intros H.
  pose proof (get_convert_all "createdAt" _ _ H) as Hc.
  pose proof (get_convert_all "updatedAt" _ _ H) as Hu.
  pose proof (get_convert_all "_id" _ _ H) as Hi.
  pose proof (get_convert_all "importSource" _ _ H) as Hs.
  rewrite get_consolidate in Hc, Hu, Hi, Hs by reflexivity.
  rewrite !get_set_ne, get_set_eq in Hc by discriminate.
  rewrite !get_set_ne, get_set_eq in Hu by discriminate.
  rewrite !get_set_ne, get_set_eq in Hi by discriminate.
  rewrite get_set_eq in Hs.
  destruct Hc as (c & Ec & ->), Hu as (u & Eu & ->), Hi as (i & _ & ->), Hs as (s & _ & ->).
  cbn in Ec, Eu. injection Ec as <-. injection Eu as <-. eauto.
Qed.

Lemma prepare_all_docs ts src l docs :
  prepare_all ts src l = inr docs ->
  length docs = count_dicts l
  /\ Forall (fun doc => exists d, In (JObj d) l /\ prepare_product ts src d = inr doc) docs.
Proof.
  unfold count_dicts. revert docs. induction l as [|x l IH]; intros docs H.
  - injection H as <-. split; [reflexivity | constructor].
  - destruct x; cbn [prepare_all] in H; cbn [List.filter is_dict];
      try (destruct (IH docs H) as [H1 H2]; split; [exact H1|];
           eapply Forall_impl; [exact H2|]; intros doc (d & Hd & Hp); exists d;
           split; [now right | exact Hp]).
    destruct (prepare_product ts src o) as [t|doc] eqn:Ep; [discriminate|].
    destruct (prepare_all ts src l) as [t|docs'] eqn:Ea; [discriminate|].
    injection H as <-. destruct (IH docs' eq_refl) as [H1 H2].
    split; [cbn [length]; now rewrite H1|]. constructor.
    + exists o. split; [now left | exact Ep].
    + eapply Forall_impl; [exact H2|]. intros doc' (d & Hd & Hp). exists d.
      split; [now right | exact Hp].
Qed.

(** X24.  When the handler calls [bulk_write], the request held a
    [products] array, the operations are as many as the dictionaries of
    that array and at least one, and every operation sets [createdAt]
    only on insert, to the time of the request, never in [$set]; its
    [$set] holds [updatedAt] with that time and [importSource], and its
    filter is the [_id] that [$set] holds. *)
Theorem upserts_set_created_at_on_insert_only (e : env) (ev : event) (ops : list update_op) :
  snd (lambda_handler e ev) = Some ops ->
  (exists l, products_of ev = Some l /\ length ops = count_dicts l /\ ops <> [])
  /\ Forall (fun op =>
               set_on_insert op = [("createdAt", JDate (current_timestamp e))]
               /\ get "createdAt" (set_fields op) = None
               /\ get "updatedAt" (set_fields op) = Some (JDate (current_timestamp e))
               /\ is_Some (get "importSource" (set_fields op))
               /\ is_Some (filter_id op)
               /\ filter_id op = get "_id" (set_fields op)) ops.
Proof.
  unfold lambda_handler, products_of.
  destruct (db_connects e); [discriminate|].
  destruct ev as [t|[| | | | | |body|]]; try discriminate.
  destruct (get "products" body) as [[| | | | |[|x l]| |]|]; try discriminate.
  destruct (prepare_all _ _ (x :: l)) as [t|[|doc docs]] eqn:Ep; try discriminate.
  destruct (prepare_all_docs _ _ _ _ Ep) as [Hlen Hall].
  assert (Hne : doc :: docs <> []) by discriminate.
  revert Hlen Hall Hne. generalize (doc :: docs) as ds. intros ds Hlen Hall Hne.
  assert (Hops : Some (map upsert_of ds) = Some ops ->
                 (exists l0, Some (x :: l) = Some l0 /\ length ops = count_dicts l0 /\ ops <> [])
                 /\ Forall (fun op =>
                      set_on_insert op = [("createdAt", JDate (current_timestamp e))]
                      /\ get "createdAt" (set_fields op) = None
                      /\ get "updatedAt" (set_fields op) = Some (JDate (current_timestamp e))
                      /\ is_Some (get "importSource" (set_fields op))
                      /\ is_Some (filter_id op)
                      /\ filter_id op = get "_id" (set_fields op)) ops).
  { intros [= <-]. split.
    - exists (x :: l). rewrite length_map. split; [reflexivity|]. split; [exact Hlen|].
      destruct ds; [done | discriminate].
    - apply Forall_map. eapply Forall_impl; [exact Hall|].
      intros d0 (d & _ & Hp). destruct (prepare_product_metadata _ _ _ _ Hp) as (Hc & Hu & Hi & Hs).
      unfold upsert_of. cbn [set_on_insert set_fields filter_id].
      rewrite Hc, !get_filter_out. cbn [String.eqb Ascii.eqb Bool.eqb].
      now repeat split. }
  destruct (bulk_write e _); exact Hops.
Qed.

Lemma prepare_all_no_dict ts src l :
  count_dicts l = O -> prepare_all ts src l = inr [].
Proof.
  unfold count_dicts. induction l as [|x l IH]; [reflexivity|].
  destruct x; cbn [List.filter is_dict prepare_all length]; auto. discriminate.
Qed.

(** X25.  With a reachable database and a body that is a dictionary,
    the answer is 400 exactly when [products] is absent or is not a
    non-empty array (an empty array is answered 400, not 200, as the
    first test also rejects it); a 400 never reaches [bulk_write]; and
    an array without any dictionary is answered 200 with nothing
    saved. *)
Theorem requests_without_products (e : env) (body : dict) :
  db_connects e = None ->
  let r := lambda_handler e (inr (JObj body)) in
  (statusCode (fst r) = 400
     <-> match get "products" body with
         | Some (JArr (_ :: _)) => False
         | _ => True
         end)
  /\ (statusCode (fst r) = 400 -> snd r = None)
  /\ (forall l, get "products" body = Some (JArr l) -> l <> [] -> count_dicts l = O ->
        r = (ok "No valid products to save." 0, None)).
Proof.
  intros Hdb. cbv zeta. unfold lambda_handler. rewrite Hdb.
  assert (Hcode : forall t, statusCode (unexpected t) <> 400) by (intros t; discriminate).
  split; [|split].
  - destruct (get "products" body) as [[| | | | |[|x l]| |]|];
      cbn [fst statusCode fail]; try tauto.
    destruct (prepare_all _ _ _) as [t|[|doc docs]]; cbn [fst];
      [split; [intros H; now apply Hcode in H | intros []]
      |split; [discriminate | intros []] |].
    destruct (bulk_write e _); cbn [fst];
      (split; [try discriminate; intros H; now apply Hcode in H | intros []]).
  - destruct (get "products" body) as [[| | | | |[|x l]| |]|]; cbn [fst snd]; try reflexivity.
    destruct (prepare_all _ _ _) as [t|[|doc docs]]; cbn [fst snd]; try reflexivity.
    destruct (bulk_write e _); cbn [fst snd];
      try discriminate; intros H; now apply Hcode in H.
  - intros l -> Hne Hc. destruct l as [|x l]; [done|].
    now rewrite prepare_all_no_dict.
Qed.

Lemma prepare_product_id (ts : nat) (src : jval) (d doc : dict) :
  prepare_product ts src d = inr doc ->
  exists source id,
    convert_value source = inr id
    /\ get "_id" doc = Some id
    /\ truthy source = true
    /\ (absent_or_falsy "Barcode" d = false -> get "Barcode" d = Some source)
    /\ (absent_or_falsy "Barcode" d = true ->
          absent_or_falsy "ProductName" d = false /\ get "ProductName" d = Some source).
Proof.
  unfold prepare_product, derive_id, absent_or_falsy. intros H.
  destruct (get "Barcode" d) as [b|] eqn:Eb.
  - destruct (truthy b) eqn:Tb; cbn [negb] in *.
    + pose proof (get_convert_all "_id" _ _ H) as Hi.
      rewrite get_consolidate in Hi by reflexivity.
      rewrite !get_set_ne, get_set_eq in Hi by discriminate.
      destruct Hi as (id & Hc & Hid). exists b, id.
      cbn [default from_option Datatypes.id] in Hc. repeat split; auto; discriminate.
    + destruct (get "ProductName" d) as [n|] eqn:En; [|discriminate].
      destruct (truthy n) eqn:Tn; cbn [negb] in *; [|discriminate].
      pose proof (get_convert_all "_id" _ _ H) as Hi.
      rewrite get_consolidate in Hi by reflexivity.
      rewrite !get_set_ne, get_set_eq in Hi by discriminate.
      destruct Hi as (id & Hc & Hid). exists n, id.
      cbn [default from_option Datatypes.id] in Hc. repeat split; auto; discriminate.
  - destruct (get "ProductName" d) as [n|] eqn:En; [|discriminate].
    destruct (truthy n) eqn:Tn; cbn [negb] in *; [|discriminate].
    pose proof (get_convert_all "_id" _ _ H) as Hi.
    rewrite get_consolidate in Hi by reflexivity.
    rewrite !get_set_ne, get_set_eq in Hi by discriminate.
    destruct Hi as (id & Hc & Hid). exists n, id.
    cbn [default from_option Datatypes.id] in Hc. repeat split; auto; discriminate.
Qed.

(** X26.  The identifier of a prepared product is the converted
    ['Barcode'] when that is present and truthy, otherwise the
    converted ['ProductName'], which is then present and truthy: the
    value conversion that follows also applies to the identifier, so a
    barcode of digits is stored as an integer. *)
Theorem identifier_of_a_product (ts : nat) (src : jval) (d doc : dict) :
  prepare_product ts src d = inr doc ->
  exists source id,
    convert_value source = inr id
    /\ get "_id" doc = Some id
    /\ truthy source = true
    /\ (absent_or_falsy "Barcode" d = false -> get "Barcode" d = Some source)
    /\ (absent_or_falsy "Barcode" d = true ->
          absent_or_falsy "ProductName" d = false /\ get "ProductName" d = Some source).
Proof. exact (prepare_product_id ts src d doc). Qed.

Lemma take_digits_count (s : string) (acc : Z) (c1 c2 : nat) :
  fst (fst (take_digits s acc c1)) = fst (fst (take_digits s acc c2)).
Proof.
  revert acc c1 c2. induction s as [|c s IH]; intros acc c1 c2; [reflexivity|].
  cbn [take_digits]. destruct (is_digit c); [apply IH | reflexivity].
Qed.

(** [int] drops a leading zero. *)
Lemma leading_zero_is_dropped (s : string) :
  s <> EmptyString ->
  all_chars is_digit s = true ->
  (String.length s < int_max_str_digits)%nat ->
  exists z, convert_value (JStr s) = inr (JInt z)
            /\ convert_value (JStr (String "0" s)) = inr (JInt z)
            /\ 0 <= z.
Proof.
  intros Hne Hd Hlen. unfold convert_value.
  assert (Hdc : all_chars is_digit_char s = true).
  { clear Hne Hlen. induction s as [|c s IH]; [reflexivity|].
    cbn [all_chars] in *. apply andb_prop in Hd as [H1 H2].
    rewrite (IH H2), andb_true_r. unfold is_digit_char. now rewrite H1. }
  assert (Hs : isdigit s = true) by (unfold isdigit; rewrite Hdc; now destruct s).
  assert (H0 : isdigit (String "0" s) = true) by (unfold isdigit; cbn; exact Hdc).
  rewrite Hs, H0. unfold int_of_digits.
  cbn [all_chars]. rewrite Hd. change (is_digit "0") with true. cbn [andb].
  assert ((String.length s <=? int_max_str_digits)%nat = true) as ->
    by (apply Nat.leb_le; lia).
  assert ((String.length (String "0" s) <=? int_max_str_digits)%nat = true) as ->
    by (apply Nat.leb_le; cbn [String.length]; lia).
  eexists. split; [reflexivity|]. split.
  - cbn [take_digits]. change (is_digit "0") with true. cbv iota.
    change (10 * 0 + digit_val "0") with 0.
    now rewrite (take_digits_count s 0 1 0).
  - assert (Hnn : forall t acc c, 0 <= acc -> 0 <= fst (fst (take_digits t acc c))).
    { induction t as [|c t IH]; intros acc n Hacc; [exact Hacc|].
      cbn [take_digits]. destruct (is_digit c) eqn:Ec; [|exact Hacc].
      apply IH. unfold is_digit in Ec. apply andb_prop in Ec as [E1 E2].
      apply N.leb_le in E1. unfold digit_val. lia. }
    apply Hnn. lia.
Qed.

(** X27.  Two products whose barcodes are digit strings that differ by
    a leading zero get the same identifier, the integer both barcodes
    denote, so their two upserts address the same document. *)
Theorem barcodes_with_a_leading_zero_collide (ts : nat) (src : jval)
    (d1 d2 doc1 doc2 : dict) (s : string) :
  s <> EmptyString ->
  all_chars is_digit s = true ->
  (String.length s < int_max_str_digits)%nat ->
  get "Barcode" d1 = Some (JStr s) ->
  get "Barcode" d2 = Some (JStr (String "0" s)) ->
  prepare_product ts src d1 = inr doc1 ->
  prepare_product ts src d2 = inr doc2 ->
  exists z, get "_id" doc1 = Some (JInt z) /\ get "_id" doc2 = Some (JInt z)
            /\ filter_id (upsert_of doc1) = filter_id (upsert_of doc2).
Proof.
  intros Hne Hd Hlen Hb1 Hb2 Hp1 Hp2.
  destruct (leading_zero_is_dropped s Hne Hd Hlen) as (z & Hz1 & Hz2 & _).
  destruct (prepare_product_id ts src d1 doc1 Hp1) as (s1 & i1 & Hc1 & Hi1 & _ & Hs1 & _).
  destruct (prepare_product_id ts src d2 doc2 Hp2) as (s2 & i2 & Hc2 & Hi2 & _ & Hs2 & _).
  assert (F1 : absent_or_falsy "Barcode" d1 = false).
  { unfold absent_or_falsy. rewrite Hb1. now destruct s. }
  assert (F2 : absent_or_falsy "Barcode" d2 = false).
  { unfold absent_or_falsy. now rewrite Hb2. }
  specialize (Hs1 F1). specialize (Hs2 F2).
  rewrite Hb1 in Hs1. rewrite Hb2 in Hs2.
  injection Hs1 as <-. injection Hs2 as <-.
  rewrite Hz1 in Hc1. rewrite Hz2 in Hc2.
  injection Hc1 as <-. injection Hc2 as <-.
  exists z. unfold upsert_of. cbn [filter_id]. rewrite Hi1, Hi2. auto.
Qed.

(** X28.  The value conversion is idempotent: converting the values of
    a converted document changes nothing. *)
Theorem conversion_is_idempotent (d d' : dict) :
  convert_all d = inr d' -> convert_all d' = inr d'.
Proof.
  assert (Hv : forall v v', convert_value v = inr v' -> convert_value v' = inr v').
  { intros v v' H. destruct v; cbn [convert_value] in H; try (injection H as <-; reflexivity).
    destruct (isdigit s) eqn:Ed.
    - destruct (int_of_digits s); [discriminate|]. injection H as <-. reflexivity.
    - destruct (float_of_str s) eqn:Ef; injection H as <-; [reflexivity|].
      cbn [convert_value]. now rewrite Ed, Ef. }
  revert d'. induction d as [|[k v] d IH]; intros d' H; cbn [convert_all] in H.
  - injection H as <-. reflexivity.
  - destruct (convert_value v) as [t|v'] eqn:Ev; [discriminate|].
    destruct (convert_all d) as [t|r'] eqn:Er; [discriminate|].
    injection H as <-. cbn [convert_all]. now rewrite (Hv _ _ Ev), (IH r').
Qed.

Lemma consolidate_steps (d : dict) :
  consolidate d = fold_left consolidate_step measure_attributes d.
Proof. reflexivity. Qed.

Lemma consolidate_step_other k d a vk uk :
  k <> a -> k <> vk -> k <> uk -> get k (consolidate_step d (a, (vk, uk))) = get k d.
Proof.
  intros H1 H2 H3. cbn [consolidate_step].
  destruct (get vk d), (get uk d); try reflexivity.
  now rewrite get_set_ne, !get_remove_ne.
Qed.

Lemma consolidate_step_nested d a vk uk value unit_ :
  get vk d = Some value -> get uk d = Some unit_ ->
  get a (consolidate_step d (a, (vk, uk))) = Some (JObj [("value", value); ("unit", unit_)]).
Proof. intros Hv Hu. cbn [consolidate_step]. rewrite Hv, Hu. apply get_set_eq. Qed.

(** X29.  A product that has both the value and the unit column of a
    measure (weight, width or height) is stored with the two nested
    under the name of the measure, as they were in the request: the
    value conversion does not reach into the nested dictionary, so a
    value such as "10" stays a string there. *)
Theorem measures_are_nested_unconverted (ts : nat) (src : jval) (d doc : dict)
    (attr val_key unit_key : string) (value unit_ : jval) :
  In (attr, (val_key, unit_key)) measure_attributes ->
  prepare_product ts src d = inr doc ->
  get val_key d = Some value ->
  get unit_key d = Some unit_ ->
  get attr doc = Some (JObj [("value", value); ("unit", unit_)]).
Proof.
  intros Hin Hp Hv Hu. unfold prepare_product in Hp.
  destruct (derive_id d) as [t|id]; [discriminate|].
  pose proof (get_convert_all attr _ _ Hp) as Ha.
  assert (Hc : get attr (consolidate
                 (set "importSource" src
                    (set "updatedAt" (JDate ts) (set "createdAt" (JDate ts) (set "_id" id d)))))
               = Some (JObj [("value", value); ("unit", unit_)])).
  { rewrite consolidate_steps. cbn [measure_attributes In fold_left] in *.
    destruct Hin as [[= <- <- <-] | [[= <- <- <-] | [[= <- <- <-] | []]]].
    - rewrite !consolidate_step_other by discriminate.
      apply consolidate_step_nested; now rewrite !get_set_ne by discriminate.
    - rewrite consolidate_step_other by discriminate.
      apply consolidate_step_nested;
        now rewrite consolidate_step_other, !get_set_ne by discriminate.
    - apply consolidate_step_nested;
        now rewrite !consolidate_step_other, !get_set_ne by discriminate. }
  rewrite Hc in Ha. destruct Ha as (v' & Ev & ->). cbn in Ev. now injection Ev as <-.
Qed.

(** *** Concrete instances *)

Import Examples Scenarios.

Lemma prepared_boxed :
  prepare_product 0 (JStr "uploads/a.csv") boxed_product = inr (prepared boxed_product).
Proof. vm_compute. reflexivity. Qed.

Lemma prepared_boxed' :
  prepare_product 0 (JStr "uploads/a.csv") boxed_product' = inr (prepared boxed_product').
Proof. vm_compute. reflexivity. Qed.

Lemma upserts_set_created_at_on_insert_only_witness :
  Forall (fun op =>
            set_on_insert op = [("createdAt", JDate (current_timestamp db_up))]
            /\ get "createdAt" (set_fields op) = None
            /\ get "updatedAt" (set_fields op) = Some (JDate (current_timestamp db_up))
            /\ is_Some (get "importSource" (set_fields op))
            /\ is_Some (filter_id op)
            /\ filter_id op = get "_id" (set_fields op)) good_ops.
Proof.
  apply (proj2 (upserts_set_created_at_on_insert_only db_up good_request good_ops
                  ltac:(vm_compute; reflexivity))).
Defined.

Lemma requests_without_products_witness :
  statusCode (fst (lambda_handler db_up (inr (JObj [("products", JArr [])])))) = 400.
Proof.
  exact (proj2 (proj1 (requests_without_products db_up [("products", JArr [])] eq_refl)) I).
Defined.

Lemma identifier_of_a_product_witness :
  exists source id,
    convert_value source = inr id
    /\ get "_id" (prepared boxed_product) = Some id
    /\ truthy source = true
    /\ (absent_or_falsy "Barcode" boxed_product = false ->
          get "Barcode" boxed_product = Some source)
    /\ (absent_or_falsy "Barcode" boxed_product = true ->
          absent_or_falsy "ProductName" boxed_product = false
          /\ get "ProductName" boxed_product = Some source).
Proof.
  exact (identifier_of_a_product 0 (JStr "uploads/a.csv") boxed_product
           (prepared boxed_product) prepared_boxed).
Defined.

Lemma barcodes_with_a_leading_zero_collide_witness :
  exists z, get "_id" (prepared boxed_product') = Some (JInt z)
            /\ get "_id" (prepared boxed_product) = Some (JInt z)
            /\ filter_id (upsert_of (prepared boxed_product'))
                 = filter_id (upsert_of (prepared boxed_product)).
Proof.
  assert (Hne : forall c s, String c s <> EmptyString) by discriminate.
  assert (Hlen : (String.length "123" < int_max_str_digits)%nat)
    by (apply Nat.ltb_lt; vm_compute; reflexivity).
  exact (barcodes_with_a_leading_zero_collide 0 (JStr "uploads/a.csv") boxed_product'
           boxed_product (prepared boxed_product') (prepared boxed_product) "123"
           (Hne _ _) eq_refl Hlen eq_refl eq_refl prepared_boxed' prepared_boxed).
Defined.

Lemma converted_priced : convert_all priced = inr (converted priced).
Proof. vm_compute. reflexivity. Qed.

Lemma conversion_is_idempotent_witness :
  convert_all (converted priced) = inr (converted priced).
Proof. exact (conversion_is_idempotent priced (converted priced) converted_priced). Defined.

Lemma measures_are_nested_unconverted_witness :
  get "Width" (prepared boxed_product)
    = Some (JObj [("value", JStr "10"); ("unit", JStr "cm")]).
Proof.
  exact (measures_are_nested_unconverted 0 (JStr "uploads/a.csv") boxed_product
           (prepared boxed_product) "Width" "WidthValue" "WidthUnit" (JStr "10") (JStr "cm")
           (or_intror (or_introl eq_refl)) prepared_boxed eq_refl eq_refl).
Defined.

End ApproveMore.
